(* ===== verification/_CoqProject ===== *)
-Q . S2P
Prelude.v
PyValue.v
PyEffects.v
Adapters.v
Routing.v
Services.v
Orchestrator.v
Page.v
Presenter.v
Pdf.v
Session.v
