(* ===== verification/Prelude.v ===== *)
(** * A verification development of the AI Travel Planner (src/app.py)

    The program is a single Streamlit script, [src/app.py].  Streamlit
    re-executes the whole script top to bottom on every user interaction
    ("a run"); the only state that survives between runs is
    [st.session_state].  Inside one run the script

    - builds the Azure OpenAI client at module level (lines 20-27);
    - configures the page and draws its title and introduction (29-39);
    - draws the form's widgets and reads their values (182-206);
    - draws the "Plan My Trip" button and, if it was clicked or a plan
      was already made, checks that source and destination are non-empty
      (lines 209-211) and, the first time only, sets [trip_planned],
      creates an empty [trip_data] dictionary and, under a spinner, fills
      it by calling four external-service adapters in a fixed order,
      inside one [try]/[except Exception] (lines 213-251);
    - renders whatever [trip_data] holds (lines 254-272) and a footer.

    The adapters each wrap one external service and turn every
    [Exception] into a returned value:
    [get_ai_response] (Azure OpenAI, lines 42-53), [get_distance_km]
    (OpenRouteService geocoding + driving directions, lines 72-111),
    [get_weather] (AccuWeather, lines 130-142) and
    [add_event_to_calendar] (Google Calendar, lines 145-171).  A second,
    never-called [geocode] (lines 56-68) and [show_route_on_map]
    (lines 114-126) complete the list of helpers.

    ** Files (in dependency order, as listed in _CoqProject)

    - [Prelude] (this file): the development's documentation, generic
      lemmas on strings and lists, hint databases and tactics.
    - [PyValue]: the fragment of the Python runtime the script uses:
      JSON-like values (the values [requests]' [.json()] and the session
      dictionaries hold), exceptions with their class and message,
      subscripting ([x[k]]) with its [KeyError]/[IndexError]/[TypeError]
      cases, truthiness, [in], iteration, [/], [round], [str()] and the
      string methods [lower], [replace], [join]; dates and [isoformat];
      and reference readers ([dec_value], [parse_date]) for the printed
      numbers and dates.
    - [PyEffects]: the effects of one script run as a state-and-exception
      monad [M]: the read-only runtime (environment variables and the
      external services as an oracle), and the mutable state
      ([st.session_state], the log of outbound calls, the page of
      emitted Streamlit elements, and the point where Streamlit stops the
      script to rerun it).  [try]/[except Exception], [try]/[finally],
      [requests.get], [requests.post], [raise_for_status], [.json()],
      [os.getenv], the [st.*] output calls, widgets and [st.spinner] are
      its operations.
    - [Adapters]: the contract one adapter promises to the orchestrator
      (a typeclass [AdapterContract] over a record of the four adapter
      operations): it never lets an [Exception] escape, never touches
      the session state and never stops an uninterrupted run.
    - [Routing]: [get_distance_km] with its inner [geocode] and the
      top-level [geocode]; km conversion and (lon,lat)->(lat,lon) swap.
    - [Services]: the module-level AI client ([Client.setup]),
      [get_ai_response], [get_weather], [add_event_to_calendar]; the
      concrete adapter record and its [AdapterContract] instance.
    - [Orchestrator]: the button and the planning block (lines 209-251):
      the prompt, the destination slug, the order of the adapter calls,
      the spinner and the writes to [trip_data], written against the
      adapter interface.
    - [Page]: the page header and the form (lines 29-39, 182-206).
    - [Presenter]: the render block (lines 254-272), its route part and
      [show_route_on_map].
    - [Pdf]: the never-called PDF export [generate_itinerary_pdf]
      (lines 173-180), with the temporary file and pdfkit as effects.
    - [Session]: a whole run ([run_script]: client, page top, block,
      render, footer) and sequences of runs as a step relation; the
      at-most-once, invariant, progress and stuck-session theorems, and
      the refinement of the script's session cache against the spec's
      abstract [TripPlan]/[getOrCreate].

    ** Modelling choices
    - Python floats are modelled as exact rationals ([Q], kept reduced by
      [Qred]); [str()] of a float prints the exact decimal expansion
      (at most 17 fractional digits) and [round] rounds half to even on
      the exact value.  Scientific notation is not modelled.
    - Strings are Rocq [string]s of bytes (UTF-8 for the emoji of the
      source); [str.lower] lowers ASCII letters only, which is Python's
      [str.lower] on ASCII text; non-ASCII letters (and 'İ', which
      Python lowers to two code points) are not lowered, so the slug
      theorem is stated for ASCII destinations.
    - External services (OpenAI, ORS, AccuWeather, Google Calendar) are
      an oracle: a function from the request to either a response or an
      [Exception].  Every request issued is appended to a log, so the
      number and order of outbound calls are observable.
    - Streamlit can stop a run at any [st.*] call (a rerun or stop
      request raises a [BaseException] that [except Exception] does not
      catch).  The run carries an optional count of [st.*] calls after
      which this happens; [None] means the run is not interrupted.  Each
      [st.*] call (element, widget, page configuration, placeholder
      update) counts as one such point; Streamlit's internal deltas for
      layout containers are not counted separately.
    - A widget returns the value the browser holds for it; these values
      are the run's [inputs].  Placeholders, defaults and bounds
      ([min_value], [max_value], [step]) are enforced by the browser and
      are not part of the model.
    - [load_dotenv()] is not an operation of the model: the environment
      a run sees is the one it leaves.  The [AzureOpenAI] constructor is
      modelled from the openai library's behaviour (credential and
      endpoint look-up), not from code of this repository.
    - The file system is an oracle too: creating a named temporary file
      and pdfkit's conversion are logged calls that answer or raise;
      closing a file is not an effect of the model.
    - Not modelled: the text the spinner's timer thread draws into its
      placeholder after 0.5 s (it is erased when the block ends);
      folium's own validation of coordinates; traceback frame lines (only
      the last line of [traceback.format_exc()] is kept).

    ** Fuel and bounds
    - [str_replace] recurses on fuel [length s + 1]: each step consumes
      at least one character of [s], so the fuel never runs out: the
      lemma [str_replace_unfold] shows that [str_replace] satisfies the
      fuel-free recursive equations of [s.replace(old, new)], and for a
      one-character pattern (the only use, [replace(" ", "-")]) a lemma of
      [PyValue] shows the result is a [map] over the characters.
    - Decimal printing of integers recurses on fuel [log2 n + 1], at least
      the number of decimal digits: [digits_value] shows the digits read
      back as the number.  [str()] of a float prints the exact rational
      value with at most 17 fractional digits; this is Python's text when
      the value has a terminating expansion of that length (the values
      the theorems print), and is not claimed otherwise.
    - No other definition uses fuel: the script has no loop other than
      comprehensions and [join], which are structural recursions on lists.

    ** What the theorems show
    - Session ([Session]): a session calls the AI service and the
      calendar at most once, whatever sequence of runs it goes through;
      once planned it never changes; every reachable session is empty or
      planned with its data; a clicked, uninterrupted run refines the
      abstract [getOrCreate] on the plan cache; the first valid click is
      served in the same run; the calls of a session go to the four
      services in the script's order (AI, routing, weather, calendar),
      through one invariant [log_inv] of the session's call log, proved
      once for any property of the calls of one planning pass.  Three
      defects: a click with one selected
      date, or a run stopped inside planning, leaves a session that is
      planned forever but never shows a plan (the second one crashes
      every later run with [KeyError('forecast')]); and without an AI key
      or endpoint every run fails before drawing anything.
    - Orchestrator ([Orchestrator]): one planning run fills exactly the
      eight keys of the plan, whatever the adapters answer (proved against
      the [AdapterContract] interface); empty cities are rejected with no
      call; for an ASCII destination the slug is, character by
      character, the destination lowered with hyphens for spaces; the
      prompt mentions every input.
    - Adapters ([Routing], [Services]): each one's success path as an
      exact result and call log, each failure path as the returned error
      value, the equivalence of the two [geocode]s, the round trip of
      the calendar event's times, and the [AdapterContract] instance of
      the script's adapters.
    - Presentation ([Presenter]): the elements of a rendered plan, with the
      labels taken from the current form and the links from the cached
      slug, the distance rounded to two decimals half to even followed by
      the route map, and the map's markers in (lat, lon) order.
    - PDF export ([Pdf]): the result and effects on every branch; a
      failure of pdfkit leaves the temporary file it was given on disk.

    Every theorem with hypotheses has a [_witness] lemma that applies it to
    concrete inputs (demo cities, keys and service answers) evaluated by
    [reflexivity] or [vm_compute].
*)

From Stdlib Require Import String Ascii ZArith QArith List Lia Relations.
From stdpp Require Import base list.
Import ListNotations.

Open Scope string_scope.

(** ** Hint databases of the development *)

Create HintDb pysimp discriminated.
Create Rewrite HintDb pyrw.

(** ** Generic lemmas on strings *)

Lemma string_app_nil_r (s : string) : s ++ "" = s.
Proof. induction s as [|c s IH]; simpl; [reflexivity | now rewrite IH]. Qed.

Lemma string_app_assoc (a b c : string) : a ++ (b ++ c) = (a ++ b) ++ c.
Proof. induction a as [|x a IH]; simpl; [reflexivity | now rewrite IH]. Qed.

Lemma string_length_app (a b : string) :
  String.length (a ++ b) = String.length a + String.length b.
Proof. induction a as [|x a IH]; simpl; [reflexivity | now rewrite IH]. Qed.

#[export] Hint Rewrite string_app_nil_r : pyrw.

(** [infix s t]: [s] occurs in [t] (Python's [s in t] on strings). *)
Definition infix (s t : string) : Prop := exists pre post, t = pre ++ s ++ post.

Lemma infix_app_l (s t u : string) : infix s t -> infix s (t ++ u).
Proof.
  intros (pre & post & ->). exists pre, (post ++ u).
  now rewrite <- !string_app_assoc.
Qed.

Lemma infix_app_r (s t u : string) : infix s u -> infix s (t ++ u).
Proof.
  intros (pre & post & ->). exists (t ++ pre), post.
  now rewrite <- !string_app_assoc.
Qed.

Lemma infix_refl (s : string) : infix s s.
Proof. exists "", "". now rewrite string_app_nil_r. Qed.

#[export] Hint Resolve infix_refl infix_app_l infix_app_r : pysimp.

(** Strings as lists of characters, for the per-character maps of
    [str.lower] and [str.replace]. *)
Lemma string_of_list_app (a b : list ascii) :
  string_of_list_ascii (a ++ b) = string_of_list_ascii a ++ string_of_list_ascii b.
Proof. induction a as [|x a IH]; simpl; [reflexivity | now rewrite IH]. Qed.

(** ** Generic lemmas on lists and options *)

Lemma count_occ_app {A} (dec : forall x y : A, {x = y} + {x <> y}) (l1 l2 : list A) x :
  count_occ dec (l1 ++ l2) x = count_occ dec l1 x + count_occ dec l2 x.
Proof. induction l1 as [|y l1 IH]; simpl; [reflexivity|]. destruct (dec y x); lia. Qed.

Lemma filter_app_len {A} (p : A -> bool) (l1 l2 : list A) :
  length (List.filter p (l1 ++ l2)) = length (List.filter p l1) + length (List.filter p l2).
Proof. now rewrite List.filter_app, length_app. Qed.

#[export] Hint Rewrite @filter_app_len : pyrw.

(** ** Invariants of a step relation *)

Section Invariant.
Context {W : Type} (R : W -> W -> Prop) (P : W -> Prop).

(** A property that every step preserves holds all along a sequence of
    steps. *)
Lemma star_invariant :
  (forall x y, R x y -> P x -> P y) ->
  forall x z, clos_refl_trans_1n W R x z -> P x -> P z.
Proof. intros Hstep x z H. induction H; eauto. Qed.
End Invariant.

(** ** Tactics *)

(** [invs H]: invert [H] and substitute. *)
Ltac invs H := inversion H; clear H; subst.

(** [destruct_matches]: case on every [match] scrutinee in the goal
    that is not already a constructor, remembering the equation. *)
Ltac destruct_matches :=
  repeat match goal with
         | |- context [match ?x with _ => _ end] =>
             lazymatch x with
             | context [match _ with _ => _ end] => fail
             | _ => let E := fresh "E" in destruct x eqn:E
             end
         end.
