(* ===== verification/PyValue.v ===== *)
(** * PyValue: the fragment of the Python runtime used by src/app.py

    Values are the ones the script manipulates: what [requests]'
    [.json()] returns (None, bool, int, float, str, list, dict), what the
    adapters return, and what [trip_data] stores.  Operations are the
    Python built-ins the script applies to them, each with the exception
    Python raises on the wrong type or a missing key or index.  The file
    ends with readers for the decimal numbers and ISO dates the script
    prints, used to state round trips, and with the fuel and rounding
    lemmas the header of [Prelude] refers to. *)

From Stdlib Require Import String Ascii ZArith QArith List Lia.
From stdpp Require Import base list.
From S2P Require Import Prelude.
Import ListNotations.

Open Scope string_scope.
Open Scope Z_scope.

(** ** Values *)

Inductive json : Type :=
| JNone
| JBool (b : bool)
| JInt (z : Z)
| JFloat (q : Q)
| JStr (s : string)
| JList (xs : list json)
| JDict (kvs : list (string * json)).

(** ** Exceptions

    Every class below is a subclass of [Exception]; Streamlit's
    script-control exceptions, which are not, live in [PyEffects]. *)

Inductive exn_class : Type :=
| KeyError | IndexError | TypeError | ValueError | AttributeError
| ZeroDivisionError
| HTTPError            (** [requests.exceptions.HTTPError] *)
| JSONDecodeError      (** [requests.exceptions.JSONDecodeError] *)
| OtherError (name : string).  (** any other library exception *)

Record exn : Type := mk_exn { exn_cls : exn_class; exn_msg : string }.

(** [str(e)] is the exception's message. *)
Definition exn_str (e : exn) : string := exn_msg e.

Definition exn_class_name (c : exn_class) : string :=
  match c with
  | KeyError => "KeyError" | IndexError => "IndexError" | TypeError => "TypeError"
  | ValueError => "ValueError" | AttributeError => "AttributeError"
  | ZeroDivisionError => "ZeroDivisionError"
  | HTTPError => "requests.exceptions.HTTPError"
  | JSONDecodeError => "requests.exceptions.JSONDecodeError"
  | OtherError n => n
  end.

Definition newline : string := String (ascii_of_nat 10) "".

(** The last line of [traceback.format_exc()]; the frame lines above it
    are not modelled. *)
Definition format_exc (e : exn) : string :=
  "Traceback (most recent call last):" ++ newline
  ++ exn_class_name (exn_cls e) ++ ": " ++ exn_msg e ++ newline.

(** Results of pure operations that may raise. *)
Inductive res (A : Type) : Type :=
| Ok (a : A)
| Exc (e : exn).
Arguments Ok {A} a.
Arguments Exc {A} e.

Definition res_bind {A B} (r : res A) (k : A -> res B) : res B :=
  match r with Ok a => k a | Exc e => Exc e end.

Declare Scope res_scope.
Notation "'let?' x := r 'in' k" := (res_bind r (fun x => k))
  (at level 10, x binder, r at level 100, k at level 200) : res_scope.
Open Scope res_scope.

Definition raise_ {A} (c : exn_class) (msg : string) : res A := Exc (mk_exn c msg).

(** ** Printing numbers *)

Definition digit (n : Z) : ascii := ascii_of_nat (48 + Z.to_nat n)%nat.

(** Decimal digits of [n >= 0], most significant first; [fuel] bounds the
    number of digits. *)
Fixpoint digits_aux (fuel : nat) (n : Z) (acc : string) : string :=
  match fuel with
  | O => acc
  | S f =>
      let acc' := String (digit (n mod 10)) acc in
      if n <? 10 then acc' else digits_aux f (n / 10) acc'
  end.

Definition digits (n : Z) : string := digits_aux (S (Z.to_nat (Z.log2 n))) n "".

(** [str(z)] for an int. *)
Definition str_int (z : Z) : string :=
  if z <? 0 then "-" ++ digits (- z) else digits z.

(** Fractional digits of [r / d] (0 <= r < d), at most [fuel] of them,
    stopping when the remainder is zero. *)
Fixpoint frac_digits (fuel : nat) (r d : Z) : string :=
  match fuel with
  | O => ""
  | S f => if r =? 0 then "" else String (digit (r * 10 / d)) (frac_digits f (r * 10 mod d) d)
  end.

(** [str(x)] for a float, printed from its exact value. *)
Definition str_float (q : Q) : string :=
  let n := Qnum q in
  let d := Zpos (Qden q) in
  let a := Z.abs n in
  let fr := frac_digits 17 (a mod d) d in
  (if n <? 0 then "-" else "") ++ digits (a / d) ++ "."
  ++ (match fr with EmptyString => "0" | _ => fr end).

(** ** [str] and [repr] *)

Definition type_name (v : json) : string :=
  match v with
  | JNone => "NoneType" | JBool _ => "bool" | JInt _ => "int" | JFloat _ => "float"
  | JStr _ => "str" | JList _ => "list" | JDict _ => "dict"
  end.

Definition quote (s : string) : string := "'" ++ s ++ "'".

(** [sep.join(xs)]. *)
Definition py_join (sep : string) (xs : list string) : string := String.concat sep xs.

Fixpoint py_repr (v : json) : string :=
  match v with
  | JNone => "None"
  | JBool true => "True"
  | JBool false => "False"
  | JInt z => str_int z
  | JFloat q => str_float q
  | JStr s => quote s
  | JList xs => "[" ++ py_join ", " (List.map py_repr xs) ++ "]"
  | JDict kvs =>
      "{" ++ py_join ", " (List.map (fun kv => quote (fst kv) ++ ": " ++ py_repr (snd kv)) kvs) ++ "}"
  end.

(** [str(v)], and an f-string's [{v}]. *)
Definition py_str (v : json) : string :=
  match v with JStr s => s | _ => py_repr v end.

(** ** Subscripting [v[k]] *)

Inductive key : Type := KS (s : string) | KI (i : Z).

Fixpoint assoc (k : string) (kvs : list (string * json)) : option json :=
  match kvs with
  | [] => None
  | (k', v) :: rest => if String.eqb k k' then Some v else assoc k rest
  end.

(** Python's index normalisation: negative indices count from the end. *)
Definition py_index (len : nat) (i : Z) : option nat :=
  if (0 <=? i) && (i <? Z.of_nat len) then Some (Z.to_nat i)
  else if (- Z.of_nat len <=? i) && (i <? 0) then Some (Z.to_nat (Z.of_nat len + i))
  else None.

Definition getitem (v : json) (k : key) : res json :=
  match v, k with
  | JDict kvs, KS s =>
      match assoc s kvs with Some x => Ok x | None => raise_ KeyError (quote s) end
  | JDict _, KI i => raise_ KeyError (str_int i)
  | JList xs, KI i =>
      match py_index (length xs) i with
      | Some n => match nth_error xs n with
                  | Some x => Ok x
                  | None => raise_ IndexError "list index out of range"
                  end
      | None => raise_ IndexError "list index out of range"
      end
  | JList _, KS _ => raise_ TypeError "list indices must be integers or slices, not str"
  | JStr s, KI i =>
      match py_index (String.length s) i with
      | Some n => match String.get n s with
                  | Some c => Ok (JStr (String c ""))
                  | None => raise_ IndexError "string index out of range"
                  end
      | None => raise_ IndexError "string index out of range"
      end
  | JStr _, KS _ => raise_ TypeError "string indices must be integers, not 'str'"
  | _, _ => raise_ TypeError (quote (type_name v) ++ " object is not subscriptable")
  end.

(** A chain of subscripts [v[k1][k2]...]. *)
Fixpoint getpath (v : json) (ks : list key) : res json :=
  match ks with
  | [] => Ok v
  | k :: rest => let? x := getitem v k in getpath x rest
  end.

(** [d.get(k, default)]. *)
Definition py_get (v : json) (k : string) (dflt : json) : res json :=
  match v with
  | JDict kvs => Ok (match assoc k kvs with Some x => x | None => dflt end)
  | _ => raise_ AttributeError (quote (type_name v) ++ " object has no attribute 'get'")
  end.

(** ** Truthiness, [in], iteration *)

Definition truthy (v : json) : bool :=
  match v with
  | JNone => false
  | JBool b => b
  | JInt z => negb (z =? 0)
  | JFloat q => negb (Qeq_bool q 0)
  | JStr s => negb (String.eqb s "")
  | JList xs => negb (Nat.eqb (length xs) 0%nat)
  | JDict kvs => negb (Nat.eqb (length kvs) 0%nat)
  end.

(** [s in v] for a string [s]. *)
Definition py_in (s : string) (v : json) : res bool :=
  match v with
  | JDict kvs => Ok (existsb (fun kv => String.eqb (fst kv) s) kvs)
  | JList xs => Ok (existsb (fun x => match x with JStr t => String.eqb t s | _ => false end) xs)
  | JStr t => Ok (match String.index 0 s t with Some _ => true | None => false end)
  | _ => raise_ TypeError ("argument of type " ++ quote (type_name v) ++ " is not iterable")
  end.

Fixpoint chars (s : string) : list json :=
  match s with EmptyString => [] | String c r => JStr (String c "") :: chars r end.

(** The elements [for x in v] visits. *)
Definition py_iter (v : json) : res (list json) :=
  match v with
  | JList xs => Ok xs
  | JDict kvs => Ok (List.map (fun kv => JStr (fst kv)) kvs)
  | JStr s => Ok (chars s)
  | _ => raise_ TypeError (quote (type_name v) ++ " object is not iterable")
  end.

(** A list comprehension [[f(x) for x in v]] whose body may raise. *)
Fixpoint map_res {A B} (f : A -> res B) (xs : list A) : res (list B) :=
  match xs with
  | [] => Ok []
  | x :: rest => let? y := f x in let? ys := map_res f rest in Ok (y :: ys)
  end.

(** ** Arithmetic *)

Definition as_int (v : json) : option Z :=
  match v with JBool b => Some (if b then 1 else 0)%Z | JInt z => Some z | _ => None end.

Definition as_num (v : json) : option Q :=
  match as_int v with
  | Some z => Some (inject_Z z)
  | None => match v with JFloat q => Some q | _ => None end
  end.

Definition dquote : string := String (ascii_of_nat 34) "".

(** [x + y]. *)
Definition py_add (x y : json) : res json :=
  match x, y with
  | JStr a, JStr b => Ok (JStr (a ++ b))
  | JList a, JList b => Ok (JList (a ++ b))
  | JStr _, _ =>
      raise_ TypeError ("can only concatenate str (not " ++ dquote ++ type_name y ++ dquote ++ ") to str")
  | _, _ =>
      match as_int x, as_int y with
      | Some a, Some b => Ok (JInt (a + b))
      | _, _ =>
          match as_num x, as_num y with
          | Some a, Some b => Ok (JFloat (Qred (a + b)))
          | _, _ => raise_ TypeError ("unsupported operand type(s) for +: " ++ quote (type_name x)
                                      ++ " and " ++ quote (type_name y))
          end
      end
  end.

(** [x / y] (true division: always a float). *)
Definition py_truediv (x y : json) : res json :=
  match as_num x, as_num y with
  | Some a, Some b =>
      if Qeq_bool b 0 then raise_ ZeroDivisionError "division by zero"
      else Ok (JFloat (Qred (a / b)))
  | _, _ => raise_ TypeError ("unsupported operand type(s) for /: " ++ quote (type_name x)
                              ++ " and " ++ quote (type_name y))
  end.

(** Rounding an exact rational to the nearest integer, ties to even. *)
Definition round_half_even (q : Q) : Z :=
  let n := Qnum q in
  let d := Zpos (Qden q) in
  let f := n / d in
  let r := n mod d in
  match Z.compare (2 * r) d with
  | Lt => f
  | Gt => f + 1
  | Eq => if Z.even f then f else f + 1
  end.

(** [round(x, nd)]. *)
Definition py_round (x : json) (nd : Z) : res json :=
  match x with
  | JBool _ | JInt _ =>
      match as_int x with Some z => Ok (JInt z) | None => Ok x end
  | JFloat q =>
      let s := inject_Z (10 ^ nd) in
      Ok (JFloat (Qred (inject_Z (round_half_even (q * s)) / s)))
  | _ => raise_ TypeError ("type " ++ type_name x ++ " doesn't define __round__ method")
  end.

(** ** String methods *)

Definition ascii_lower (c : ascii) : ascii :=
  let n := nat_of_ascii c in
  if Nat.leb 65 n && Nat.leb n 90 then ascii_of_nat (n + 32)%nat else c.

(** Whether every byte of [s] is ASCII: there [s.lower()] lowers exactly
    the letters A-Z, as [str_lower] does. *)
Definition ascii_only (s : string) : bool :=
  forallb (fun c => Nat.ltb (nat_of_ascii c) 128) (list_ascii_of_string s).

(** [s.lower()] (ASCII letters). *)
Fixpoint str_lower (s : string) : string :=
  match s with EmptyString => EmptyString | String c r => String (ascii_lower c) (str_lower r) end.

Fixpoint replace_fuel (fuel : nat) (old new s : string) : string :=
  match fuel with
  | O => s
  | S f =>
      match old with
      | EmptyString =>
          match s with
          | EmptyString => new
          | String c r => new ++ String c (replace_fuel f old new r)
          end
      | String _ _ =>
          if String.prefix old s
          then new ++ replace_fuel f old new
                 (substring (String.length old) (String.length s - String.length old)%nat s)
          else match s with
               | EmptyString => EmptyString
               | String c r => String c (replace_fuel f old new r)
               end
      end
  end.

(** [s.replace(old, new)]: every non-overlapping occurrence, left to right.
    Each step consumes at least one character, so [length s + 1] steps
    suffice. *)
Definition str_replace (old new s : string) : string :=
  replace_fuel (S (String.length s)) old new s.

(** ** Dates ([datetime.date], [datetime.datetime]) *)

Record date : Type := mk_date { year : Z; month : Z; day : Z }.

Record datetime : Type := mk_datetime {
  dt_date : date; dt_hour : Z; dt_minute : Z; dt_second : Z; dt_micro : Z }.

(** A value the calendar adapter may receive: [datetime] is a subclass
    of [date] in Python. *)
Inductive when : Type := WDate (d : date) | WDateTime (t : datetime).

(** [s] left-padded with zeros to [w] characters (["%0wd"] on the
    digits [s] of a number). *)
Fixpoint zero_pad (w : nat) (s : string) : string :=
  match w with
  | O => s
  | S w' => if Nat.leb (S w') (String.length s) then s else "0" ++ zero_pad w' s
  end.

Definition pad (w : nat) (n : Z) : string := zero_pad w (digits n).

(** [str(d)] = [d.isoformat()] = ["%04d-%02d-%02d"]. *)
Definition date_isoformat (d : date) : string :=
  pad 4 (year d) ++ "-" ++ pad 2 (month d) ++ "-" ++ pad 2 (day d).

(** [t.isoformat()]: ["YYYY-MM-DDTHH:MM:SS"], plus [".ffffff"] when the
    microsecond is not zero. *)
Definition datetime_isoformat (t : datetime) : string :=
  date_isoformat (dt_date t) ++ "T" ++ pad 2 (dt_hour t) ++ ":" ++ pad 2 (dt_minute t)
  ++ ":" ++ pad 2 (dt_second t)
  ++ (if dt_micro t =? 0 then "" else "." ++ pad 6 (dt_micro t)).

(** [datetime.combine(d, datetime.min.time())]: midnight of [d]'s date. *)
Definition combine_midnight (w : when) : datetime :=
  match w with
  | WDate d => mk_datetime d 0 0 0 0
  | WDateTime t => mk_datetime (dt_date t) 0 0 0 0
  end.

(** ** Lemmas on the string methods *)

(** Apply [f] to every character and concatenate the pieces. *)
Fixpoint map_chars (f : ascii -> string) (s : string) : string :=
  match s with EmptyString => EmptyString | String c r => f c ++ map_chars f r end.

Lemma substring_all (s : string) : substring 0 (String.length s) s = s.
Proof. induction s as [|c s IH]; simpl; [reflexivity | now rewrite IH]. Qed.

Lemma replace_fuel_char (fuel : nat) c new s :
  (String.length s < fuel)%nat ->
  replace_fuel fuel (String c EmptyString) new s
  = map_chars (fun x => if Ascii.eqb x c then new else String x EmptyString) s.
Proof.
  revert fuel. induction s as [|x s IH]; intros [|fuel] Hlen; simpl in *; try lia; [reflexivity|].
  destruct (ascii_dec c x) as [<-|Hne].
  - rewrite Ascii.eqb_refl. replace (String.prefix "" s) with true by (now destruct s).
    rewrite Nat.sub_0_r, substring_all. f_equal. apply IH. lia.
  - replace (Ascii.eqb x c) with false by (symmetry; apply Ascii.eqb_neq; congruence).
    simpl. f_equal. apply IH. lia.
Qed.

(** [s.replace(c, new)] for a one-character [c] replaces each [c]. *)
Lemma str_replace_char c new s :
  str_replace (String c EmptyString) new s
  = map_chars (fun x => if Ascii.eqb x c then new else String x EmptyString) s.
Proof. unfold str_replace. apply replace_fuel_char. lia. Qed.

Lemma str_lower_length s : String.length (str_lower s) = String.length s.
Proof. induction s; simpl; auto. Qed.

(** [x + "..."] is a string when it succeeds. *)
Lemma py_add_str_r x t v : py_add x (JStr t) = Ok v -> exists u, v = JStr u.
Proof. destruct x; simpl; intros H; try discriminate; injection H as <-; eauto. Qed.

(** Every element of the list occurs in [sep.join(xs)]. *)
Lemma infix_join sep xs x : In x xs -> infix x (py_join sep xs).
Proof.
  unfold py_join. induction xs as [|y xs IH]; simpl; [contradiction|].
  intros [<- | Hin].
  - destruct xs; [apply infix_refl | apply infix_app_l, infix_refl].
  - destruct xs as [|z xs]; [contradiction|]. apply infix_app_r, infix_app_r, IH, Hin.
Qed.

(** [k in d] agrees with [d[k]] on a dictionary. *)
Lemma existsb_assoc k kvs :
  existsb (fun kv => String.eqb (fst kv) k) kvs = match assoc k kvs with Some _ => true | None => false end.
Proof.
  induction kvs as [|[k' v] kvs IH]; simpl; [reflexivity|].
  rewrite (String.eqb_sym k' k). destruct (String.eqb k k'); simpl; auto.
Qed.

(** [x / y] is a float when it succeeds. *)
Lemma py_truediv_float x y v : py_truediv x y = Ok v -> exists q, v = JFloat q.
Proof.
  unfold py_truediv. destruct (as_num x), (as_num y); try discriminate.
  destruct (Qeq_bool _ 0); [discriminate|]. intros H. injection H as <-. eauto.
Qed.

(** ** Fuel of [str.replace] *)

Lemma substring_length n m s : (String.length (substring n m s) <= m)%nat.
Proof.
  revert n m. induction s as [|c s IH]; intros [|n] [|m]; simpl; try lia; try apply IH.
  specialize (IH 0%nat m). lia.
Qed.

Lemma prefix_length p s : String.prefix p s = true -> (String.length p <= String.length s)%nat.
Proof.
  revert s. induction p as [|a p IH]; intros [|c s]; simpl; try lia; try discriminate.
  destruct (ascii_dec a c); [intros H; specialize (IH s H); lia | discriminate].
Qed.

(** Each step of [replace_fuel] consumes at least one character, so two
    runs with more fuel than the length agree. *)
Lemma replace_fuel_stable f1 f2 old new s :
  (String.length s < f1)%nat -> (String.length s < f2)%nat ->
  replace_fuel f1 old new s = replace_fuel f2 old new s.
Proof.
  revert f2 s. induction f1 as [|f1 IH]; intros [|f2] s H1 H2; simpl; try lia.
  destruct old as [|a o].
  - destruct s as [|c r]; [reflexivity|]. simpl in *. f_equal. f_equal. apply IH; lia.
  - destruct (String.prefix (String a o) s) eqn:Hp.
    + apply prefix_length in Hp. f_equal. apply IH; pose proof (substring_length (String.length (String a o))
        (String.length s - String.length (String a o)) s); simpl in *; lia.
    + destruct s as [|c r]; [reflexivity|]. simpl in *. f_equal. apply IH; lia.
Qed.

(** ** Rounding *)

(** [round_half_even] is within one half of its argument. *)
Lemma round_half_even_bound q :
  (q - (1 # 2) <= inject_Z (round_half_even q) <= q + (1 # 2))%Q.
Proof.
  destruct q as [n d]. unfold round_half_even, Qle, Qminus, Qplus, Qopp; simpl.
  pose proof (Z.mod_pos_bound n (Zpos d) eq_refl) as Hr.
  pose proof (Z.div_mod n (Zpos d) ltac:(lia)) as Hn.
  set (f := n / Zpos d) in *. set (r := n mod Zpos d) in *.
  destruct (Z.compare_spec (2 * r) (Zpos d)) as [E|E|E];
    [destruct (Z.even f)|..]; split; nia.
Qed.

(** A tie is broken towards the even neighbour. *)
Lemma round_half_even_tie q :
  (q - inject_Z (round_half_even q) == 1 # 2 \/ inject_Z (round_half_even q) - q == 1 # 2)%Q ->
  Z.even (round_half_even q) = true.
Proof.
  destruct q as [n d]. unfold round_half_even, Qeq, Qminus, Qplus, Qopp; simpl. intros H.
  pose proof (Z.mod_pos_bound n (Zpos d) eq_refl) as Hr.
  pose proof (Z.div_mod n (Zpos d) ltac:(lia)) as Hn.
  set (f := n / Zpos d) in *. set (r := n mod Zpos d) in *.
  destruct (Z.compare_spec (2 * r) (Zpos d)) as [E|E|E];
    [destruct (Z.even f) eqn:Ef; [exact Ef | now rewrite Z.even_add, Ef] | ..];
    rewrite ?Pos2Z.inj_mul in *; destruct H as [H|H]; nia.
Qed.

(** [str.replace] terminates with the result of its unbounded
    recursion.  [str_replace] runs [replace_fuel] with [length s + 1]
    steps; this fuel never runs out, since [str_replace] satisfies the
    recursive equations of [s.replace(old, new)] without any fuel: an
    empty [old] inserts [new] around every character, a non-empty one is
    replaced at every position where it occurs, scanning left to right
    past each replaced occurrence. *)
Theorem str_replace_unfold old new s :
  str_replace old new s =
  match old with
  | EmptyString =>
      match s with
      | EmptyString => new
      | String c r => new ++ String c (str_replace old new r)
      end
  | String _ _ =>
      if String.prefix old s
      then new ++ str_replace old new
                    (substring (String.length old) (String.length s - String.length old)%nat s)
      else match s with
           | EmptyString => EmptyString
           | String c r => String c (str_replace old new r)
           end
  end.
Proof.
  unfold str_replace at 1. simpl replace_fuel.
  destruct old as [|a o]; [destruct s as [|c r]; [reflexivity|]|].
  - reflexivity.
  - destruct (String.prefix (String a o) s) eqn:Hp.
    + apply prefix_length in Hp. unfold str_replace. f_equal. apply replace_fuel_stable; [|lia].
      pose proof (substring_length (String.length (String a o))
                    (String.length s - String.length (String a o)) s). simpl in *. lia.
    + destruct s; reflexivity.
Qed.

(** ** Reading decimal numbers back *)

(** The value of a decimal digit. *)
Definition digit_value (c : ascii) : option Z :=
  let n := nat_of_ascii c in
  if Nat.leb 48 n && Nat.leb n 57 then Some (Z.of_nat n - 48) else None.

(** The value of a string of decimal digits (leading zeros allowed). *)
Fixpoint dec_value (s : string) : option Z :=
  match s with
  | EmptyString => Some 0
  | String c r =>
      match digit_value c, dec_value r with
      | Some a, Some b => Some (a * 10 ^ Z.of_nat (String.length r) + b)
      | _, _ => None
      end
  end.

Lemma digit_value_digit k : 0 <= k < 10 -> digit_value (digit k) = Some k.
Proof.
  intros Hk. assert (k = 0 \/ k = 1 \/ k = 2 \/ k = 3 \/ k = 4 \/ k = 5 \/ k = 6 \/ k = 7
                     \/ k = 8 \/ k = 9) as Hc by lia.
  repeat destruct Hc as [-> | Hc]; try reflexivity; subst; reflexivity.
Qed.

(** [digits_aux] prepends the digits of [n] to [acc]. *)
Lemma digits_aux_spec f n acc v :
  0 <= n < 10 ^ Z.of_nat f -> dec_value acc = Some v ->
  dec_value (digits_aux f n acc) = Some (n * 10 ^ Z.of_nat (String.length acc) + v) /\
  (String.length (digits_aux f n acc) <= f + String.length acc)%nat.
Proof.
  revert n acc v. induction f as [|f IH]; intros n acc v Hn Hacc.
  - simpl in Hn. assert (n = 0) as -> by lia. simpl. split; [now rewrite Hacc | lia].
  - simpl digits_aux. rewrite Nat2Z.inj_succ, Z.pow_succ_r in Hn by lia.
    pose proof (Z.mod_pos_bound n 10 ltac:(lia)) as Hm.
    assert (Hs : dec_value (String (digit (n mod 10)) acc)
                 = Some (n mod 10 * 10 ^ Z.of_nat (String.length acc) + v))
      by (cbn [dec_value]; now rewrite digit_value_digit, Hacc by lia).
    destruct (n <? 10) eqn:Hlt.
    + apply Z.ltb_lt in Hlt. rewrite (Z.mod_small n 10) in Hs at 2 by lia.
      split; [exact Hs | cbn [String.length]; lia].
    + apply Z.ltb_ge in Hlt.
      destruct (IH (n / 10) _ _ ltac:(split; [apply Z.div_pos | apply Z.div_lt_upper_bound]; lia) Hs)
        as [IH1 IH2].
      split; [|cbn [String.length] in *; lia]. rewrite IH1. f_equal. cbn [String.length].
      rewrite Nat2Z.inj_succ, Z.pow_succ_r by lia.
      pose proof (Z.div_mod n 10 ltac:(lia)). nia.
Qed.

(** [digits n] reads back as [n], with at most [k] digits when [n < 10^k]. *)
Lemma digits_value n : 0 <= n -> dec_value (digits n) = Some n.
Proof.
  intros Hn. unfold digits.
  destruct (digits_aux_spec (S (Z.to_nat (Z.log2 n))) n "" 0) as [H _]; [|reflexivity|].
  - split; [exact Hn|]. destruct (Z.eq_dec n 0) as [->|Hne]; [simpl; lia|].
    destruct (Z.log2_spec n ltac:(lia)) as [_ Hlt].
    apply (Z.lt_le_trans _ _ _ Hlt). rewrite Nat2Z.inj_succ, Z2Nat.id by (apply Z.log2_nonneg).
    apply Z.pow_le_mono_l. lia.
  - rewrite H. f_equal. simpl. lia.
Qed.

Lemma digits_aux_length f n acc k :
  0 <= n < 10 ^ Z.of_nat (S k) ->
  (String.length (digits_aux f n acc) <= S k + String.length acc)%nat.
Proof.
  revert n acc k. induction f as [|f IH]; intros n acc k Hn; simpl; [lia|].
  destruct (n <? 10) eqn:Hlt; [simpl; lia|]. apply Z.ltb_ge in Hlt.
  destruct k as [|k]; [simpl in Hn; lia|].
  assert (Hq : 0 <= n / 10 < 10 ^ Z.of_nat (S k)).
  { rewrite Nat2Z.inj_succ, Z.pow_succ_r in Hn by lia.
    split; [apply Z.div_pos; lia | apply Z.div_lt_upper_bound; lia]. }
  pose proof (IH (n / 10) (String (digit (n mod 10)) acc) k Hq) as H.
  cbn [String.length] in H. lia.
Qed.

(** [pad w n] is [n] in exactly [w] digits, for [0 <= n < 10^w]. *)
Lemma zero_pad_length w s : String.length (zero_pad w s) = Nat.max w (String.length s).
Proof.
  induction w as [|w IH]; cbn [zero_pad]; [lia|].
  destruct (Nat.leb (S w) (String.length s)) eqn:E; [apply Nat.leb_le in E; lia|].
  apply Nat.leb_gt in E. cbn [String.append String.length]. rewrite IH. lia.
Qed.

Lemma zero_pad_value w s v : dec_value s = Some v -> dec_value (zero_pad w s) = Some v.
Proof.
  induction w as [|w IH]; intros H; cbn [zero_pad]; [exact H|].
  destruct (Nat.leb (S w) (String.length s)); [exact H|].
  cbn [String.append dec_value]. rewrite (IH H). reflexivity.
Qed.

Lemma pad_spec w n :
  0 <= n < 10 ^ Z.of_nat (S w) ->
  String.length (pad (S w) n) = S w /\ dec_value (pad (S w) n) = Some n.
Proof.
  intros Hn. unfold pad. split.
  - rewrite zero_pad_length. unfold digits.
    pose proof (digits_aux_length (S (Z.to_nat (Z.log2 n))) n "" w Hn). simpl in *. lia.
  - apply zero_pad_value, digits_value. lia.
Qed.

(** ** Reading an ISO date back *)

(** The dates Python's [date] admits, for the fields [isoformat] prints. *)
Definition valid_date (d : date) : Prop :=
  (1 <= year d <= 9999) /\ (1 <= month d <= 12) /\ (1 <= day d <= 31).

(** A reader for ["YYYY-MM-DD"]. *)
Definition parse_date (s : string) : option date :=
  if Nat.eqb (String.length s) 10 && String.eqb (substring 4 1 s) "-"
     && String.eqb (substring 7 1 s) "-" then
    match dec_value (substring 0 4 s), dec_value (substring 5 2 s), dec_value (substring 8 2 s) with
    | Some y, Some m, Some dd => Some (mk_date y m dd)
    | _, _, _ => None
    end
  else None.

(** [isoformat] of a valid date reads back as the date. *)
Lemma date_isoformat_roundtrip d : valid_date d -> parse_date (date_isoformat d) = Some d.
Proof.
  intros (Hy & Hm & Hd). unfold date_isoformat.
  destruct (pad_spec 3 (year d)) as [Ly Vy]; [simpl; lia|].
  destruct (pad_spec 1 (month d)) as [Lm Vm]; [simpl; lia|].
  destruct (pad_spec 1 (day d)) as [Ld Vd]; [simpl; lia|].
  revert Ly Vy Lm Vm Ld Vd.
  generalize (pad 4 (year d)) (pad 2 (month d)) (pad 2 (day d)).
  intros a b c.
  destruct a as [|a1 [|a2 [|a3 [|a4 [|]]]]]; try discriminate;
  destruct b as [|b1 [|b2 [|]]]; try discriminate;
  destruct c as [|c1 [|c2 [|]]]; try discriminate.
  intros _ Vy _ Vm _ Vd. unfold parse_date. cbn -[dec_value].
  rewrite Vy, Vm, Vd. now destruct d.
Qed.

Lemma parse_date_length s d : parse_date s = Some d -> String.length s = 10%nat.
Proof.
  unfold parse_date. destruct (Nat.eqb (String.length s) 10) eqn:E; [|discriminate].
  intros _. now apply Nat.eqb_eq.
Qed.

Lemma substring_app_l n m a b :
  (n + m <= String.length a)%nat -> substring n m (a ++ b) = substring n m a.
Proof.
  revert n m. induction a as [|c a IH]; intros n m H; simpl in H.
  - assert (n = 0%nat /\ m = 0%nat) as [-> ->] by lia. destruct b; reflexivity.
  - destruct n as [|n], m as [|m]; simpl; try reflexivity.
    + f_equal. apply IH. lia.
    + apply IH. lia.
    + apply IH. lia.
Qed.

Lemma substring_app_r a b : substring (String.length a) (String.length b) (a ++ b) = b.
Proof. induction a as [|c a IH]; simpl; [apply substring_all | exact IH]. Qed.
