(* ===== verification/PyEffects.v ===== *)
(** * PyEffects: the effects of one run of the Streamlit script

    A run reads a fixed runtime (environment variables, the external
    services) and threads a state: [st.session_state], the log of
    outbound calls, the page of emitted [st.*] elements, and the point at
    which Streamlit stops the script.  The monad [M] has three outcomes:
    a value, a Python [Exception] (caught by [except Exception]), or a
    halt (Streamlit's rerun/stop request, a [BaseException] that no
    [except Exception] of the script catches). *)

From Stdlib Require Import String Ascii ZArith QArith List Lia.
From stdpp Require Import base list gmap strings.
From S2P Require Import Prelude PyValue.
Import ListNotations.

Open Scope string_scope.
Open Scope Z_scope.

(** ** The outside world *)

Inductive http_method : Type := GET | POST.

Record http_req : Type := mk_req {
  rq_method : http_method;
  rq_url : string;
  rq_params : list (string * string);
  rq_headers : list (string * string);
  rq_json : option json }.

(** A response: status, reason phrase and the body parsed as JSON
    ([None] when the body is not JSON). *)
Record http_resp : Type := mk_resp {
  rs_status : Z; rs_reason : string; rs_body : option json }.

(** Google OAuth credentials as built at app.py:152-158. *)
Record gcreds : Type := mk_gcreds {
  cr_refresh_token : option string;
  cr_token_uri : string;
  cr_client_id : option string;
  cr_client_secret : option string }.

(** One outbound call: a service request, or an effect on the file
    system ([tempfile.NamedTemporaryFile(delete=False, suffix=...)],
    [pdfkit.from_string(html, path)]). *)
Inductive call : Type :=
| CAi (model : option string) (system user : string)
| CHttp (r : http_req)
| CCal (c : gcreds) (calendar_id : string) (event : json)
| CTempFile (suffix : string)
| CPdf (html path : string).

(** The services: each call either answers or raises an [Exception].
    [svc_ai] answers with [response.choices[0].message.content];
    [svc_tmp] with the name of the file it created; [svc_pdf] writes the
    PDF (pdfkit runs [wkhtmltopdf], which raises [OSError] when it is
    missing). *)
Record services : Type := mk_services {
  svc_ai : option string -> string -> string -> res json;
  svc_http : http_req -> res http_resp;
  svc_cal : gcreds -> string -> json -> res json;
  svc_tmp : string -> res string;
  svc_pdf : string -> string -> res unit }.

(** A file system where neither temporary files nor PDFs can be made
    (for runtimes that never touch files). *)
Definition no_tmp (suffix : string) : res string :=
  Exc (mk_exn (OtherError "FileNotFoundError") "No usable temporary directory found").
Definition no_pdf (html path : string) : res unit :=
  Exc (mk_exn (OtherError "OSError") "No wkhtmltopdf executable found").

Record runtime : Type := mk_runtime {
  rt_env : list (string * string);
  rt_svc : services }.

(** ** The page *)

Record marker : Type := mk_marker { mk_location : json; mk_popup : string; mk_color : string }.

Record polyline : Type := mk_polyline { pl_locations : json; pl_color : string; pl_weight : Z }.

(** A [folium.Map] with what was added to it. *)
Record fmap : Type := mk_fmap {
  fm_location : json; fm_zoom : Z; fm_markers : list marker; fm_lines : list polyline }.

Inductive ui : Type :=
| UMarkdown (s : string)
| USuccess (s : string)
| UError (s : string)
| UWarning (s : string)
| UText (s : string)
| UFolium (m : fmap) (width : Z)
| UPageConfig (title icon layout : string)
| UTitle (s : string)
| USubheader (s : string)
| UColumns (n : Z)
| UWidget (kind label : string) (options : list string)
| UEmpty.

(** ** The state of a run *)

(** [st.session_state]: the two keys the script uses.  [None] is an
    absent key. *)
Record session : Type := mk_session {
  ss_trip_planned : option bool;
  ss_trip_data : option (gmap string json) }.

Definition empty_session : session := mk_session None None.

Record state : Type := mk_state {
  s_session : session;
  s_log : list call;
  s_page : list ui;
  s_stop : option nat }.

Inductive outcome (A : Type) : Type :=
| Done (a : A)
| Raised (e : exn)
| Halted.
Arguments Done {A} a.
Arguments Raised {A} e.
Arguments Halted {A}.

Definition M (A : Type) : Type := runtime -> state -> outcome A * state.

(** ** Monad operations *)

Definition ret {A} (a : A) : M A := fun _ s => (Done a, s).

Definition bind {A B} (m : M A) (k : A -> M B) : M B :=
  fun r s =>
    match m r s with
    | (Done a, s') => k a r s'
    | (Raised e, s') => (Raised e, s')
    | (Halted, s') => (Halted, s')
    end.

Declare Scope py_scope.
Delimit Scope py_scope with py.
Notation "x <- m ;; k" := (bind m (fun x => k))
  (at level 100, m at next level, right associativity) : py_scope.
Notation "m ;; k" := (bind m (fun _ => k))
  (at level 100, right associativity) : py_scope.
Open Scope py_scope.

Definition raise {A} (e : exn) : M A := fun _ s => (Raised e, s).

Definition throw {A} (c : exn_class) (msg : string) : M A := raise (mk_exn c msg).

(** A pure operation that may raise. *)
Definition lift {A} (x : res A) : M A :=
  match x with Ok a => ret a | Exc e => raise e end.

(** [try: m except Exception as e: h(e)]. *)
Definition try_except {A} (m : M A) (h : exn -> M A) : M A :=
  fun r s =>
    match m r s with
    | (Raised e, s') => h e r s'
    | o => o
    end.

(** [os.getenv(k)]. *)
Fixpoint env_lookup (k : string) (env : list (string * string)) : option string :=
  match env with
  | [] => None
  | (k', v) :: rest => if String.eqb k k' then Some v else env_lookup k rest
  end.

Definition getenv (k : string) : M (option string) :=
  fun r s => (Done (env_lookup k (rt_env r)), s).

(** [f"{x}"] for a value that may be [None]. *)
Definition fmt_opt (o : option string) : string :=
  match o with Some v => v | None => "None" end.

(** An [st.*] output call.  Streamlit checks for a pending rerun or stop
    request when an element is enqueued: when the run's budget of
    elements is exhausted, the script is halted before the element is
    emitted. *)
Definition st_emit (u : ui) : M unit :=
  fun _ s =>
    match s_stop s with
    | Some O => (Halted, s)
    | Some (S n) => (Done tt, mk_state (s_session s) (s_log s) (s_page s ++ [u]) (Some n))
    | None => (Done tt, mk_state (s_session s) (s_log s) (s_page s ++ [u]) None)
    end.

(** A widget call ([st.text_input], [st.button], ...): the element is
    emitted and the call returns the value the browser holds for the
    widget in this run, [v]. *)
Definition st_widget {A} (kind label : string) (options : list string) (v : A) : M A :=
  st_emit (UWidget kind label options);; ret v.

(** An update of an element already on the page ([placeholder.empty()]):
    a checkpoint like [st_emit], that adds no element. *)
Definition st_update : M unit :=
  fun _ s =>
    match s_stop s with
    | Some O => (Halted, s)
    | Some (S n) => (Done tt, mk_state (s_session s) (s_log s) (s_page s) (Some n))
    | None => (Done tt, s)
    end.

(** [try: m finally: f], for an [f] that raises nothing.  A halted run
    stays halted: what [f] would add after the stop is not observable. *)
Definition finally {A} (m : M A) (f : M unit) : M A :=
  fun r s =>
    match m r s with
    | (Done a, s') => (f;; ret a) r s'
    | (Raised e, s') => (f;; raise e) r s'
    | (Halted, s') => (Halted, s')
    end.

(** [with st.spinner(text): m].  Streamlit's spinner makes an
    [st.empty()] placeholder, runs the body and, in a [finally] clause,
    empties the placeholder.  The spinner text is drawn into the
    placeholder by a timer thread after 0.5 s and erased at the end: it
    is not an element of the page the model keeps. *)
Definition st_spinner {A} (text : string) (m : M A) : M A :=
  st_emit UEmpty;; finally m st_update.

Definition get_session : M session := fun _ s => (Done (s_session s), s).

Definition with_session (s : state) (ss : session) : state :=
  mk_state ss (s_log s) (s_page s) (s_stop s).

Definition put_session (ss : session) : M unit :=
  fun _ s => (Done tt, with_session s ss).

Definition log_call (c : call) : M unit :=
  fun _ s => (Done tt, mk_state (s_session s) (s_log s ++ [c]) (s_page s) (s_stop s)).

Definition is_ai_call (c : call) : bool := match c with CAi _ _ _ => true | _ => false end.
Definition is_cal_call (c : call) : bool := match c with CCal _ _ _ => true | _ => false end.

(** ** Service calls: logged, then answered by the oracle *)

Definition http (rq : http_req) : M http_resp :=
  log_call (CHttp rq);; fun r => lift (svc_http (rt_svc r) rq) r.

(** [requests.get(url, params=...)]. *)
Definition requests_get (url : string) (params : list (string * string)) : M http_resp :=
  http (mk_req GET url params [] None).

(** [requests.post(url, headers=..., json=...)]. *)
Definition requests_post (url : string) (headers : list (string * string)) (body : json)
  : M http_resp :=
  http (mk_req POST url [] headers (Some body)).

(** [response.raise_for_status()]. *)
Definition raise_for_status (url : string) (rs : http_resp) : M unit :=
  let c := rs_status rs in
  if (400 <=? c) && (c <? 500) then
    throw HTTPError (str_int c ++ " Client Error: " ++ rs_reason rs ++ " for url: " ++ url)
  else if (500 <=? c) && (c <? 600) then
    throw HTTPError (str_int c ++ " Server Error: " ++ rs_reason rs ++ " for url: " ++ url)
  else ret tt.

(** [response.json()]. *)
Definition resp_json (rs : http_resp) : M json :=
  match rs_body rs with
  | Some j => ret j
  | None => throw JSONDecodeError "Expecting value: line 1 column 1 (char 0)"
  end.

Definition ai_complete (model : option string) (system user : string) : M json :=
  log_call (CAi model system user);; fun r => lift (svc_ai (rt_svc r) model system user) r.

Definition calendar_insert (c : gcreds) (cal_id : string) (ev : json) : M json :=
  log_call (CCal c cal_id ev);; fun r => lift (svc_cal (rt_svc r) c cal_id ev) r.

(** [tempfile.NamedTemporaryFile(delete=False, suffix=suffix)]: creates
    the file and gives its name. *)
Definition named_temporary_file (suffix : string) : M string :=
  log_call (CTempFile suffix);; fun r => lift (svc_tmp (rt_svc r) suffix) r.

(** [pdfkit.from_string(html, path)]. *)
Definition pdfkit_from_string (html path : string) : M unit :=
  log_call (CPdf html path);; fun r => lift (svc_pdf (rt_svc r) html path) r.

(** ** Properties of computations, preserved by the combinators *)

Local Open Scope nat_scope.
Local Open Scope list_scope.

(** [m] leaves the projection [f] of the state unchanged. *)
Definition preserves {A X} (f : state -> X) (m : M A) : Prop :=
  forall r s, f (snd (m r s)) = f s.

(** [m] leaves [st.session_state] alone. *)
Definition keeps_session {A} (m : M A) : Prop := preserves s_session m.

(** [m] makes no outbound call. *)
Definition no_calls {A} (m : M A) : Prop := preserves s_log m.

(** [m] lets no [Exception] escape. *)
Definition no_escape {A} (m : M A) : Prop :=
  forall r s, match fst (m r s) with Raised _ => False | _ => True end.

(** On an uninterrupted run [m] never halts and keeps the run
    uninterrupted. *)
Definition no_halt {A} (m : M A) : Prop :=
  forall r s, s_stop s = None ->
    fst (m r s) <> Halted /\ s_stop (snd (m r s)) = None.

(** [m] appends to the log at most [k] calls satisfying [p]. *)
Definition at_most {A} (p : call -> bool) (k : nat) (m : M A) : Prop :=
  forall r s, exists l, s_log (snd (m r s)) = s_log s ++ l /\ length (List.filter p l) <= k.

Create HintDb pyfx discriminated.

Section Combinators.
Context {A B X : Type}.
Implicit Types (m : M A) (k : A -> M B) (f : state -> X).

Lemma bind_Done m k r s a s' :
  m r s = (Done a, s') -> bind m k r s = k a r s'.
Proof. intros H. unfold bind. now rewrite H. Qed.

Lemma bind_Raised m k r s e s' :
  m r s = (Raised e, s') -> bind m k r s = (Raised e, s').
Proof. intros H. unfold bind. now rewrite H. Qed.

Lemma bind_Halted m k r s s' :
  m r s = (Halted, s') -> bind m k r s = (Halted, s').
Proof. intros H. unfold bind. now rewrite H. Qed.

Lemma try_Done m (h : exn -> M A) r s a s' :
  m r s = (Done a, s') -> try_except m h r s = (Done a, s').
Proof. intros H. unfold try_except. now rewrite H. Qed.

Lemma try_Raised m (h : exn -> M A) r s e s' :
  m r s = (Raised e, s') -> try_except m h r s = h e r s'.
Proof. intros H. unfold try_except. now rewrite H. Qed.

Lemma bind_cases m k r s :
  bind m k r s = match m r s with
                 | (Done a, s') => k a r s'
                 | (Raised e, s') => (Raised e, s')
                 | (Halted, s') => (Halted, s')
                 end.
Proof. reflexivity. Qed.

Lemma preserves_bind f m k :
  preserves f m -> (forall a, preserves f (k a)) -> preserves f (bind m k).
Proof.
  intros Hm Hk r s. specialize (Hm r s). unfold bind.
  destruct (m r s) as [[a| e|] s']; simpl in *; [rewrite Hk|..]; auto.
Qed.

Lemma preserves_try f m (h : exn -> M A) :
  preserves f m -> (forall e, preserves f (h e)) -> preserves f (try_except m h).
Proof.
  intros Hm Hh r s. specialize (Hm r s). unfold try_except.
  destruct (m r s) as [[a| e|] s']; simpl in *; [| rewrite Hh |]; auto.
Qed.

Lemma no_escape_bind m k :
  no_escape m -> (forall a, no_escape (k a)) -> no_escape (bind m k).
Proof.
  intros Hm Hk r s. specialize (Hm r s). unfold bind.
  destruct (m r s) as [[a| e|] s']; simpl in *; [apply Hk|..]; auto.
Qed.

Lemma no_halt_bind m k :
  no_halt m -> (forall a, no_halt (k a)) -> no_halt (bind m k).
Proof.
  intros Hm Hk r s Hs. destruct (Hm r s Hs) as [H1 H2]. unfold bind.
  destruct (m r s) as [[a| e|] s']; simpl in *;
    [now apply Hk | split; [discriminate | exact H2] | congruence].
Qed.

(** The handler of an [except Exception] clause decides: whatever the
    body raises, the whole never raises if the handler never does. *)
Lemma no_escape_try m (h : exn -> M A) :
  (forall e, no_escape (h e)) -> no_escape (try_except m h).
Proof.
  intros Hh r s. unfold try_except.
  destruct (m r s) as [[a| e|] s']; simpl; auto. apply Hh.
Qed.

Lemma no_halt_try m (h : exn -> M A) :
  no_halt m -> (forall e, no_halt (h e)) -> no_halt (try_except m h).
Proof.
  intros Hm Hh r s Hs. destruct (Hm r s Hs) as [H1 H2]. unfold try_except.
  destruct (m r s) as [[a| e|] s']; simpl in *;
    [split; [discriminate | exact H2] | now apply Hh | congruence].
Qed.

Lemma at_most_bind p n1 n2 m k :
  at_most p n1 m -> (forall a, at_most p n2 (k a)) -> at_most p (n1 + n2) (bind m k).
Proof.
  intros Hm Hk r s. destruct (Hm r s) as (l1 & E1 & L1). unfold bind.
  destruct (m r s) as [[a| e|] s']; simpl in *;
    [| exists l1; split; [exact E1 | lia] ..].
  destruct (Hk a r s') as (l2 & E2 & L2). exists (l1 ++ l2).
  rewrite E2, E1, app_assoc. split; [reflexivity|]. rewrite List.filter_app, length_app. lia.
Qed.

Lemma at_most_try p n1 n2 m (h : exn -> M A) :
  at_most p n1 m -> (forall e, at_most p n2 (h e)) -> at_most p (n1 + n2) (try_except m h).
Proof.
  intros Hm Hh r s. destruct (Hm r s) as (l1 & E1 & L1). unfold try_except.
  destruct (m r s) as [[a| e|] s']; simpl in *;
    [exists l1; split; [exact E1 | lia] | | exists l1; split; [exact E1 | lia]].
  destruct (Hh e r s') as (l2 & E2 & L2). exists (l1 ++ l2).
  rewrite E2, E1, app_assoc. split; [reflexivity|]. rewrite List.filter_app, length_app. lia.
Qed.

Lemma at_most_weaken p n n' m : at_most p n m -> n <= n' -> at_most p n' m.
Proof. intros H Hk r s. destruct (H r s) as (l & E & L). exists l. split; [exact E | lia]. Qed.

Lemma at_most_no_calls p m : no_calls m -> at_most p 0 m.
Proof. intros H r s. exists []. rewrite app_nil_r. split; [apply H | simpl; lia]. Qed.
End Combinators.

Section Primitives.
Context {A X : Type} (f : state -> X).

Lemma preserves_ret (a : A) : preserves f (ret a).
Proof. now intros r s. Qed.
Lemma no_halt_ret (a : A) : no_halt (ret a).
Proof. intros r s H. simpl. split; [discriminate | exact H]. Qed.
Lemma no_escape_ret (a : A) : no_escape (ret a).
Proof. now intros r s. Qed.

Lemma preserves_raise (e : exn) : preserves f (@raise A e).
Proof. now intros r s. Qed.
Lemma no_halt_raise (e : exn) : no_halt (@raise A e).
Proof. intros r s H. simpl. split; [discriminate | exact H]. Qed.

Lemma preserves_lift (x : res A) : preserves f (lift x).
Proof. destruct x; now intros r s. Qed.
Lemma no_halt_lift (x : res A) : no_halt (lift x).
Proof. destruct x; intros r s H; simpl; split; easy. Qed.

Lemma preserves_getenv k : preserves f (getenv k).
Proof. now intros r s. Qed.
Lemma preserves_get_session : preserves f get_session.
Proof. now intros r s. Qed.

Lemma preserves_oracle (g : runtime -> res A) : preserves f (fun r => lift (g r) r).
Proof. intros r s. now destruct (g r). Qed.
Lemma no_halt_oracle (g : runtime -> res A) : no_halt (fun r => lift (g r) r).
Proof. intros r s H. destruct (g r); simpl; split; easy. Qed.
End Primitives.

Lemma keeps_session_emit u : preserves s_session (st_emit u).
Proof. intros r s. unfold st_emit. now destruct (s_stop s) as [[|n]|]. Qed.
Lemma no_calls_emit u : preserves s_log (st_emit u).
Proof. intros r s. unfold st_emit. now destruct (s_stop s) as [[|n]|]. Qed.
Lemma no_escape_emit u : no_escape (st_emit u).
Proof. intros r s. unfold st_emit. now destruct (s_stop s) as [[|n]|]. Qed.
Lemma no_halt_emit u : no_halt (st_emit u).
Proof. intros r s H. unfold st_emit. rewrite H. simpl. split; easy. Qed.

Lemma keeps_session_update : preserves s_session st_update.
Proof. intros r s. unfold st_update. now destruct (s_stop s) as [[|n]|]. Qed.
Lemma no_calls_update : preserves s_log st_update.
Proof. intros r s. unfold st_update. now destruct (s_stop s) as [[|n]|]. Qed.
Lemma no_escape_update : no_escape st_update.
Proof. intros r s. unfold st_update. now destruct (s_stop s) as [[|n]|]. Qed.
Lemma no_halt_update : no_halt st_update.
Proof. intros r s H. unfold st_update. rewrite H. simpl. split; easy. Qed.

Section Finally.
Context {A X : Type} (m : M A) (g : M unit).

Lemma finally_Done r s a s' : m r s = (Done a, s') -> finally m g r s = (g;; ret a) r s'.
Proof. intros H. unfold finally. now rewrite H. Qed.

Lemma preserves_finally (f : state -> X) :
  preserves f m -> preserves f g -> preserves f (finally m g).
Proof.
  intros Hm Hg r s. specialize (Hm r s). unfold finally, bind.
  destruct (m r s) as [[a|e|] s']; simpl in *; [..|exact Hm];
    specialize (Hg r s'); destruct (g r s') as [[[]|e'|] s'']; simpl in *; congruence.
Qed.

(** [finally] re-raises what the body raises: it lets nothing escape
    when neither the body nor the clean-up does. *)
Lemma no_escape_finally : no_escape m -> no_escape g -> no_escape (finally m g).
Proof.
  intros Hm Hg r s. specialize (Hm r s). unfold finally, bind.
  destruct (m r s) as [[a|e|] s']; simpl in *; [|contradiction|exact I].
  specialize (Hg r s'). destruct (g r s') as [[[]|e'|] s'']; simpl in *; easy.
Qed.

Lemma no_halt_finally : no_halt m -> no_halt g -> no_halt (finally m g).
Proof.
  intros Hm Hg r s Hs. destruct (Hm r s Hs) as [H1 H2]. unfold finally, bind.
  destruct (m r s) as [[a|e|] s']; simpl in *; [| |congruence];
    destruct (Hg r s' H2) as [G1 G2]; destruct (g r s') as [[[]|e'|] s'']; simpl in *;
    first [congruence | split; [discriminate | exact G2]].
Qed.

Lemma at_most_finally p n1 n2 :
  at_most p n1 m -> at_most p n2 g -> at_most p (n1 + n2) (finally m g).
Proof.
  intros Hm Hg r s. destruct (Hm r s) as (l1 & E1 & L1). unfold finally, bind.
  destruct (m r s) as [[a|e|] s']; simpl in *; [| |exists l1; split; [exact E1 | lia]];
    destruct (Hg r s') as (l2 & E2 & L2); exists (l1 ++ l2);
    (split; [|rewrite List.filter_app, length_app; lia]);
    destruct (g r s') as [[[]|e'|] s'']; simpl in *; rewrite E2, E1, app_assoc; reflexivity.
Qed.
End Finally.

(** The state after an element is emitted: the page grows by it, the
    budget of elements before a stop (if any) shrinks by one. *)
Definition page_add (s : state) (u : ui) : state :=
  mk_state (s_session s) (s_log s) (s_page s ++ [u]) (option_map pred (s_stop s)).

Lemma st_emit_run u r s : s_stop s <> Some O -> st_emit u r s = (Done tt, page_add s u).
Proof. intros H. unfold st_emit, page_add. now destruct (s_stop s) as [[|n]|]. Qed.

Lemma st_widget_run {A} kind label opts (v : A) r s :
  s_stop s <> Some O ->
  st_widget kind label opts v r s = (Done v, page_add s (UWidget kind label opts)).
Proof. intros H. unfold st_widget. now rewrite (bind_Done _ _ _ _ _ _ (st_emit_run _ r s H)). Qed.

(** An uninterrupted body under a spinner: the placeholder is left on
    the page, the body's result is the block's. *)
Lemma st_spinner_run {A} t (m : M A) r s a s' :
  s_stop s = None -> m r (page_add s UEmpty) = (Done a, s') -> s_stop s' = None ->
  st_spinner t m r s = (Done a, s').
Proof.
  intros Hs Hm Hs'. unfold st_spinner.
  rewrite (bind_Done _ _ _ _ _ _ (st_emit_run _ r s ltac:(now rewrite Hs))).
  rewrite (finally_Done _ _ _ _ _ _ Hm). unfold bind, st_update. now rewrite Hs'.
Qed.

Lemma at_most_spinner {A} p n t (m : M A) : at_most p n m -> at_most p n (st_spinner t m).
Proof.
  intros H. unfold st_spinner. replace n with (0 + (n + 0)) by lia.
  apply at_most_bind; [apply at_most_no_calls, no_calls_emit|].
  intros _. apply at_most_finally; [exact H | apply at_most_no_calls, no_calls_update].
Qed.

Lemma no_halt_getenv k : no_halt (getenv k).
Proof. intros r s H. simpl. split; easy. Qed.
Lemma no_halt_get_session : no_halt get_session.
Proof. intros r s H. simpl. split; easy. Qed.
Lemma no_halt_put_session ss : no_halt (put_session ss).
Proof. intros r s H. simpl. split; easy. Qed.
Lemma no_calls_put_session ss : preserves s_log (put_session ss).
Proof. now intros r s. Qed.

Lemma keeps_session_log c : preserves s_session (log_call c).
Proof. now intros r s. Qed.
Lemma no_halt_log c : no_halt (log_call c).
Proof. intros r s H. simpl. split; easy. Qed.

(** One logged call counts when it satisfies [p]. *)
Lemma at_most_log p c : at_most p (if p c then 1 else 0) (log_call c).
Proof. intros r s. exists [c]. simpl. split; [reflexivity|]. destruct (p c); simpl; lia. Qed.

#[export] Hint Resolve preserves_ret no_halt_ret no_escape_ret
  preserves_raise no_halt_raise preserves_lift no_halt_lift
  preserves_getenv preserves_get_session preserves_oracle no_halt_oracle
  keeps_session_emit no_calls_emit no_escape_emit no_halt_emit
  no_halt_getenv no_halt_get_session no_halt_put_session no_calls_put_session
  keeps_session_log no_halt_log
  keeps_session_update no_calls_update no_escape_update no_halt_update : pyfx.

(** Computations that make no call matching [p]. *)
Section NoMatchingCall.
Context {A B : Type} (p : call -> bool).

Lemma at_most0_bind (m : M A) (k : A -> M B) :
  at_most p 0 m -> (forall a, at_most p 0 (k a)) -> at_most p 0 (bind m k).
Proof. apply (at_most_bind p 0 0). Qed.

Lemma at_most0_try (m : M A) (h : exn -> M A) :
  at_most p 0 m -> (forall e, at_most p 0 (h e)) -> at_most p 0 (try_except m h).
Proof. apply (at_most_try p 0 0). Qed.

Lemma at_most0_log c : p c = false -> at_most p 0 (log_call c).
Proof. intros H. generalize (at_most_log p c). now rewrite H. Qed.

Lemma at_most0_of_no_calls (m : M A) : preserves s_log m -> at_most p 0 m.
Proof. apply at_most_no_calls. Qed.

Lemma preserves_s_log_ret (a : A) : preserves s_log (ret a).
Proof. now intros r s. Qed.
Lemma preserves_s_log_lift (x : res A) : preserves s_log (lift x).
Proof. apply preserves_lift. Qed.
Lemma preserves_s_log_oracle (g : runtime -> res A) : preserves s_log (fun r => lift (g r) r).
Proof. apply preserves_oracle. Qed.
End NoMatchingCall.

Lemma preserves_s_log_getenv k : preserves s_log (getenv k).
Proof. now intros r s. Qed.
Lemma preserves_s_log_get_session : preserves s_log get_session.
Proof. now intros r s. Qed.

Create HintDb pycount discriminated.
#[export] Hint Resolve at_most0_bind at_most0_try at_most0_of_no_calls
  preserves_s_log_ret preserves_s_log_lift preserves_s_log_oracle preserves_s_log_getenv
  preserves_s_log_get_session no_calls_emit no_calls_put_session no_calls_update : pycount.
#[export] Hint Extern 1 (at_most _ 0 (log_call _)) => apply at_most0_log; reflexivity : pycount.

(** [count0_auto]: a computation makes no call matching [p]. *)
Ltac count0_auto :=
  repeat (intros;
    first
      [ solve [eauto with pycount]
      | progress unfold st_widget, st_spinner
      | apply at_most0_bind | apply at_most0_try
      | apply (at_most_finally _ _ _ 0 0)
      | match goal with
        | |- context [match ?x with _ => _ end] => destruct x
        | |- context [if ?b then _ else _] => destruct b
        end ]).

(** ** The order of calls *)

(** [l] is made of consecutive segments, the i-th of calls satisfying
    the i-th predicate of [ps] (segments may be empty). *)
Fixpoint segmented (ps : list (call -> bool)) (l : list call) : Prop :=
  match ps with
  | [] => l = []
  | p :: ps' => exists l1 l2, l = l1 ++ l2 /\ Forall (fun c => p c = true) l1 /\ segmented ps' l2
  end.

(** The calls [m] appends are segmented by [ps]. *)
Definition calls_in (ps : list (call -> bool)) {A} (m : M A) : Prop :=
  forall r s, exists l, s_log (snd (m r s)) = s_log s ++ l /\ segmented ps l.

Lemma segmented_nil ps : segmented ps [].
Proof. induction ps as [|p ps IH]; simpl; [reflexivity|]. exists [], []. auto. Qed.

Lemma segmented_app ps qs l1 l2 :
  segmented ps l1 -> segmented qs l2 -> segmented (ps ++ qs) (l1 ++ l2).
Proof.
  revert l1. induction ps as [|p ps IH]; intros l1 H1 H2; simpl in *; [now subst|].
  destruct H1 as (a & b & -> & Ha & Hb). exists a, (b ++ l2).
  split; [now rewrite app_assoc | split; [exact Ha | now apply IH]].
Qed.

(** Two adjacent segments of the same kind are one. *)
Lemma segmented_merge p ps l : segmented (p :: p :: ps) l -> segmented (p :: ps) l.
Proof.
  intros (a & b & -> & Ha & c & d & -> & Hc & Hd). exists (a ++ c), d.
  split; [now rewrite app_assoc | split; [apply Forall_app; auto | exact Hd]].
Qed.

Lemma calls_in_mono {A} ps qs (m : M A) :
  (forall l, segmented ps l -> segmented qs l) -> calls_in ps m -> calls_in qs m.
Proof. intros H Hm r s. destruct (Hm r s) as (l & E & L). eauto. Qed.

Section CallsIn.
Context {A B : Type}.

Lemma calls_in_bind ps qs (m : M A) (k : A -> M B) :
  calls_in ps m -> (forall a, calls_in qs (k a)) -> calls_in (ps ++ qs) (bind m k).
Proof.
  intros Hm Hk r s. destruct (Hm r s) as (l1 & E1 & L1). unfold bind.
  destruct (m r s) as [[a|e|] s']; simpl in *;
    [| exists l1; split; [exact E1 | rewrite <- app_nil_r; apply segmented_app; auto using segmented_nil] ..].
  destruct (Hk a r s') as (l2 & E2 & L2). exists (l1 ++ l2).
  rewrite E2, E1, app_assoc. split; [reflexivity | now apply segmented_app].
Qed.

Lemma calls_in_try ps qs (m : M A) (h : exn -> M A) :
  calls_in ps m -> (forall e, calls_in qs (h e)) -> calls_in (ps ++ qs) (try_except m h).
Proof.
  intros Hm Hh r s. destruct (Hm r s) as (l1 & E1 & L1). unfold try_except.
  destruct (m r s) as [[a|e|] s']; simpl in *;
    [ exists l1; split; [exact E1 | rewrite <- app_nil_r; apply segmented_app; auto using segmented_nil]
    | | exists l1; split; [exact E1 | rewrite <- app_nil_r; apply segmented_app; auto using segmented_nil]].
  destruct (Hh e r s') as (l2 & E2 & L2). exists (l1 ++ l2).
  rewrite E2, E1, app_assoc. split; [reflexivity | now apply segmented_app].
Qed.

Lemma calls_in_no_calls ps (m : M A) : preserves s_log m -> calls_in ps m.
Proof. intros H r s. exists []. rewrite app_nil_r. split; [apply H | apply segmented_nil]. Qed.

Lemma calls_in_log (p : call -> bool) c : p c = true -> calls_in [p] (log_call c).
Proof. intros H r s. exists [c]. split; [reflexivity|]. exists [c], []. simpl. auto. Qed.

Lemma calls_in_finally ps (m : M A) (g : M unit) :
  calls_in ps m -> preserves s_log g -> calls_in ps (finally m g).
Proof.
  intros Hm Hg r s. destruct (Hm r s) as (l & E & L). exists l. split; [|exact L].
  unfold finally, bind. destruct (m r s) as [[a|e|] s']; simpl in *; [| |exact E];
    specialize (Hg r s'); destruct (g r s') as [[[]|e'|] s'']; simpl in *; congruence.
Qed.

(** Computations whose calls all satisfy [p]. *)
Lemma only_bind p (m : M A) (k : A -> M B) :
  calls_in [p] m -> (forall a, calls_in [p] (k a)) -> calls_in [p] (bind m k).
Proof. intros Hm Hk. eapply calls_in_mono; [apply segmented_merge | exact (calls_in_bind _ _ m k Hm Hk)]. Qed.

Lemma only_try p (m : M A) (h : exn -> M A) :
  calls_in [p] m -> (forall e, calls_in [p] (h e)) -> calls_in [p] (try_except m h).
Proof. intros Hm Hh. eapply calls_in_mono; [apply segmented_merge | exact (calls_in_try _ _ m h Hm Hh)]. Qed.
End CallsIn.

(** [only_auto]: every call a computation makes satisfies one predicate. *)
Ltac only_auto :=
  repeat (intros;
    first
      [ solve [apply calls_in_no_calls; eauto with pycount]
      | solve [apply calls_in_log; reflexivity]
      | progress unfold st_widget, st_spinner
      | apply only_bind | apply only_try
      | match goal with
        | |- context [match ?x with _ => _ end] => destruct x
        | |- context [if ?b then _ else _] => destruct b
        end ]).

(** Every value [m] returns satisfies [P]. *)
Definition returns {A} (P : A -> Prop) (m : M A) : Prop :=
  forall r s, match fst (m r s) with Done a => P a | _ => True end.

Section Returns.
Context {A B : Type} (P : B -> Prop).

Lemma returns_bind (m : M A) (k : A -> M B) :
  (forall a, returns P (k a)) -> returns P (bind m k).
Proof. intros Hk r s. unfold bind. destruct (m r s) as [[a|e|] s']; simpl; auto. apply Hk. Qed.

(** What the continuation receives satisfies what [m] returns. *)
Lemma returns_bind_dep (Q : A -> Prop) (m : M A) (k : A -> M B) :
  returns Q m -> (forall a, Q a -> returns P (k a)) -> returns P (bind m k).
Proof.
  intros Hm Hk r s. specialize (Hm r s). unfold bind.
  destruct (m r s) as [[a|e|] s']; simpl in *; auto. now apply Hk.
Qed.

Lemma returns_try (m : M B) (h : exn -> M B) :
  returns P m -> (forall e, returns P (h e)) -> returns P (try_except m h).
Proof.
  intros Hm Hh r s. specialize (Hm r s). unfold try_except.
  destruct (m r s) as [[a|e|] s']; simpl in *; auto. apply Hh.
Qed.

Lemma returns_ret (b : B) : P b -> returns P (ret b).
Proof. now intros H r s. Qed.

Lemma returns_lift (x : res B) : (forall b, x = Ok b -> P b) -> returns P (lift x).
Proof. intros H r s. destruct x; simpl; auto. Qed.

Lemma returns_raise (e : exn) : returns P (@raise B e).
Proof. now intros r s. Qed.
End Returns.

(** A computation that returns, never raises and never halts on an
    uninterrupted run returns a value satisfying [P]. *)
Lemma returns_run {A} (P : A -> Prop) (m : M A) r s :
  returns P m -> no_escape m -> no_halt m -> s_stop s = None ->
  exists a s', m r s = (Done a, s') /\ P a.
Proof.
  intros Hr He Hh Hs. specialize (Hr r s). specialize (He r s). destruct (Hh r s Hs) as [H1 _].
  destruct (m r s) as [[a|e|] s']; simpl in *; [eauto | contradiction | congruence].
Qed.

(** [fx_auto]: prove a preserved property of a computation written with
    the combinators, case-splitting on the pure values it branches on. *)
Ltac fx_auto :=
  repeat (intros;
    first
      [ solve [eauto with pyfx]
      | progress unfold keeps_session, no_calls, st_widget, st_spinner
      | apply preserves_bind | apply no_halt_bind | apply no_escape_bind
      | apply preserves_try | apply no_halt_try
      | apply preserves_finally | apply no_halt_finally | apply no_escape_finally
      | match goal with
        | |- context [match ?x with _ => _ end] => destruct x
        | |- context [if ?b then _ else _] => destruct b
        end ]).
