(* ===== verification/Adapters.v ===== *)
(** * Adapters: what an external-service adapter promises the orchestrator

    The planning block of app.py calls four adapters.  Its correctness
    (every section of the plan is filled, nothing is left half-written)
    rests on three promises of each adapter, stated here once as the
    typeclass [AdapterContract]: no [Exception] escapes it, it does not
    touch [st.session_state], and on an uninterrupted run it returns.
    [Services] proves that the adapters of app.py keep them. *)

From Stdlib Require Import String ZArith List.
From stdpp Require Import base list gmap strings.
From S2P Require Import Prelude PyValue PyEffects.
Import ListNotations.

(** The four adapters, with the signatures of app.py:
    [get_ai_response(message)], [get_distance_km(source, destination)]
    (a 4-tuple), [get_weather(city)],
    [add_event_to_calendar(summary, start, end)]. *)
Record adapters : Type := mk_adapters {
  ad_ai : string -> M json;
  ad_route : string -> string -> M (json * json * json * json);
  ad_weather : string -> M json;
  ad_calendar : string -> when -> when -> M json }.

Definition well_behaved {A} (m : M A) : Prop :=
  no_escape m /\ keeps_session m /\ no_halt m.

Class AdapterContract (ad : adapters) : Prop := {
  ai_wb : forall msg, well_behaved (ad_ai ad msg);
  route_wb : forall src dst, well_behaved (ad_route ad src dst);
  weather_wb : forall city, well_behaved (ad_weather ad city);
  calendar_wb : forall summary a b, well_behaved (ad_calendar ad summary a b) }.

(** On an uninterrupted run a well-behaved computation returns a value,
    leaves the session as it was and stays uninterrupted. *)
Lemma wb_run {A} (m : M A) r s :
  well_behaved m -> s_stop s = None ->
  exists a s', m r s = (Done a, s') /\ s_session s' = s_session s /\ s_stop s' = None.
Proof.
  intros (Hesc & Hses & Hhalt) Hs.
  specialize (Hesc r s). specialize (Hses r s). destruct (Hhalt r s Hs) as [Hh Hst].
  destruct (m r s) as [[a|e|] s'] eqn:E; simpl in *; [eauto | contradiction | congruence].
Qed.

(** Whatever the run, a well-behaved computation does not raise: it
    returns or the run is halted. *)
Lemma wb_not_raised {A} (m : M A) r s e s' :
  well_behaved m -> m r s <> (Raised e, s').
Proof. intros (Hesc & _ & _) E. specialize (Hesc r s). now rewrite E in Hesc. Qed.

Lemma wb_intro {A} (m : M A) :
  no_escape m -> keeps_session m -> no_halt m -> well_behaved m.
Proof. unfold well_behaved. tauto. Qed.
