(* ===== verification/Routing.v ===== *)
(** * Routing: the OpenRouteService adapter (app.py:56-111)

    [get_distance_km] geocodes both cities with an inner [geocode],
    requests a driving route between the two coordinates, converts the
    distance from metres to kilometres and swaps every point of the
    route polyline from (lon, lat) to (lat, lon).  Any [Exception] is
    shown with [st.error]/[st.text] and turned into
    [(None, None, None, None)].  The top-level [geocode] (never called by
    the script) is modelled too. *)

From Stdlib Require Import String Ascii ZArith QArith List Lia.
From stdpp Require Import base list gmap strings.
From S2P Require Import Prelude PyValue PyEffects Adapters.
Import ListNotations.

Open Scope string_scope.
Open Scope Z_scope.
Open Scope py_scope.

Module Routing.

Definition geocode_url : string := "https://api.openrouteservice.org/geocode/search".
Definition directions_url : string :=
  "https://api.openrouteservice.org/v2/directions/driving-car/geojson".

(** The emoji U+274C followed by a space, as UTF-8 bytes. *)
Definition cross_mark : string := "❌ ".

(** [if not ors_key]: [None] and [""] are falsy. *)
Definition str_falsy (o : option string) : bool :=
  match o with None => true | Some v => String.eqb v "" end.

(** The inner [geocode(place)] of [get_distance_km] (app.py:78-86). *)
Definition geocode_inner (ors_key place : string) : M json :=
  res <- requests_get geocode_url [("api_key", ors_key); ("text", place)];;
  raise_for_status geocode_url res;;
  data <- resp_json res;;
  has <- lift (py_in "features" data);;
  (if negb has then throw ValueError ("Geocoding failed for '" ++ place ++ "'")
   else
     feats <- lift (getitem data (KS "features"));;
     if negb (truthy feats) then throw ValueError ("Geocoding failed for '" ++ place ++ "'")
     else lift (getpath data [KS "features"; KI 0; KS "geometry"; KS "coordinates"])).

(** One point of the comprehension [[pt[1], pt[0]] for pt in ...]. *)
Definition swap_point (pt : json) : res json :=
  let? lat := getitem pt (KI 1) in
  let? lon := getitem pt (KI 0) in
  Ok (JList [lat; lon]).

Definition no_route : json * json * json * json := (JNone, JNone, JNone, JNone).

(** [get_distance_km(source, destination)] (app.py:72-111). *)
Definition get_distance_km (source destination : string) : M (json * json * json * json) :=
  try_except
    (ors_key <- getenv "ORS_API_KEY";;
     match ors_key with
     | Some k =>
         if str_falsy ors_key then throw ValueError "ORS_API_KEY is missing in environment."
         else
           coord_start <- geocode_inner k source;;
           coord_end <- geocode_inner k destination;;
           response <- requests_post directions_url
                         [("Authorization", k); ("Content-Type", "application/json")]
                         (JDict [("coordinates", JList [coord_start; coord_end])]);;
           raise_for_status directions_url response;;
           route_data <- resp_json response;;
           segment <- lift (getpath route_data
                              [KS "features"; KI 0; KS "properties"; KS "segments"; KI 0]);;
           distance_km <- lift (let? m := getitem segment (KS "distance") in
                                py_truediv m (JInt 1000));;
           pts <- lift (let? c := getpath route_data
                                    [KS "features"; KI 0; KS "geometry"; KS "coordinates"] in
                        py_iter c);;
           route_coords <- lift (map_res swap_point pts);;
           ret (distance_km, coord_start, coord_end, JList route_coords)
     | None => throw ValueError "ORS_API_KEY is missing in environment."
     end)
    (fun e =>
       st_emit (UError (cross_mark ++ "Routing error: " ++ exn_str e));;
       st_emit (UText (format_exc e));;
       ret no_route).

(** The top-level [geocode(place)] (app.py:56-68).  [requests] drops a
    parameter whose value is [None]. *)
Definition geocode (place : string) : M json :=
  try_except
    (ors_key <- getenv "ORS_API_KEY";;
     r <- requests_get geocode_url
            (match ors_key with
             | Some k => [("api_key", k); ("text", place)]
             | None => [("text", place)]
             end);;
     raise_for_status geocode_url r;;
     data <- resp_json r;;
     features <- lift (py_get data "features" JNone);;
     if negb (truthy features)
     then throw (OtherError "Exception") ("No coordinates found for " ++ place)
     else lift (getpath features [KI 0; KS "geometry"; KS "coordinates"]))
    (fun e =>
       st_emit (UWarning ("Geocoding failed for '" ++ place ++ "': " ++ exn_str e));;
       ret JNone).

(** ** The ORS requests and answers the theorems are stated for *)

Definition geocode_req (k place : string) : http_req :=
  mk_req GET geocode_url [("api_key", k); ("text", place)] [] None.

Definition directions_req (k : string) (cs ce : json) : http_req :=
  mk_req POST directions_url [] [("Authorization", k); ("Content-Type", "application/json")]
    (Some (JDict [("coordinates", JList [cs; ce])])).

Definition ok200 (b : json) : http_resp := mk_resp 200 "OK" (Some b).

(** A geocoding answer whose first feature is at [c]. *)
Definition geocode_body (c : json) : json :=
  JDict [("features", JList [JDict [("geometry", JDict [("coordinates", c)])]])].

(** A directions answer: one route of [meters] along the points [pts]. *)
Definition directions_body (meters : json) (pts : list json) : json :=
  JDict [("features", JList [JDict [
     ("properties", JDict [("segments", JList [JDict [("distance", meters)]])]);
     ("geometry", JDict [("coordinates", JList pts)])]])].

(** A geocoding answer without a usable first feature: ["features"] is
    absent or falsy (the condition of app.py:84). *)
Definition no_features (b : json) : bool :=
  match py_in "features" b with
  | Ok false => true
  | Ok true => match getitem b (KS "features") with Ok f => negb (truthy f) | Exc _ => false end
  | Exc _ => false
  end.

(** A point as ORS sends it: [[lon, lat]]. *)
Definition pair_json (p : json * json) : json := JList [fst p; snd p].

(** ** The spec's [RouteResult] (spec section 3) *)

Record route_result : Type := mk_route {
  rr_distance_km : Q; rr_start : json; rr_end : json; rr_path : list (json * json) }.

(** How the 4-tuple of [get_distance_km] encodes an optional
    [RouteResult]; the path is exposed as (lat, lon) pairs. *)
Definition encode_route (o : option route_result) : json * json * json * json :=
  match o with
  | None => no_route
  | Some rr => (JFloat (rr_distance_km rr), rr_start rr, rr_end rr,
                JList (List.map pair_json (rr_path rr)))
  end.

(** The route the spec asks for, from a distance in metres and a
    polyline of (lon, lat) points. *)
Definition route_of (meters : Z) (cs ce : json) (ps : list (json * json)) : route_result :=
  mk_route (Qred (inject_Z meters / inject_Z 1000)) cs ce (List.map (fun p => (snd p, fst p)) ps).

Definition log_more (s : state) (cs : list call) : state :=
  mk_state (s_session s) (s_log s ++ cs) (s_page s) (s_stop s).

(** ** Lemmas *)

Lemma swap_points (ps : list (json * json)) :
  map_res swap_point (List.map pair_json ps)
  = Ok (List.map pair_json (List.map (fun p => (snd p, fst p)) ps)).
Proof. induction ps as [|[a b] ps IH]; simpl; [reflexivity|]. now rewrite IH. Qed.

Lemma geocode_inner_ok k place c r s :
  svc_http (rt_svc r) (geocode_req k place) = Ok (ok200 (geocode_body c)) ->
  geocode_inner k place r s = (Done c, log_more s [CHttp (geocode_req k place)]).
Proof.
  intros H. unfold geocode_inner, requests_get, http, bind, log_call.
  simpl. unfold geocode_req in H. now rewrite H.
Qed.

Lemma geocode_inner_fail k place b r s :
  svc_http (rt_svc r) (geocode_req k place) = Ok (ok200 b) -> no_features b = true ->
  geocode_inner k place r s
  = (Raised (mk_exn ValueError ("Geocoding failed for '" ++ place ++ "'")),
     log_more s [CHttp (geocode_req k place)]).
Proof.
  intros H Hb. unfold geocode_inner, requests_get, http, bind, log_call.
  simpl. unfold geocode_req in H. rewrite H. simpl.
  unfold no_features in Hb. destruct (py_in "features" b) as [[|]|]; try discriminate; simpl.
  - destruct (getitem b (KS "features")) as [f|]; [|discriminate]. simpl.
    now rewrite Hb.
  - reflexivity.
Qed.

Lemma str_falsy_nonempty k : k <> "" -> str_falsy (Some k) = false.
Proof. intros Hk. simpl. now apply String.eqb_neq. Qed.

(** The failure path of [get_distance_km]: the [except] clause. *)
Lemma get_distance_km_handler e r s :
  s_stop s = None ->
  (fun e => st_emit (UError (cross_mark ++ "Routing error: " ++ exn_str e));;
            st_emit (UText (format_exc e));; ret no_route) e r s
  = (Done no_route, mk_state (s_session s) (s_log s)
       (s_page s ++ [UError (cross_mark ++ "Routing error: " ++ exn_str e); UText (format_exc e)])
       None).
Proof. intros H. unfold st_emit, bind, ret. simpl. rewrite H. simpl. now rewrite <- app_assoc. Qed.

(** ** Theorems *)

(** C6: the success path.  When both cities geocode and ORS returns a
    route of [m] metres along the (lon, lat) points [ps],
    [get_distance_km] returns the spec's [RouteResult]: distance [m/1000]
    km, the two geocoded coordinates, and the polyline as (lat, lon)
    pairs; it makes exactly the three requests, in order, and shows
    nothing. *)
Theorem get_distance_km_refines k src dst cs ce m ps r s :
  env_lookup "ORS_API_KEY" (rt_env r) = Some k -> k <> "" ->
  svc_http (rt_svc r) (geocode_req k src) = Ok (ok200 (geocode_body cs)) ->
  svc_http (rt_svc r) (geocode_req k dst) = Ok (ok200 (geocode_body ce)) ->
  svc_http (rt_svc r) (directions_req k cs ce)
    = Ok (ok200 (directions_body (JInt m) (List.map pair_json ps))) ->
  get_distance_km src dst r s
  = (Done (encode_route (Some (route_of m cs ce ps))),
     log_more s [CHttp (geocode_req k src); CHttp (geocode_req k dst);
                 CHttp (directions_req k cs ce)]).
Proof.
  intros Henv Hk Hs Hd Hr.
  unfold get_distance_km, try_except, bind at 1, getenv. simpl. rewrite Henv.
  rewrite (str_falsy_nonempty k Hk). unfold bind at 1.
  rewrite (geocode_inner_ok _ _ _ _ _ Hs). unfold bind at 1.
  rewrite (geocode_inner_ok _ _ _ _ _ Hd).
  unfold requests_post, http, bind, log_call. simpl.
  unfold directions_req in Hr. rewrite Hr. simpl.
  rewrite swap_points. unfold log_more. simpl. now rewrite <- !app_assoc.
Qed.

(** C7: failure isolation inside the adapter.  When the source city does
    not geocode (no usable ["features"]), [get_distance_km] returns
    [(None, None, None, None)] after showing the routing error; it never
    geocodes the destination nor asks for a route. *)
Theorem get_distance_km_source_unknown k src dst b r s :
  env_lookup "ORS_API_KEY" (rt_env r) = Some k -> k <> "" ->
  svc_http (rt_svc r) (geocode_req k src) = Ok (ok200 b) -> no_features b = true ->
  s_stop s = None ->
  get_distance_km src dst r s
  = (Done no_route,
     mk_state (s_session s) (s_log s ++ [CHttp (geocode_req k src)])
       (s_page s ++ [UError (cross_mark ++ "Routing error: Geocoding failed for '" ++ src ++ "'");
                     UText (format_exc (mk_exn ValueError ("Geocoding failed for '" ++ src ++ "'")))])
       None).
Proof.
  intros Henv Hk Hs Hb Hstop.
  unfold get_distance_km, try_except, bind at 1, getenv. simpl. rewrite Henv.
  rewrite (str_falsy_nonempty k Hk). unfold bind at 1.
  rewrite (geocode_inner_fail _ _ _ _ _ Hs Hb).
  now rewrite get_distance_km_handler.
Qed.

(** C18: when the destination does not geocode, only the two geocoding
    requests are made and the route is absent. *)
Theorem get_distance_km_destination_unknown k src dst cs b r s :
  env_lookup "ORS_API_KEY" (rt_env r) = Some k -> k <> "" ->
  svc_http (rt_svc r) (geocode_req k src) = Ok (ok200 (geocode_body cs)) ->
  svc_http (rt_svc r) (geocode_req k dst) = Ok (ok200 b) -> no_features b = true ->
  s_stop s = None ->
  get_distance_km src dst r s
  = (Done no_route,
     mk_state (s_session s) (s_log s ++ [CHttp (geocode_req k src); CHttp (geocode_req k dst)])
       (s_page s ++ [UError (cross_mark ++ "Routing error: Geocoding failed for '" ++ dst ++ "'");
                     UText (format_exc (mk_exn ValueError ("Geocoding failed for '" ++ dst ++ "'")))])
       None).
Proof.
  intros Henv Hk Hs Hd Hb Hstop.
  unfold get_distance_km, try_except, bind at 1, getenv. simpl. rewrite Henv.
  rewrite (str_falsy_nonempty k Hk). unfold bind at 1.
  rewrite (geocode_inner_ok _ _ _ _ _ Hs). unfold bind at 1.
  rewrite (geocode_inner_fail _ _ _ _ _ Hd Hb).
  rewrite get_distance_km_handler by exact Hstop. simpl. now rewrite <- app_assoc.
Qed.

(** C8: a missing or empty [ORS_API_KEY] makes no request at all: the
    adapter shows the error and returns [(None, None, None, None)]. *)
Theorem get_distance_km_no_key src dst r s :
  str_falsy (env_lookup "ORS_API_KEY" (rt_env r)) = true -> s_stop s = None ->
  get_distance_km src dst r s
  = (Done no_route,
     mk_state (s_session s) (s_log s)
       (s_page s ++ [UError (cross_mark ++ "Routing error: ORS_API_KEY is missing in environment.");
                     UText (format_exc (mk_exn ValueError "ORS_API_KEY is missing in environment."))])
       None).
Proof.
  intros Hkey Hstop.
  unfold get_distance_km, try_except, bind at 1, getenv. cbv beta iota.
  destruct (env_lookup "ORS_API_KEY" (rt_env r)) as [k|];
    [rewrite Hkey|]; unfold throw, raise; cbv beta iota; now rewrite get_distance_km_handler.
Qed.

(** ** A concrete OpenRouteService for the witnesses

    The spec's examples: a route of 12,340 m whose polyline is
    [[-122.4, 37.8], [-122.5, 37.9]] in (lon, lat) order; Delhi and Paris
    geocode, any other place does not. *)

(** The handler of the top-level [geocode] shows a warning and returns
    [None]; on an uninterrupted run this is one more element. *)
Ltac warned Hs := unfold st_emit; rewrite Hs; simpl; eexists; reflexivity.

(** C20: the unused top-level [geocode] (app.py:56-68) is equivalent to
    the inner [geocode] of [get_distance_km] (app.py:78-86) with the same
    key: it sends the same request and, whatever ORS answers, returns the
    same coordinates when the inner one does, and [None] after one
    warning when the inner one raises. *)
Theorem geocode_agrees place k r s :
  env_lookup "ORS_API_KEY" (rt_env r) = Some k -> s_stop s = None ->
  match geocode_inner k place r s with
  | (Done v, s') => geocode place r s = (Done v, s')
  | (Raised _, s') => exists msg, geocode place r s = (Done JNone, page_add s' (UWarning msg))
  | (Halted, _) => False
  end.
Proof.
  intros Hk Hs. unfold geocode, geocode_inner, try_except.
  unfold getenv, requests_get, http, log_call, raise_for_status, resp_json, throw, raise, lift,
    bind, ret.
  simpl. rewrite Hk.
  destruct (svc_http _ _) as [[st rsn body]|e]; simpl; [|warned Hs].
  destruct ((400 <=? st) && (st <? 500)); simpl; [warned Hs|].
  destruct ((500 <=? st) && (st <? 600)); simpl; [warned Hs|].
  destruct body as [data|]; simpl; [|warned Hs].
  destruct data as [| | | | | xs | kvs]; simpl; try warned Hs;
    [destruct (negb _); simpl; warned Hs ..|].
  rewrite existsb_assoc. destruct (assoc "features" kvs) as [f|] eqn:Ha; simpl; [|warned Hs].
  destruct (truthy f); simpl; [|warned Hs].
  match goal with |- context [match ?x with Ok _ => _ | Exc _ => _ end] => destruct x end;
    simpl; [reflexivity | warned Hs].
Qed.

Definition delhi : json := JList [JFloat (772090 # 10000); JFloat (286139 # 10000)].
Definition paris : json := JList [JFloat (23522 # 10000); JFloat (488566 # 10000)].
Definition spec_points : list (json * json) :=
  [(JFloat (-1224 # 10), JFloat (378 # 10)); (JFloat (-1225 # 10), JFloat (379 # 10))].

Definition demo_ors (rq : http_req) : res http_resp :=
  if String.eqb (rq_url rq) geocode_url then
    match rq_params rq with
    | [_; (_, place)] =>
        if String.eqb place "Delhi" then Ok (ok200 (geocode_body delhi))
        else if String.eqb place "Paris" then Ok (ok200 (geocode_body paris))
        else Ok (ok200 (JDict [("features", JList [])]))
    | _ => Ok (ok200 (JDict []))
    end
  else if String.eqb (rq_url rq) directions_url then
    Ok (ok200 (directions_body (JInt 12340) (List.map pair_json spec_points)))
  else Ok (mk_resp 404 "Not Found" None).

Definition demo_ors_runtime (env : list (string * string)) : runtime :=
  mk_runtime env (mk_services (fun _ _ _ => Ok JNone) demo_ors (fun _ _ _ => Ok JNone) no_tmp no_pdf).

Definition fresh_state : state := mk_state empty_session [] [] None.

Lemma get_distance_km_refines_witness :
  get_distance_km "Delhi" "Paris" (demo_ors_runtime [("ORS_API_KEY", "demo-key")]) fresh_state
  = (Done (encode_route (Some (route_of 12340 delhi paris spec_points))),
     log_more fresh_state [CHttp (geocode_req "demo-key" "Delhi"); CHttp (geocode_req "demo-key" "Paris");
                           CHttp (directions_req "demo-key" delhi paris)]) /\
  rr_distance_km (route_of 12340 delhi paris spec_points) = Qred (1234 # 100) /\
  List.map pair_json (rr_path (route_of 12340 delhi paris spec_points))
  = [JList [JFloat (378 # 10); JFloat (-1224 # 10)]; JList [JFloat (379 # 10); JFloat (-1225 # 10)]].
Proof.
  split; [| split; reflexivity].
  apply (get_distance_km_refines "demo-key"); first [reflexivity | discriminate].
Defined.

Lemma get_distance_km_source_unknown_witness :
  get_distance_km "Atlantis" "Paris" (demo_ors_runtime [("ORS_API_KEY", "demo-key")]) fresh_state
  = (Done no_route,
     mk_state empty_session [CHttp (geocode_req "demo-key" "Atlantis")]
       [UError (cross_mark ++ "Routing error: Geocoding failed for 'Atlantis'");
        UText (format_exc (mk_exn ValueError "Geocoding failed for 'Atlantis'"))] None).
Proof.
  apply (get_distance_km_source_unknown "demo-key" "Atlantis" "Paris" (JDict [("features", JList [])]));
    first [reflexivity | discriminate].
Defined.

Lemma get_distance_km_no_key_witness :
  get_distance_km "Delhi" "Paris" (demo_ors_runtime [("ORS_API_KEY", "")]) fresh_state
  = (Done no_route,
     mk_state empty_session []
       [UError (cross_mark ++ "Routing error: ORS_API_KEY is missing in environment.");
        UText (format_exc (mk_exn ValueError "ORS_API_KEY is missing in environment."))] None).
Proof. apply get_distance_km_no_key; reflexivity. Defined.

Lemma get_distance_km_destination_unknown_witness :
  get_distance_km "Delhi" "Atlantis" (demo_ors_runtime [("ORS_API_KEY", "demo-key")]) fresh_state
  = (Done no_route,
     mk_state empty_session [CHttp (geocode_req "demo-key" "Delhi"); CHttp (geocode_req "demo-key" "Atlantis")]
       [UError (cross_mark ++ "Routing error: Geocoding failed for 'Atlantis'");
        UText (format_exc (mk_exn ValueError "Geocoding failed for 'Atlantis'"))] None).
Proof.
  apply (get_distance_km_destination_unknown "demo-key" "Delhi" "Atlantis" delhi
           (JDict [("features", JList [])])); first [reflexivity | discriminate].
Defined.

Lemma geocode_agrees_witness :
  match geocode_inner "demo-key" "Delhi" (demo_ors_runtime [("ORS_API_KEY", "demo-key")]) fresh_state with
  | (Done v, s') => geocode "Delhi" (demo_ors_runtime [("ORS_API_KEY", "demo-key")]) fresh_state = (Done v, s')
  | (Raised _, s') => exists msg, geocode "Delhi" (demo_ors_runtime [("ORS_API_KEY", "demo-key")]) fresh_state
                                  = (Done JNone, page_add s' (UWarning msg))
  | (Halted, _) => False
  end.
Proof. apply geocode_agrees; reflexivity. Defined.

(** [get_distance_km] keeps the adapter contract. *)
Lemma get_distance_km_wb src dst : well_behaved (get_distance_km src dst).
Proof.
  apply wb_intro.
  - apply no_escape_try. intros e. fx_auto.
  - unfold get_distance_km, geocode_inner, requests_get, requests_post, http,
      raise_for_status, resp_json, throw. fx_auto.
  - unfold get_distance_km, geocode_inner, requests_get, requests_post, http,
      raise_for_status, resp_json, throw. fx_auto.
Qed.

(** The distance [get_distance_km] returns is [None] or a float. *)
Definition distance_ok (t : json * json * json * json) : Prop :=
  match t with (d, _, _, _) => d = JNone \/ exists q, d = JFloat q end.

Lemma get_distance_km_distance src dst : returns distance_ok (get_distance_km src dst).
Proof.
  unfold get_distance_km. apply returns_try; [|intros e; do 2 (apply returns_bind; intros _);
                                               apply returns_ret; now left].
  apply returns_bind. intros [k|]; [|apply returns_raise].
  destruct (str_falsy (Some k)); [apply returns_raise|].
  do 6 (apply returns_bind; intros ?).
  apply (returns_bind_dep _ (fun d => exists q, d = JFloat q)).
  - apply returns_lift. intros b.
    destruct (getitem _ (KS "distance")); simpl; [apply py_truediv_float | discriminate].
  - intros d Hd. do 2 (apply returns_bind; intros ?). apply returns_ret. now right.
Qed.

End Routing.
