(* ===== verification/Services.v ===== *)
(** * Services: the AI client and the AI, weather and calendar adapters
    (app.py:20-27, 42-53, 130-142, 145-171) and the adapter record of
    app.py

    Each adapter wraps one external service in [try]/[except Exception]
    and returns a value in every case: the service's answer, or an error
    string.  [app_adapters] gathers the four adapters of app.py and
    [app_adapters_contract] proves they keep [AdapterContract]; the
    [_only] lemmas show that each adapter calls its own service and no
    other ([is_ors_call], [is_weather_call] classify the HTTP calls by
    end point and host). *)

From Stdlib Require Import String Ascii ZArith QArith List Lia.
From stdpp Require Import base list gmap strings.
From S2P Require Import Prelude PyValue PyEffects Adapters Routing.
Import ListNotations.

Open Scope string_scope.
Open Scope Z_scope.
Open Scope py_scope.

Module Ai.

Definition system_prompt : string := "You are an AI travel planning assistant.".

(** [get_ai_response(message)] (app.py:42-53).  The service answers with
    [response.choices[0].message.content]. *)
Definition get_ai_response (message : string) : M json :=
  try_except
    (model <- getenv "AZURE_DEPLOYMENT_ID";;
     ai_complete model system_prompt message)
    (fun e => ret (JStr ("Error fetching AI response: " ++ exn_str e))).

End Ai.

Module Client.

Definition missing_credentials : string :=
  "Missing credentials. Please pass one of `api_key`, `azure_ad_token`, `azure_ad_token_provider`, or the `AZURE_OPENAI_API_KEY` or `AZURE_OPENAI_AD_TOKEN` environment variables.".

Definition missing_endpoint : string :=
  "Must provide one of the `base_url` or `azure_endpoint` arguments, or the `AZURE_OPENAI_ENDPOINT` environment variable".

(** The module level of app.py:20-27, run at the top of every run.
    [load_dotenv()] fills the environment from a [.env] file: the
    model's environment is the one it leaves.  [AzureOpenAI(...)] is
    openai's constructor: it looks a missing [api_key] up under the
    library's own variable [AZURE_OPENAI_API_KEY], accepts an
    [AZURE_OPENAI_AD_TOKEN] instead, and needs an endpoint; it raises
    otherwise.  It makes no request. *)
Definition setup : M unit :=
  key <- getenv "AZURE_OPENAI_KEY";;
  endpoint <- getenv "AZURE_OPENAI_ENDPOINT";;
  api_key <- (match key with Some k => ret (Some k) | None => getenv "AZURE_OPENAI_API_KEY" end);;
  ad_token <- getenv "AZURE_OPENAI_AD_TOKEN";;
  match api_key, ad_token with
  | None, None => throw (OtherError "openai.OpenAIError") missing_credentials
  | _, _ =>
      match endpoint with
      | None => throw ValueError missing_endpoint
      | Some _ => ret tt
      end
  end.

(** The environments in which the client can be built. *)
Definition configured (env : list (string * string)) : bool :=
  (match env_lookup "AZURE_OPENAI_KEY" env, env_lookup "AZURE_OPENAI_API_KEY" env,
         env_lookup "AZURE_OPENAI_AD_TOKEN" env with
   | None, None, None => false
   | _, _, _ => true
   end)
  && match env_lookup "AZURE_OPENAI_ENDPOINT" env with Some _ => true | None => false end.

End Client.

Module Weather.

Definition host : string := "http://dataservice.accuweather.com".

(** The degree sign U+00B0 as UTF-8, followed by C. *)
Definition celsius : string := "°C".

Definition location_url (key : option string) (city : string) : string :=
  host ++ "/locations/v1/cities/search?apikey=" ++ fmt_opt key ++ "&q=" ++ city.

Definition forecast_url (key : option string) (loc_key : json) : string :=
  host ++ "/forecasts/v1/daily/1day/" ++ py_str loc_key ++ "?apikey=" ++ fmt_opt key
  ++ "&metric=true".

(** [get_weather(city)] (app.py:130-142).  Neither request is checked
    with [raise_for_status]. *)
Definition get_weather (city : string) : M json :=
  try_except
    (key <- getenv "ACCUWEATHER_API_KEY";;
     loc_resp <- requests_get (location_url key city) [];;
     loc_response <- resp_json loc_resp;;
     if negb (truthy loc_response) then ret (JStr "No weather data found.")
     else
       loc_key <- lift (getpath loc_response [KI 0; KS "Key"]);;
       fc_resp <- requests_get (forecast_url key loc_key) [];;
       forecast <- resp_json fc_resp;;
       phrase <- lift (getpath forecast [KS "DailyForecasts"; KI 0; KS "Day"; KS "IconPhrase"]);;
       s1 <- lift (py_add phrase (JStr ", "));;
       temp <- lift (getpath forecast
                       [KS "DailyForecasts"; KI 0; KS "Temperature"; KS "Maximum"; KS "Value"]);;
       s2 <- lift (py_add s1 (JStr (py_str temp)));;
       lift (py_add s2 (JStr celsius)))
    (fun e => ret (JStr ("Weather error: " ++ exn_str e))).

End Weather.

Module Calendar.

Definition time_zone : string := "Asia/Kolkata".
Definition token_uri : string := "https://oauth2.googleapis.com/token".

(** [isinstance(x, date)]: a [datetime] is a [date] too. *)
Definition isinstance_date (w : when) : bool :=
  match w with WDate _ | WDateTime _ => true end.

(** The conversion of app.py:147-150. *)
Definition to_start_of_day (w : when) : when :=
  if isinstance_date w then WDateTime (combine_midnight w) else w.

Definition when_isoformat (w : when) : string :=
  match w with WDate d => date_isoformat d | WDateTime t => datetime_isoformat t end.

(** [Credentials(None, refresh_token=..., token_uri=..., client_id=...,
    client_secret=...)] (app.py:152-158). *)
Definition get_creds : M gcreds :=
  refresh <- getenv "GOOGLE_REFRESH_TOKEN";;
  cid <- getenv "GOOGLE_CLIENT_ID";;
  secret <- getenv "GOOGLE_CLIENT_SECRET";;
  ret (mk_gcreds refresh token_uri cid secret).

(** The [event] body of app.py:162-166. *)
Definition event_body (summary : string) (start end_ : when) : json :=
  JDict [("summary", JStr summary);
         ("start", JDict [("dateTime", JStr (when_isoformat start)); ("timeZone", JStr time_zone)]);
         ("end", JDict [("dateTime", JStr (when_isoformat end_)); ("timeZone", JStr time_zone)])].

(** [add_event_to_calendar(summary, start, end)] (app.py:145-171).
    [build("calendar", "v3", ...)] makes no request; [insert().execute()]
    is the one call. *)
Definition add_event_to_calendar (summary : string) (start end_ : when) : M json :=
  try_except
    (let start' := to_start_of_day start in
     let end' := to_start_of_day end_ in
     creds <- get_creds;;
     created_event <- calendar_insert creds "primary" (event_body summary start' end');;
     lift (py_get created_event "htmlLink" (JStr "No link")))
    (fun e => ret (JStr ("Calendar error: " ++ exn_str e ++ newline ++ format_exc e))).

End Calendar.

(** ** The adapters of app.py *)

Definition app_adapters : adapters :=
  mk_adapters Ai.get_ai_response Routing.get_distance_km Weather.get_weather
    Calendar.add_event_to_calendar.

Ltac unfold_services :=
  unfold Ai.get_ai_response, Weather.get_weather, Calendar.add_event_to_calendar,
    Calendar.get_creds, ai_complete, calendar_insert, requests_get, http, resp_json, throw.

Lemma get_ai_response_wb msg : well_behaved (Ai.get_ai_response msg).
Proof. apply wb_intro; [apply no_escape_try; intros; fx_auto | unfold_services; fx_auto ..]. Qed.

Lemma get_weather_wb city : well_behaved (Weather.get_weather city).
Proof. apply wb_intro; [apply no_escape_try; intros; fx_auto | unfold_services; fx_auto ..]. Qed.

Lemma add_event_to_calendar_wb summary a b :
  well_behaved (Calendar.add_event_to_calendar summary a b).
Proof. apply wb_intro; [apply no_escape_try; intros; fx_auto | unfold_services; fx_auto ..]. Qed.

(** The calls each adapter makes: one AI call in [get_ai_response], one
    calendar insertion in [add_event_to_calendar], none elsewhere. *)
Lemma get_ai_response_ai_calls msg : at_most is_ai_call 1 (Ai.get_ai_response msg).
Proof.
  unfold Ai.get_ai_response. apply (at_most_try _ 1 0); [|intros; count0_auto].
  apply (at_most_bind _ 0 1); [count0_auto|]. intros model. unfold ai_complete.
  apply (at_most_bind _ 1 0); [apply (at_most_log is_ai_call) | intros; count0_auto].
Qed.

Lemma add_event_cal_calls summary a b :
  at_most is_cal_call 1 (Calendar.add_event_to_calendar summary a b).
Proof.
  unfold Calendar.add_event_to_calendar. apply (at_most_try _ 1 0); [|intros; count0_auto].
  apply (at_most_bind _ 0 1); [unfold Calendar.get_creds; count0_auto|]. intros creds.
  apply (at_most_bind _ 1 0); [|intros; count0_auto].
  unfold calendar_insert. apply (at_most_bind _ 1 0); [apply (at_most_log is_cal_call) | intros; count0_auto].
Qed.

Ltac no_such_calls :=
  unfold Ai.get_ai_response, Routing.get_distance_km, Routing.geocode_inner, Weather.get_weather,
    Calendar.add_event_to_calendar, Calendar.get_creds, ai_complete, calendar_insert,
    requests_get, requests_post, http, raise_for_status, resp_json, throw; count0_auto.

Lemma app_adapters_no_ai_calls :
  (forall a b, at_most is_ai_call 0 (Routing.get_distance_km a b)) /\
  (forall c, at_most is_ai_call 0 (Weather.get_weather c)) /\
  (forall t a b, at_most is_ai_call 0 (Calendar.add_event_to_calendar t a b)).
Proof. repeat split; intros; no_such_calls. Qed.

Lemma app_adapters_no_cal_calls :
  (forall m, at_most is_cal_call 0 (Ai.get_ai_response m)) /\
  (forall a b, at_most is_cal_call 0 (Routing.get_distance_km a b)) /\
  (forall c, at_most is_cal_call 0 (Weather.get_weather c)).
Proof. repeat split; intros; no_such_calls. Qed.

(** The kind of each outbound call: OpenRouteService (its geocoding
    and directions end points) and AccuWeather (its host). *)
Definition is_ors_call (c : call) : bool :=
  match c with
  | CHttp rq => String.eqb (rq_url rq) Routing.geocode_url || String.eqb (rq_url rq) Routing.directions_url
  | _ => false
  end.

Definition is_weather_call (c : call) : bool :=
  match c with CHttp rq => String.prefix Weather.host (rq_url rq) | _ => false end.

(** Each adapter calls its own service only. *)
Lemma get_ai_response_only msg : calls_in [is_ai_call] (Ai.get_ai_response msg).
Proof. unfold_services. only_auto. Qed.

Lemma get_distance_km_only a b : calls_in [is_ors_call] (Routing.get_distance_km a b).
Proof.
  unfold Routing.get_distance_km, Routing.geocode_inner, requests_get, requests_post, http,
    raise_for_status, resp_json, throw.
  only_auto.
Qed.

Lemma get_weather_only c : calls_in [is_weather_call] (Weather.get_weather c).
Proof. unfold_services. only_auto. Qed.

Lemma add_event_only t a b : calls_in [is_cal_call] (Calendar.add_event_to_calendar t a b).
Proof. unfold_services. only_auto. Qed.

#[export] Instance app_adapters_contract : AdapterContract app_adapters.
Proof.
  constructor; simpl.
  - apply get_ai_response_wb.
  - apply Routing.get_distance_km_wb.
  - apply get_weather_wb.
  - apply add_event_to_calendar_wb.
Qed.

(** ** The AccuWeather answers the theorems are stated for *)

Definition location_req (key : option string) (city : string) : http_req :=
  mk_req GET (Weather.location_url key city) [] [] None.

Definition forecast_req (key : option string) (loc_key : json) : http_req :=
  mk_req GET (Weather.forecast_url key loc_key) [] [] None.

Definition location_body (loc_key : json) : json := JList [JDict [("Key", loc_key)]].

Definition forecast_body (phrase : string) (temp : json) : json :=
  JDict [("DailyForecasts", JList [JDict [
     ("Day", JDict [("IconPhrase", JStr phrase)]);
     ("Temperature", JDict [("Maximum", JDict [("Value", temp)])])]])].

(** ** A concrete run of the services, for the witnesses

    The spec's end-to-end scenario: Delhi to Paris, every service
    answering. *)

Definition demo_env : list (string * string) :=
  [("AZURE_OPENAI_KEY", "demo-azure"); ("AZURE_OPENAI_ENDPOINT", "https://demo.openai.azure.com");
   ("AZURE_DEPLOYMENT_ID", "travel-gpt"); ("ORS_API_KEY", "demo-key");
   ("ACCUWEATHER_API_KEY", "demo-accu"); ("GOOGLE_REFRESH_TOKEN", "demo-refresh");
   ("GOOGLE_CLIENT_ID", "demo-client"); ("GOOGLE_CLIENT_SECRET", "demo-secret")].

Definition demo_http (rq : http_req) : res http_resp :=
  if String.eqb (rq_url rq) (Weather.location_url (Some "demo-accu") "Paris")
  then Ok (mk_resp 200 "OK" (Some (location_body (JStr "623"))))
  else if String.eqb (rq_url rq) (Weather.forecast_url (Some "demo-accu") (JStr "623"))
  then Ok (mk_resp 200 "OK" (Some (forecast_body "Sunny" (JFloat (253 # 10)))))
  else Routing.demo_ors rq.

Definition demo_narrative : string := "Day 1: arrive in Paris and walk along the Seine.".
Definition demo_link : string := "https://www.google.com/calendar/event?eid=demo".

Definition demo_runtime : runtime :=
  mk_runtime demo_env
    (mk_services (fun _ _ _ => Ok (JStr demo_narrative)) demo_http
       (fun _ _ _ => Ok (JDict [("htmlLink", JStr demo_link)])) no_tmp no_pdf).

(** The same, with the AI service down. *)
Definition ai_down_runtime : runtime :=
  mk_runtime demo_env
    (mk_services (fun _ _ _ => Exc (mk_exn (OtherError "openai.APIConnectionError") "Connection error."))
       demo_http (fun _ _ _ => Ok (JDict [("htmlLink", JStr demo_link)])) no_tmp no_pdf).

(** ** The client *)

(** Building the client changes nothing: it returns or raises. *)
Lemma setup_result r s :
  Client.setup r s
  = (if Client.configured (rt_env r) then Done tt
     else Raised (match env_lookup "AZURE_OPENAI_KEY" (rt_env r), env_lookup "AZURE_OPENAI_API_KEY" (rt_env r),
                        env_lookup "AZURE_OPENAI_AD_TOKEN" (rt_env r) with
                  | None, None, None => mk_exn (OtherError "openai.OpenAIError") Client.missing_credentials
                  | _, _, _ => mk_exn ValueError Client.missing_endpoint
                  end), s).
Proof.
  unfold Client.setup, Client.configured, bind, getenv, throw, raise, ret. simpl.
  destruct (env_lookup "AZURE_OPENAI_KEY" (rt_env r)); simpl;
    destruct (env_lookup "AZURE_OPENAI_API_KEY" (rt_env r)), (env_lookup "AZURE_OPENAI_AD_TOKEN" (rt_env r)),
      (env_lookup "AZURE_OPENAI_ENDPOINT" (rt_env r)); reflexivity.
Qed.

(** ** Runs of the adapters used by the session theorems *)

Lemma get_ai_response_ok msg v r s :
  svc_ai (rt_svc r) (env_lookup "AZURE_DEPLOYMENT_ID" (rt_env r)) Ai.system_prompt msg = Ok v ->
  Ai.get_ai_response msg r s
  = (Done v, Routing.log_more s [CAi (env_lookup "AZURE_DEPLOYMENT_ID" (rt_env r)) Ai.system_prompt msg]).
Proof.
  intros H. unfold Ai.get_ai_response, try_except, ai_complete, bind, log_call, getenv.
  simpl. now rewrite H.
Qed.

(** With no ORS key, the first [st.*] call of [get_distance_km] is its
    [st.error]: a run whose budget of elements is exhausted halts there,
    before any request. *)
Lemma get_distance_km_no_key_halts src dst r s :
  Routing.str_falsy (env_lookup "ORS_API_KEY" (rt_env r)) = true -> s_stop s = Some O ->
  Routing.get_distance_km src dst r s = (Halted, s).
Proof.
  intros Hkey Hstop.
  unfold Routing.get_distance_km, try_except, bind at 1, getenv. cbv beta iota.
  destruct (env_lookup "ORS_API_KEY" (rt_env r)) as [k|];
    [rewrite Hkey|]; unfold throw, raise; cbv beta iota;
    unfold bind, st_emit; rewrite Hstop; reflexivity.
Qed.

(** ** Theorems *)

(** C14: the weather section is always text.  On an uninterrupted run
    [get_weather] returns a string whatever the service answers or
    raises: the forecast line, "No weather data found." or a
    "Weather error: ..." message. *)
Theorem get_weather_always_text city r s :
  s_stop s = None -> exists t s', Weather.get_weather city r s = (Done (JStr t), s').
Proof.
  intros Hs.
  assert (Hr : returns (fun v => exists t, v = JStr t) (Weather.get_weather city)).
  { unfold Weather.get_weather. apply returns_try; [|intros; apply returns_ret; eauto].
    repeat (apply returns_bind; intros).
    destruct (negb (truthy _)); [apply returns_ret; eauto|].
    repeat (apply returns_bind; intros). apply returns_lift. apply py_add_str_r. }
  destruct (get_weather_wb city) as (He & _ & Hh).
  destruct (returns_run _ _ r s Hr He Hh Hs) as (v & s' & E & t & ->). eauto.
Qed.

(** C15: the forecast line.  When the city resolves to a location key
    and the forecast names a phrase and a maximum temperature,
    [get_weather] returns "phrase, temp°C" after exactly the two
    requests, whatever their HTTP status (neither is checked). *)
Theorem get_weather_forecast city key loc_key phrase temp st1 st2 rsn1 rsn2 r s :
  env_lookup "ACCUWEATHER_API_KEY" (rt_env r) = key ->
  svc_http (rt_svc r) (location_req key city) = Ok (mk_resp st1 rsn1 (Some (location_body loc_key))) ->
  svc_http (rt_svc r) (forecast_req key loc_key)
    = Ok (mk_resp st2 rsn2 (Some (forecast_body phrase temp))) ->
  Weather.get_weather city r s
  = (Done (JStr (phrase ++ ", " ++ py_str temp ++ Weather.celsius)),
     Routing.log_more s [CHttp (location_req key city); CHttp (forecast_req key loc_key)]).
Proof.
  intros Hk Hl Hf. unfold Weather.get_weather, try_except, requests_get, http, bind, log_call, getenv.
  simpl. rewrite Hk. unfold location_req in Hl. rewrite Hl. simpl.
  unfold forecast_req in Hf. rewrite Hf. simpl.
  unfold Routing.log_more. simpl. now rewrite <- !app_assoc, <- !string_app_assoc.
Qed.

(** The start-of-day timestamp sent for a date. *)
Lemma midnight_isoformat d :
  Calendar.when_isoformat (Calendar.to_start_of_day (WDate d)) = date_isoformat d ++ "T00:00:00".
Proof. reflexivity. Qed.

(** A reader for the event times app.py:164-165 sends,
    ["YYYY-MM-DDT00:00:00"]. *)
Definition parse_midnight (t : string) : option date :=
  if Nat.eqb (String.length t) 19 && String.eqb (substring 10 9 t) "T00:00:00"
  then parse_date (substring 0 10 t) else None.

(** C24: round trip of the event times.  The [dateTime] string the
    calendar adapter sends for a travel date (app.py:147-150, 164-165)
    reads back as that date at midnight: distinct dates give distinct
    event times, each with four-digit year and two-digit month and day. *)
Theorem event_time_roundtrip d :
  valid_date d ->
  parse_midnight (Calendar.when_isoformat (Calendar.to_start_of_day (WDate d))) = Some d.
Proof.
  intros Hv. rewrite midnight_isoformat. pose proof (date_isoformat_roundtrip d Hv) as H.
  pose proof (parse_date_length _ _ H) as L.
  assert (E1 : substring 10 9 (date_isoformat d ++ "T00:00:00") = "T00:00:00")
    by (rewrite <- L; exact (substring_app_r _ "T00:00:00")).
  assert (E2 : substring 0 10 (date_isoformat d ++ "T00:00:00") = date_isoformat d)
    by (rewrite substring_app_l by lia; rewrite <- L; apply substring_all).
  unfold parse_midnight. rewrite E1, E2, string_length_app, L. exact H.
Qed.

(** C16: the calendar event.  [add_event_to_calendar] makes exactly one
    call, inserting into the primary calendar an event from midnight of
    the first date to midnight of the last one, both in Asia/Kolkata,
    with the credentials read from the environment; it returns the
    event's [htmlLink].  A one-day trip (the form's default) is a
    zero-length event, and the last day of any trip is left out. *)
Theorem add_event_to_calendar_event summary d1 d2 link r s :
  let creds := mk_gcreds (env_lookup "GOOGLE_REFRESH_TOKEN" (rt_env r)) Calendar.token_uri
                 (env_lookup "GOOGLE_CLIENT_ID" (rt_env r))
                 (env_lookup "GOOGLE_CLIENT_SECRET" (rt_env r)) in
  let ev := JDict [("summary", JStr summary);
                   ("start", JDict [("dateTime", JStr (date_isoformat d1 ++ "T00:00:00"));
                                    ("timeZone", JStr "Asia/Kolkata")]);
                   ("end", JDict [("dateTime", JStr (date_isoformat d2 ++ "T00:00:00"));
                                  ("timeZone", JStr "Asia/Kolkata")])] in
  svc_cal (rt_svc r) creds "primary" ev = Ok (JDict [("htmlLink", JStr link)]) ->
  Calendar.add_event_to_calendar summary (WDate d1) (WDate d2) r s
  = (Done (JStr link), Routing.log_more s [CCal creds "primary" ev]).
Proof.
  intros creds ev H.
  assert (Hev : Calendar.event_body summary (Calendar.to_start_of_day (WDate d1))
                  (Calendar.to_start_of_day (WDate d2)) = ev)
    by (unfold Calendar.event_body, ev; now rewrite !midnight_isoformat).
  unfold Calendar.add_event_to_calendar, try_except, Calendar.get_creds, calendar_insert,
    bind, log_call, getenv. simpl. rewrite Hev. fold creds. rewrite H. reflexivity.
Qed.

(** C17: a failing AI service is embedded as the narrative: the adapter
    returns "Error fetching AI response: " followed by the cause. *)
Theorem get_ai_response_error msg e r s :
  svc_ai (rt_svc r) (env_lookup "AZURE_DEPLOYMENT_ID" (rt_env r)) Ai.system_prompt msg = Exc e ->
  fst (Ai.get_ai_response msg r s) = Done (JStr ("Error fetching AI response: " ++ exn_msg e)).
Proof.
  intros H. unfold Ai.get_ai_response, try_except, ai_complete, bind, log_call, getenv.
  simpl. now rewrite H.
Qed.

(** ** Witnesses *)

Lemma get_weather_always_text_witness :
  exists t s', Weather.get_weather "Paris" demo_runtime Routing.fresh_state = (Done (JStr t), s').
Proof. apply get_weather_always_text. reflexivity. Defined.

Lemma get_weather_forecast_witness :
  Weather.get_weather "Paris" demo_runtime Routing.fresh_state
  = (Done (JStr ("Sunny" ++ ", " ++ py_str (JFloat (253 # 10)) ++ Weather.celsius)),
     Routing.log_more Routing.fresh_state
       [CHttp (location_req (Some "demo-accu") "Paris");
        CHttp (forecast_req (Some "demo-accu") (JStr "623"))]) /\
  py_str (JFloat (253 # 10)) = "25.3".
Proof. split; [apply (get_weather_forecast _ _ _ _ _ 200 200 "OK" "OK"); reflexivity | reflexivity]. Defined.

Lemma add_event_to_calendar_event_witness :
  Calendar.add_event_to_calendar "Trip to Paris" (WDate (mk_date 2025 6 1)) (WDate (mk_date 2025 6 10))
    demo_runtime Routing.fresh_state
  = (Done (JStr demo_link),
     Routing.log_more Routing.fresh_state
       [CCal (mk_gcreds (Some "demo-refresh") Calendar.token_uri (Some "demo-client") (Some "demo-secret"))
          "primary"
          (JDict [("summary", JStr "Trip to Paris");
                  ("start", JDict [("dateTime", JStr "2025-06-01T00:00:00"); ("timeZone", JStr "Asia/Kolkata")]);
                  ("end", JDict [("dateTime", JStr "2025-06-10T00:00:00"); ("timeZone", JStr "Asia/Kolkata")])])]).
Proof. apply (add_event_to_calendar_event "Trip to Paris" (mk_date 2025 6 1) (mk_date 2025 6 10)). reflexivity. Defined.

Lemma get_ai_response_error_witness :
  fst (Ai.get_ai_response "Plan a trip" ai_down_runtime Routing.fresh_state)
  = Done (JStr ("Error fetching AI response: " ++ "Connection error.")).
Proof. apply (get_ai_response_error _ (mk_exn (OtherError "openai.APIConnectionError") "Connection error.")). reflexivity. Defined.

Lemma event_time_roundtrip_witness :
  valid_date (mk_date 2025 6 1) /\
  parse_midnight (Calendar.when_isoformat (Calendar.to_start_of_day (WDate (mk_date 2025 6 1))))
  = Some (mk_date 2025 6 1).
Proof.
  assert (H : valid_date (mk_date 2025 6 1)) by (unfold valid_date; simpl; lia).
  split; [exact H | exact (event_time_roundtrip _ H)].
Defined.
