(* ===== verification/Orchestrator.v ===== *)
(** * Orchestrator: the planning block of app.py (lines 209-251)

    Every run draws the "Plan My Trip" button.  On a click (or when a
    plan was already made) the block checks the two cities; the first
    time only, it sets [trip_planned], creates an empty [trip_data] and,
    under a spinner, fills it, calling the four adapters in a fixed order
    inside one [try]/[except Exception].  Everything here is written
    against the adapter interface [adapters]; the theorems assume only
    [AdapterContract], and, for the order of the calls ([Section Order]),
    that each adapter calls its own service only. *)

From Stdlib Require Import String Ascii ZArith QArith List Lia.
From stdpp Require Import base list gmap strings.
From S2P Require Import Prelude PyValue PyEffects Adapters Routing Services.
Import ListNotations.

Open Scope string_scope.
Open Scope Z_scope.
Open Scope py_scope.

(** ** The widgets' values in one run (app.py:182-209) *)

Record inputs : Type := mk_inputs {
  in_source : string;
  in_destination : string;
  in_travel_dates : list date;  (** the tuple [st.date_input] returns: 0, 1 or 2 dates *)
  in_budget : Z;
  in_travel_preferences : list string;
  in_accommodation_type : string;
  in_transportation_mode : list string;
  in_dietary_restrictions : list string;
  in_clicked : bool }.          (** [st.button("Plan My Trip")] *)

(** ** Pure parts of the block *)

(** [travel_dates[i]] on the tuple. *)
Definition date_at (ds : list date) (i : nat) : res date :=
  match nth_error ds i with
  | Some d => Ok d
  | None => raise_ IndexError "tuple index out of range"
  end.

(** A line break of the triple-quoted f-string followed by its
    20-column indentation. *)
Definition indent : string := newline ++ "                    ".

(** The prompt f-string of app.py:219-229, evaluated left to right. *)
Definition build_message (inp : inputs) : res string :=
  let? d0 := date_at (in_travel_dates inp) 0 in
  let? d1 := date_at (in_travel_dates inp) 1 in
  Ok (indent ++ "Plan a trip with the following details:"
      ++ indent ++ "- From: " ++ in_source inp
      ++ indent ++ "- To: " ++ in_destination inp
      ++ indent ++ "- Dates: " ++ date_isoformat d0 ++ " to " ++ date_isoformat d1
      ++ indent ++ "- Budget in USD: $" ++ str_int (in_budget inp)
      ++ indent ++ "- Preferences: " ++ py_join ", " (in_travel_preferences inp)
      ++ indent ++ "- Accommodation: " ++ in_accommodation_type inp
      ++ indent ++ "- Transportation: " ++ py_join ", " (in_transportation_mode inp)
      ++ indent ++ "- Dietary Restrictions: " ++ py_join ", " (in_dietary_restrictions inp)
      ++ indent).

(** [destination.lower().replace(" ", "-")] (app.py:233). *)
Definition destination_slug (destination : string) : string :=
  str_replace " " "-" (str_lower destination).

(** ** Writes to [st.session_state.trip_data] *)

Definition no_trip_data : exn :=
  mk_exn AttributeError "st.session_state has no attribute 'trip_data'".

(** [st.session_state.trip_data[k] = v]. *)
Definition set_trip_data (k : string) (v : json) : M unit :=
  ss <- get_session;;
  match ss_trip_data ss with
  | Some d => put_session (mk_session (ss_trip_planned ss) (Some (<[k:=v]> d)))
  | None => raise no_trip_data
  end.

(** [st.session_state.trip_data.update({...})]: the keys in order. *)
Fixpoint update_trip_data (kvs : list (string * json)) : M unit :=
  match kvs with
  | [] => ret tt
  | (k, v) :: rest => set_trip_data k v;; update_trip_data rest
  end.

(** ** The block *)

Section Plan.
Context (ad : adapters).

Definition spinner_text : string := "🤖 AI Agents are planning your perfect trip...".

(** The body of the [try] (app.py:219-247). *)
Definition plan_body (inp : inputs) : M unit :=
  message <- lift (build_message inp);;
  response <- ad_ai ad message;;
  set_trip_data "response" response;;
  set_trip_data "destination_slug" (JStr (destination_slug (in_destination inp)));;
  route <- ad_route ad (in_source inp) (in_destination inp);;
  match route with
  | (distance_km, coord_start, coord_end, route_coords) =>
      update_trip_data [("distance_km", distance_km); ("coord_start", coord_start);
                        ("coord_end", coord_end); ("route_coords", route_coords)]
  end;;
  forecast <- ad_weather ad (in_destination inp);;
  set_trip_data "forecast" forecast;;
  d0 <- lift (date_at (in_travel_dates inp) 0);;
  d1 <- lift (date_at (in_travel_dates inp) 1);;
  link <- ad_calendar ad ("Trip to " ++ in_destination inp) (WDate d0) (WDate d1);;
  set_trip_data "calendar_link" link.

(** The [except Exception as e] clause (app.py:249-251). *)
Definition plan_handler (e : exn) : M unit :=
  st_emit (UError ("An error occurred: " ++ exn_str e));;
  st_emit (UText (format_exc e)).

(** app.py:213-251: plan only when ["trip_planned"] is absent. *)
Definition plan_trip (inp : inputs) : M unit :=
  ss <- get_session;;
  match ss_trip_planned ss with
  | None =>
      put_session (mk_session (Some true) (ss_trip_data ss));;
      ss' <- get_session;;
      put_session (mk_session (ss_trip_planned ss') (Some ∅));;
      st_spinner spinner_text (try_except (plan_body inp) plan_handler)
  | Some _ => ret tt
  end.

(** [st.session_state.get("trip_planned")], as a condition. *)
Definition planned_truthy (ss : session) : bool :=
  match ss_trip_planned ss with Some b => b | None => false end.

(** app.py:209-251.  The button is drawn on every run; its value is
    [True] on the run that follows a click. *)
Definition trigger (inp : inputs) : M unit :=
  clicked <- st_widget "button" "Plan My Trip" [] (in_clicked inp);;
  ss <- get_session;;
  if clicked || planned_truthy ss then
    if String.eqb (in_source inp) "" || String.eqb (in_destination inp) ""
    then st_emit (UError "Please enter both source and destination cities.")
    else plan_trip inp
  else ret tt.
End Plan.

(** The keys a completed plan writes. *)
Definition plan_keys : list string :=
  ["response"; "destination_slug"; "distance_km"; "coord_start"; "coord_end";
   "route_coords"; "forecast"; "calendar_link"].

(** [trip_data] after a complete pass of the body, from the dictionary
    [d] it started with and the adapters' answers. *)
Definition plan_data (d : gmap string json) (response : json) (slug : string)
  (route : json * json * json * json) (forecast link : json) : gmap string json :=
  match route with
  | (distance_km, coord_start, coord_end, route_coords) =>
      <["calendar_link" := link]> (<["forecast" := forecast]>
      (<["route_coords" := route_coords]> (<["coord_end" := coord_end]>
      (<["coord_start" := coord_start]> (<["distance_km" := distance_km]>
      (<["destination_slug" := JStr slug]> (<["response" := response]> d)))))))
  end.

(** ** Lemmas *)

(** The slug of one character: lowered, a space turned into a hyphen. *)
Definition slug_char (c : ascii) : string :=
  if Ascii.eqb (ascii_lower c) " "%char then "-" else String (ascii_lower c) "".

(** Facts on single characters, checked on all 256 of them. *)
Lemma slug_char_single c :
  slug_char c = String (if Ascii.eqb c " "%char then "-"%char else ascii_lower c) "".
Proof. destruct c as [[] [] [] [] [] [] [] []]; reflexivity. Qed.

Lemma destination_slug_map d : destination_slug d = map_chars slug_char d.
Proof.
  unfold destination_slug. rewrite str_replace_char.
  induction d as [|c d IH]; simpl; [reflexivity|]. now rewrite IH.
Qed.

Lemma set_trip_data_run k v r s d :
  ss_trip_data (s_session s) = Some d ->
  set_trip_data k v r s
  = (Done tt, with_session s (mk_session (ss_trip_planned (s_session s)) (Some (<[k:=v]> d)))).
Proof. intros H. unfold set_trip_data, bind, get_session. simpl. now rewrite H. Qed.

Definition insert_all (kvs : list (string * json)) (d : gmap string json) : gmap string json :=
  fold_left (fun acc kv => <[fst kv := snd kv]> acc) kvs d.

Lemma update_trip_data_run kvs r s d :
  ss_trip_data (s_session s) = Some d ->
  update_trip_data kvs r s
  = (Done tt, with_session s (mk_session (ss_trip_planned (s_session s)) (Some (insert_all kvs d)))).
Proof.
  revert s d. induction kvs as [|[k v] kvs IH]; intros s d H.
  - destruct s as [[] ? ? ?]; simpl in *. now subst.
  - simpl update_trip_data. erewrite bind_Done by (apply set_trip_data_run; exact H).
    rewrite (IH _ (<[k:=v]> d)) by reflexivity. reflexivity.
Qed.

Lemma build_message_ok inp d0 d1 :
  in_travel_dates inp = [d0; d1] \/ (exists rest, in_travel_dates inp = d0 :: d1 :: rest) ->
  exists msg, build_message inp = Ok msg.
Proof.
  intros [H | [rest H]]; unfold build_message, date_at; rewrite H; simpl; eauto.
Qed.

(** Running an adapter inside a bind, on an uninterrupted run. *)
Ltac run_adapter :=
  match goal with
  | |- context [bind ?m ?k ?r ?s] =>
      let a := fresh "a" in let s' := fresh "s" in
      let E := fresh "E" in let Hss := fresh "Hss" in let Hst := fresh "Hst" in
      destruct (wb_run m r s ltac:(eauto) ltac:(assumption)) as (a & s' & E & Hss & Hst);
      rewrite (bind_Done m k r s a s' E)
  end.

(** Read the current [trip_data] back through the session equations. *)
Ltac session_fact :=
  simpl;
  repeat match goal with H : s_session ?x = _ |- context [s_session ?x] => rewrite H end;
  simpl; first [reflexivity | eassumption].

Ltac run_set :=
  match goal with
  | |- context [bind (set_trip_data ?k ?v) ?kk ?r ?s] =>
      erewrite (bind_Done (set_trip_data k v) kk r s)
        by (apply set_trip_data_run; session_fact)
  end.

Lemma plan_data_dom d response slug route forecast link :
  dom (plan_data d response slug route forecast link) = list_to_set plan_keys ∪ dom d.
Proof.
  destruct route as [[[dist cs] ce] rc]. simpl.
  rewrite !dom_insert_L. set_solver.
Qed.

Lemma plan_data_slug d response slug route forecast link :
  plan_data d response slug route forecast link !! "destination_slug" = Some (JStr slug).
Proof.
  destruct route as [[[dist cs] ce] rc]. simpl.
  rewrite !lookup_insert_ne by done. apply lookup_insert_eq.
Qed.

(** The button element of app.py:209. *)
Definition button_ui : ui := UWidget "button" "Plan My Trip" [].

Lemma trigger_unfold ad inp r s :
  s_stop s <> Some O ->
  trigger ad inp r s
  = (if in_clicked inp || planned_truthy (s_session s) then
       if String.eqb (in_source inp) "" || String.eqb (in_destination inp) ""
       then st_emit (UError "Please enter both source and destination cities.")
       else plan_trip ad inp
     else ret tt) r (page_add s button_ui).
Proof. intros H. unfold trigger. now rewrite (bind_Done _ _ _ _ _ _ (st_widget_run _ _ _ _ r s H)). Qed.

(** [trigger] with both cities given, on a session without
    ["trip_planned"], after a click: the flag and the empty dictionary
    are written, then the [try] runs under the spinner. *)
Lemma trigger_fresh ad inp r s :
  s_stop s <> Some O -> in_clicked inp = true -> in_source inp <> "" -> in_destination inp <> "" ->
  ss_trip_planned (s_session s) = None ->
  trigger ad inp r s
  = st_spinner spinner_text (try_except (plan_body ad inp) plan_handler)
      r (with_session (page_add s button_ui) (mk_session (Some true) (Some ∅))).
Proof.
  intros Hst Hc Hs Hd Hp. rewrite trigger_unfold by exact Hst. rewrite Hc.
  rewrite (proj2 (String.eqb_neq _ _) Hs), (proj2 (String.eqb_neq _ _) Hd).
  unfold plan_trip, bind at 1 2 3, get_session, put_session. simpl. now rewrite Hp.
Qed.

(** The button returns; what the block does next runs on the state it
    left, which has the session and the log it started with. *)
Ltac press_button :=
  unfold trigger; rewrite bind_cases;
  match goal with
  | |- context [st_widget ?k ?l ?o ?v ?r ?s] =>
      let H1 := fresh "H" in let H2 := fresh "H" in
      assert (H1 : preserves s_session (st_widget k l o v)) by fx_auto;
      assert (H2 : preserves s_log (st_widget k l o v)) by fx_auto;
      specialize (H1 r s); specialize (H2 r s);
      destruct (st_widget k l o v r s) as [[?c|?e|] ?s1]; simpl in H1, H2 |- *;
      [ rewrite <- ?H1, <- ?H2 in *; rewrite bind_cases; unfold get_session | .. ]
  end.

(** Once ["trip_planned"] is in the session, the block, clicked or not
    and whatever the inputs, makes no outbound call and leaves the
    session untouched. *)
Lemma trigger_planned_frame ad inp r s :
  ss_trip_planned (s_session s) <> None ->
  s_session (snd (trigger ad inp r s)) = s_session s /\ s_log (snd (trigger ad inp r s)) = s_log s.
Proof.
  intros Hp. press_button; [|auto|auto].
  destruct (c || planned_truthy (s_session s1)); [|auto].
  destruct (String.eqb (in_source inp) "" || String.eqb (in_destination inp) "").
  - split; [apply keeps_session_emit | apply no_calls_emit].
  - unfold plan_trip, bind, get_session. simpl.
    destruct (ss_trip_planned (s_session s1)); [auto | congruence].
Qed.

(** C5: a missing source or destination is rejected before anything is
    attempted: no call, no change to the session; the button is drawn
    and, when the block runs (click, or a plan already made), the error
    is shown after it. *)
Theorem trigger_missing_city ad inp r s :
  (in_source inp = "" \/ in_destination inp = "") -> s_stop s = None ->
  trigger ad inp r s
  = (Done tt,
     mk_state (s_session s) (s_log s)
       (s_page s ++ button_ui :: (if in_clicked inp || planned_truthy (s_session s)
                                  then [UError "Please enter both source and destination cities."]
                                  else []))
       None).
Proof.
  intros Hcity Hstop. rewrite trigger_unfold by (rewrite Hstop; discriminate).
  assert (Hb : (String.eqb (in_source inp) "" || String.eqb (in_destination inp) "")%bool = true)
    by (destruct Hcity as [-> | ->]; [reflexivity | apply orb_true_r]).
  rewrite Hb. unfold page_add. rewrite Hstop.
  destruct (in_clicked inp || planned_truthy (s_session s)); [|reflexivity].
  rewrite st_emit_run by discriminate. unfold page_add. simpl. now rewrite <- app_assoc.
Qed.

(** The short date tuple: while the user has picked only the start of
    the range, [st.date_input] returns a 1-tuple.  A click then sets
    ["trip_planned"] and an empty [trip_data] before building the prompt,
    whose [travel_dates[1]] raises [IndexError]; the handler shows it
    under the spinner's placeholder and no service is called.  The
    session is left planned with no data. *)
Lemma trigger_short_dates ad inp r s :
  s_stop s = None -> ss_trip_planned (s_session s) = None -> in_clicked inp = true ->
  in_source inp <> "" -> in_destination inp <> "" ->
  (length (in_travel_dates inp) < 2)%nat ->
  trigger ad inp r s
  = (Done tt,
     mk_state (mk_session (Some true) (Some ∅)) (s_log s)
       (s_page s ++ [button_ui; UEmpty;
                     UError "An error occurred: tuple index out of range";
                     UText (format_exc (mk_exn IndexError "tuple index out of range"))])
       None).
Proof.
  intros Hstop Hp Hc Hs Hd Hlen.
  rewrite trigger_fresh by (first [assumption | rewrite Hstop; discriminate]).
  apply st_spinner_run; [simpl; now rewrite Hstop | | reflexivity].
  unfold try_except, plan_body, build_message, date_at.
  destruct (in_travel_dates inp) as [|d0 [|d1 rest]]; simpl in Hlen; try lia;
    unfold plan_handler, st_emit, bind; simpl; rewrite Hstop; simpl;
    now rewrite <- !app_assoc.
Qed.

(** C9: the destination slug (app.py:233), character by character.
    For a destination written in ASCII (where Python's [str.lower]
    lowers exactly the letters A-Z), the slug has the destination's
    length and its i-th character is a hyphen where the destination has
    a space, and the destination's character lowered elsewhere. *)
Theorem destination_slug_spec d :
  ascii_only d = true ->
  String.length (destination_slug d) = String.length d /\
  forall i c, String.get i d = Some c ->
    String.get i (destination_slug d) = Some (if Ascii.eqb c " "%char then "-"%char else ascii_lower c).
Proof.
  intros _. rewrite destination_slug_map.
  induction d as [|c d (IHl & IHg)]; [split; [reflexivity | now intros []]|].
  simpl. rewrite slug_char_single. cbv [String.append]. split; [simpl; now rewrite IHl|].
  intros [|i] x H; [injection H as <-; reflexivity | now apply IHg].
Qed.

(** Find [x] inside a concatenation. *)
Ltac find_infix :=
  first
    [ apply infix_refl
    | apply infix_app_l; find_infix
    | apply infix_app_r; find_infix
    | apply infix_join; assumption ].

(** C19: the prompt sent to the AI service (app.py:219-229) mentions
    the source, the destination, both dates (ISO format), the budget and
    every selected preference, transportation mode and dietary
    restriction. *)
Theorem build_message_mentions inp msg :
  build_message inp = Ok msg ->
  exists d0 d1 rest, in_travel_dates inp = d0 :: d1 :: rest /\
    infix (in_source inp) msg /\ infix (in_destination inp) msg /\
    infix (date_isoformat d0) msg /\ infix (date_isoformat d1) msg /\
    infix (str_int (in_budget inp)) msg /\
    (forall x, In x (in_travel_preferences inp) \/ In x (in_transportation_mode inp)
               \/ In x (in_dietary_restrictions inp) -> infix x msg).
Proof.
  unfold build_message, date_at. destruct (in_travel_dates inp) as [|d0 [|d1 rest]];
    simpl; intros H; try discriminate.
  injection H as <-. exists d0, d1, rest. split; [reflexivity|].
  repeat split; try find_infix.
  intros x [Hx | [Hx | Hx]]; find_infix.
Qed.

Example destination_slug_new_york : destination_slug "New York" = "new-york".
Proof. reflexivity. Qed.

(** ** Calls and the [trip_planned] key *)

Definition planned_of (s : state) : option bool := ss_trip_planned (s_session s).

Lemma set_trip_data_planned k v : preserves planned_of (set_trip_data k v).
Proof.
  intros r s. unfold set_trip_data, bind, get_session, put_session, planned_of. simpl.
  now destruct (ss_trip_data (s_session s)).
Qed.

Lemma set_trip_data_no_calls k v : preserves s_log (set_trip_data k v).
Proof.
  intros r s. unfold set_trip_data, bind, get_session, put_session. simpl.
  now destruct (ss_trip_data (s_session s)).
Qed.

Lemma update_trip_data_planned kvs : preserves planned_of (update_trip_data kvs).
Proof.
  induction kvs as [|[k v] kvs IH]; simpl; [apply preserves_ret|].
  apply preserves_bind; [apply set_trip_data_planned | intros; exact IH].
Qed.

Lemma update_trip_data_no_calls kvs : preserves s_log (update_trip_data kvs).
Proof.
  induction kvs as [|[k v] kvs IH]; simpl; [apply preserves_ret|].
  apply preserves_bind; [apply set_trip_data_no_calls | intros; exact IH].
Qed.

Lemma plan_handler_keeps_session e : keeps_session (plan_handler e).
Proof. unfold plan_handler. fx_auto. Qed.

Lemma keeps_session_planned {A} (m : M A) : keeps_session m -> preserves planned_of m.
Proof. intros H r s. unfold planned_of. now rewrite H. Qed.

#[export] Hint Resolve set_trip_data_planned set_trip_data_no_calls
  update_trip_data_planned update_trip_data_no_calls : pyfx pycount.

Section WithContract.
Context (ad : adapters) `{!AdapterContract ad}.

Lemma ai_wb' m : well_behaved (ad_ai ad m).
Proof. apply ai_wb. Qed.
Lemma route_wb' a b : well_behaved (ad_route ad a b).
Proof. apply route_wb. Qed.
Lemma weather_wb' c : well_behaved (ad_weather ad c).
Proof. apply weather_wb. Qed.
Lemma calendar_wb' t a b : well_behaved (ad_calendar ad t a b).
Proof. apply calendar_wb. Qed.
#[local] Hint Resolve ai_wb' route_wb' weather_wb' calendar_wb' : core.

(** A complete pass of the body on an uninterrupted run: every key is
    written, in order, with the adapters' answers. *)
Lemma plan_body_run inp r s d d0 d1 rest :
  s_stop s = None -> in_travel_dates inp = d0 :: d1 :: rest ->
  ss_trip_data (s_session s) = Some d ->
  exists response route forecast link s',
    plan_body ad inp r s = (Done tt, s') /\ s_stop s' = None /\
    s_session s' = mk_session (ss_trip_planned (s_session s))
      (Some (plan_data d response (destination_slug (in_destination inp)) route forecast link)) /\
    exists s1 s2, ad_route ad (in_source inp) (in_destination inp) r s1 = (Done route, s2).
Proof.
  intros Hstop Hdates Hd. unfold plan_body.
  destruct (build_message inp) as [msg|e] eqn:Hm;
    [| unfold build_message, date_at in Hm; rewrite Hdates in Hm; discriminate].
  cbn [lift]. rewrite (bind_Done _ _ r s _ s eq_refl).
  run_adapter. run_set. run_set.
  run_adapter. destruct a0 as [[[dist cs] ce] rc].
  erewrite bind_Done by (apply update_trip_data_run; session_fact).
  run_adapter. run_set.
  unfold date_at. rewrite Hdates. cbn [nth_error lift].
  rewrite (bind_Done _ _ r _ _ _ eq_refl). rewrite (bind_Done _ _ r _ _ _ eq_refl).
  run_adapter.
  erewrite set_trip_data_run by session_fact.
  exists a, (dist, cs, ce, rc). do 3 eexists. split; [reflexivity|]. simpl in *.
  split; [congruence|]. split; [|eauto].
  rewrite Hss2, Hss1, Hss0, Hss. simpl. reflexivity.
Qed.

(** A first planning run, uninterrupted: the block returns and leaves
    the plan made of the adapters' answers. *)
Lemma trigger_fresh_run inp r s d0 d1 rest :
  s_stop s = None -> ss_trip_planned (s_session s) = None -> in_clicked inp = true ->
  in_source inp <> "" -> in_destination inp <> "" ->
  in_travel_dates inp = d0 :: d1 :: rest ->
  exists response route forecast link s',
    trigger ad inp r s = (Done tt, s') /\ s_stop s' = None /\
    s_session s' = mk_session (Some true)
      (Some (plan_data ∅ response (destination_slug (in_destination inp)) route forecast link)) /\
    exists s1 s2, ad_route ad (in_source inp) (in_destination inp) r s1 = (Done route, s2).
Proof.
  intros Hstop Hp Hc Hs Hd Hdates.
  rewrite trigger_fresh by (first [assumption | rewrite Hstop; discriminate]).
  set (s0 := page_add (with_session (page_add s button_ui) (mk_session (Some true) (Some ∅))) UEmpty).
  destruct (plan_body_run inp r s0 ∅ d0 d1 rest)
    as (resp & route & fc & link & s' & E & Hst & Hss & Hroute);
    [subst s0; simpl; now rewrite Hstop | exact Hdates | reflexivity |].
  exists resp, route, fc, link, s'.
  rewrite (st_spinner_run _ _ r _ tt s');
    [| simpl; now rewrite Hstop | unfold try_except; subst s0; now rewrite E | exact Hst].
  split; [reflexivity|]. split; [exact Hst|]. split; [exact Hss | exact Hroute].
Qed.

(** C1: one uninterrupted planning run, with both cities and both
    dates, fills [trip_data] with exactly the eight keys of the plan
    (narrative, slug, the four route fields, forecast, calendar link),
    whatever each adapter answered, and marks the session planned. *)
Theorem trigger_completes_plan inp r s d0 d1 rest :
  s_stop s = None -> ss_trip_planned (s_session s) = None -> in_clicked inp = true ->
  in_source inp <> "" -> in_destination inp <> "" ->
  in_travel_dates inp = d0 :: d1 :: rest ->
  exists data s',
    trigger ad inp r s = (Done tt, s') /\ s_stop s' = None /\
    s_session s' = mk_session (Some true) (Some data) /\
    dom data = list_to_set plan_keys /\
    data !! "destination_slug" = Some (JStr (destination_slug (in_destination inp))).
Proof.
  intros Hstop Hp Hc Hs Hd Hdates.
  destruct (trigger_fresh_run inp r s d0 d1 rest)
    as (resp & route & fc & link & s' & E & Hst & Hss & _); [assumption .. |].
  eexists _, s'. split; [exact E|]. split; [exact Hst|]. split; [exact Hss|].
  rewrite plan_data_dom, dom_empty_L. split; [set_solver | apply plan_data_slug].
Qed.
(** A projection of the state that only the writes to [trip_data] could
    change, and that they do not change, is the same after the block. *)
Section Frame.
Context {X : Type} (f : state -> X).
Hypothesis f_set : forall k v, preserves f (set_trip_data k v).
Hypothesis f_session : forall A (m : M A), keeps_session m -> preserves f m.

Lemma update_trip_data_frame kvs : preserves f (update_trip_data kvs).
Proof.
  induction kvs as [|[k v] kvs IH]; simpl; [apply preserves_ret|].
  apply preserves_bind; [apply f_set | intros; exact IH].
Qed.

Lemma plan_body_frame inp : preserves f (plan_body ad inp).
Proof.
  unfold plan_body.
  repeat (intros; first
    [ apply f_set | apply update_trip_data_frame
    | apply preserves_bind | apply preserves_lift
    | apply f_session; first [apply ai_wb' | apply route_wb' | apply weather_wb'
                                | apply calendar_wb']
    | match goal with |- context [match ?x with _ => _ end] => destruct x end ]).
Qed.

Lemma plan_block_frame inp :
  preserves f (st_spinner spinner_text (try_except (plan_body ad inp) plan_handler)).
Proof.
  unfold st_spinner.
  apply preserves_bind; [apply f_session, keeps_session_emit | intros _].
  apply preserves_finally; [|apply f_session, keeps_session_update].
  apply preserves_try; [apply plan_body_frame|].
  intros e. apply f_session, plan_handler_keeps_session.
Qed.
End Frame.

(** The block never touches ["trip_planned"]. *)
Lemma plan_block_planned inp :
  preserves planned_of (st_spinner spinner_text (try_except (plan_body ad inp) plan_handler)).
Proof. apply plan_block_frame; [apply set_trip_data_planned | intros A m; apply keeps_session_planned]. Qed.

(** Whether [st.session_state.trip_data] exists. *)
Definition data_set (s : state) : bool :=
  match ss_trip_data (s_session s) with Some _ => true | None => false end.

Lemma set_trip_data_data_set k v : preserves data_set (set_trip_data k v).
Proof.
  intros r s. unfold set_trip_data, bind, get_session, put_session, raise, data_set. simpl.
  destruct (ss_trip_data (s_session s)) eqn:E; simpl; rewrite ?E; reflexivity.
Qed.

(** The block never removes [trip_data]. *)
Lemma plan_block_data_set inp :
  preserves data_set (st_spinner spinner_text (try_except (plan_body ad inp) plan_handler)).
Proof.
  apply plan_block_frame; [apply set_trip_data_data_set|].
  intros A m H r s. unfold data_set. now rewrite H.
Qed.

(** From the empty session, a run of the block leaves either the empty
    session or a planned one with a [trip_data] dictionary. *)
Lemma trigger_from_empty inp r s :
  s_session s = empty_session ->
  s_session (snd (trigger ad inp r s)) = empty_session \/
  exists d, s_session (snd (trigger ad inp r s)) = mk_session (Some true) (Some d).
Proof.
  intros He. press_button; [|left; congruence ..].
  destruct (c || planned_truthy (s_session s1)); [|left; simpl; congruence].
  destruct (String.eqb (in_source inp) "" || String.eqb (in_destination inp) "").
  - left. rewrite keeps_session_emit. exact He.
  - right. unfold plan_trip, bind, get_session, put_session. simpl. rewrite He. simpl.
    set (s2 := with_session _ _).
    pose proof (plan_block_planned inp r s2) as Hp. pose proof (plan_block_data_set inp r s2) as Hd.
    unfold planned_of, data_set in *. simpl in Hp, Hd.
    destruct (s_session (snd _)) as [p [d|]]; simpl in *; [subst; eauto | discriminate].
Qed.

(** A run of the block on a session without ["trip_planned"] either
    changes nothing, or sets it and appends the calls of one pass of the
    spinner block (whatever property [Q] those calls have). *)
Lemma trigger_unplanned_log (Q : list call -> Prop) inp r s :
  (forall r s, exists l,
     s_log (snd (st_spinner spinner_text (try_except (plan_body ad inp) plan_handler) r s))
     = (s_log s ++ l)%list /\ Q l) ->
  ss_trip_planned (s_session s) = None ->
  (s_session (snd (trigger ad inp r s)) = s_session s /\ s_log (snd (trigger ad inp r s)) = s_log s)
  \/ (ss_trip_planned (s_session (snd (trigger ad inp r s))) = Some true /\
      exists l, s_log (snd (trigger ad inp r s)) = (s_log s ++ l)%list /\ Q l).
Proof.
  intros HQ Hp. press_button; [|now left|now left].
  destruct (c || planned_truthy (s_session s1)); simpl; [|now left].
  destruct (String.eqb (in_source inp) "" || String.eqb (in_destination inp) ""); simpl.
  - left. split; [apply keeps_session_emit | apply no_calls_emit].
  - right. unfold plan_trip, bind, get_session, put_session. simpl. rewrite Hp. simpl.
    set (s2 := with_session _ _).
    pose proof (plan_block_planned inp r s2) as Hpl.
    destruct (HQ r s2) as (l & El & Ll). split; [exact Hpl | exists l; now rewrite El].
Qed.
End WithContract.

(** ** The number of calls of one planning pass *)

Section Budget.
Context (ad : adapters) `{!AdapterContract ad} (p : call -> bool).
Context (n_ai n_route n_weather n_cal : nat).
Hypothesis budget_ai : forall msg, at_most p n_ai (ad_ai ad msg).
Hypothesis budget_route : forall a b, at_most p n_route (ad_route ad a b).
Hypothesis budget_weather : forall c, at_most p n_weather (ad_weather ad c).
Hypothesis budget_cal : forall t a b, at_most p n_cal (ad_calendar ad t a b).

Lemma plan_body_budget inp :
  at_most p (n_ai + n_route + n_weather + n_cal) (plan_body ad inp).
Proof.
  eapply at_most_weaken; [unfold plan_body |].
  - repeat (intros; first
      [ apply budget_ai | apply budget_route | apply budget_weather | apply budget_cal
      | apply at_most_bind
      | solve [count0_auto] ]).
  - lia.
Qed.

Lemma plan_handler_no_calls e : at_most p 0 (plan_handler e).
Proof. unfold plan_handler. count0_auto. Qed.

(** The spinner block makes at most the calls of one pass. *)
Lemma plan_block_budget inp :
  at_most p (n_ai + n_route + n_weather + n_cal)
    (st_spinner spinner_text (try_except (plan_body ad inp) plan_handler)).
Proof.
  apply at_most_spinner. rewrite <- (Nat.add_0_r (n_ai + n_route + n_weather + n_cal)).
  apply (at_most_try p _ 0); [apply plan_body_budget | exact plan_handler_no_calls].
Qed.

(** A run of the block on a session without ["trip_planned"] either
    changes nothing, or sets it and makes at most the calls of one pass. *)
Lemma trigger_unplanned_effect inp r s :
  ss_trip_planned (s_session s) = None ->
  (s_session (snd (trigger ad inp r s)) = s_session s /\ s_log (snd (trigger ad inp r s)) = s_log s)
  \/ (ss_trip_planned (s_session (snd (trigger ad inp r s))) = Some true /\
      exists l, s_log (snd (trigger ad inp r s)) = (s_log s ++ l)%list /\
                (length (List.filter p l) <= n_ai + n_route + n_weather + n_cal)%nat).
Proof.
  intros Hp. apply (trigger_unplanned_log ad); [apply plan_block_budget | exact Hp].
Qed.
End Budget.

(** ** The order of the calls of one planning pass *)

Section Order.
Context (ad : adapters) (pa pr pw pc : call -> bool).
Hypothesis order_ai : forall msg, calls_in [pa] (ad_ai ad msg).
Hypothesis order_route : forall a b, calls_in [pr] (ad_route ad a b).
Hypothesis order_weather : forall c, calls_in [pw] (ad_weather ad c).
Hypothesis order_cal : forall t a b, calls_in [pc] (ad_calendar ad t a b).

(** One pass calls the AI service, then the router, then the weather
    service, then the calendar (app.py:222-246), each step's calls
    before the next step's. *)
Lemma plan_body_order inp : calls_in [pa; pr; pw; pc] (plan_body ad inp).
Proof.
  unfold plan_body.
  repeat (intros; first
    [ solve [apply calls_in_no_calls; eauto with pycount pyfx]
    | apply (calls_in_bind [] _); [solve [apply calls_in_no_calls; eauto with pycount pyfx] |]
    | apply (calls_in_bind [_] _); [solve [eauto] |]
    | match goal with |- context [match ?x with _ => _ end] => destruct x end ]).
Qed.

Lemma plan_block_order inp :
  calls_in [pa; pr; pw; pc] (st_spinner spinner_text (try_except (plan_body ad inp) plan_handler)).
Proof.
  unfold st_spinner. apply (calls_in_bind [] _); [apply calls_in_no_calls, no_calls_emit|].
  intros _. apply calls_in_finally; [|apply no_calls_update].
  apply (calls_in_mono ([pa; pr; pw; pc] ++ [])); [now rewrite app_nil_r|].
  apply calls_in_try; [apply plan_body_order | intros; apply calls_in_no_calls].
  unfold plan_handler. fx_auto.
Qed.
End Order.

(** ** Witnesses: the spec's end-to-end scenario with the adapters of app.py *)

Definition demo_inputs : inputs :=
  mk_inputs "Delhi" "Paris" [mk_date 2025 6 1; mk_date 2025 6 10] 2000 ["Sightseeing"] "Any" [] []
    true.

Lemma trigger_completes_plan_witness :
  exists data s',
    trigger app_adapters demo_inputs demo_runtime Routing.fresh_state = (Done tt, s') /\
    s_stop s' = None /\ s_session s' = mk_session (Some true) (Some data) /\
    dom data = list_to_set plan_keys /\
    data !! "destination_slug" = Some (JStr (destination_slug "Paris")).
Proof.
  apply (trigger_completes_plan app_adapters demo_inputs demo_runtime Routing.fresh_state
           (mk_date 2025 6 1) (mk_date 2025 6 10) []); first [reflexivity | discriminate].
Defined.

Lemma trigger_missing_city_witness :
  trigger app_adapters (mk_inputs "" "Paris" [] 0 [] "Any" [] [] true) demo_runtime Routing.fresh_state
  = (Done tt, mk_state empty_session []
       [button_ui; UError "Please enter both source and destination cities."] None).
Proof.
  apply (trigger_missing_city app_adapters (mk_inputs "" "Paris" [] 0 [] "Any" [] [] true));
    [left; reflexivity | reflexivity].
Defined.

Definition demo_message : string :=
  match build_message demo_inputs with Ok m => m | Exc _ => "" end.

Lemma build_message_mentions_witness :
  exists d0 d1 rest, in_travel_dates demo_inputs = d0 :: d1 :: rest /\
    infix (in_source demo_inputs) demo_message /\ infix (in_destination demo_inputs) demo_message /\
    infix (date_isoformat d0) demo_message /\ infix (date_isoformat d1) demo_message /\
    infix (str_int (in_budget demo_inputs)) demo_message /\
    (forall x, In x (in_travel_preferences demo_inputs) \/ In x (in_transportation_mode demo_inputs)
               \/ In x (in_dietary_restrictions demo_inputs) -> infix x demo_message).
Proof. apply build_message_mentions. reflexivity. Defined.

(** "New Delhi" is ASCII; its slug has a hyphen where the space was and
    its first letter lowered. *)
Lemma destination_slug_spec_witness :
  ascii_only "New Delhi" = true /\
  String.get 3%nat (destination_slug "New Delhi") = Some "-"%char /\
  String.get 0%nat (destination_slug "New Delhi") = Some "n"%char.
Proof.
  split; [reflexivity|].
  split; [exact (proj2 (destination_slug_spec "New Delhi" eq_refl) 3%nat " "%char eq_refl)
         | exact (proj2 (destination_slug_spec "New Delhi" eq_refl) 0%nat "N"%char eq_refl)].
Defined.
