(* ===== verification/Page.v ===== *)
(** * Page: the page header and the request form (app.py:29-39, 182-206)

    Before the planning block, every run of the script configures the
    page, draws its title and introduction, and draws the form's widgets
    in two rows of two columns.  A widget call returns the value the
    browser holds for it in this run; the model takes these values as
    the run's [inputs] and threads them through [form], so that the
    block and the render read the values the widgets returned.

    Each [st.*] call is one element of the page and one point where
    Streamlit may stop the run ([st_emit], [st_widget]).  The widgets'
    placeholders, defaults and bounds ([min_value], [max_value], [step])
    are attributes the browser enforces; they are not part of the page
    model, and the values of [inputs] are not constrained by them. *)

From Stdlib Require Import String ZArith List Lia.
From stdpp Require Import base list gmap strings.
From S2P Require Import Prelude PyValue PyEffects Orchestrator.
Import ListNotations.

Open Scope string_scope.
Open Scope py_scope.

Module Page.

Definition page_title : string := "AI Travel Planner".
Definition page_icon : string := "✈️".

(** The introduction of app.py:33-39, a triple-quoted string: it starts
    and ends with a line break. *)
Definition intro : string :=
  newline ++ "This AI-powered travel planner helps you create personalized travel itineraries using:" ++ newline
  ++ "- 🗺️ Maps and navigation" ++ newline
  ++ "- 🌤️ Weather forecasts" ++ newline
  ++ "- 🏨 Accommodation booking" ++ newline
  ++ "- 🗕️ Calendar management" ++ newline.

(** app.py:29-39. *)
Definition page_header : M unit :=
  st_emit (UPageConfig page_title page_icon "wide");;
  st_emit (UTitle (page_icon ++ " " ++ page_title));;
  st_emit (UMarkdown intro).

Definition preference_options : list string :=
  ["Adventure"; "Relaxation"; "Sightseeing"; "Cultural Experiences";
   "Beach"; "Mountain"; "Luxury"; "Budget-Friendly"; "Food & Dining";
   "Shopping"; "Nightlife"; "Family-Friendly"].
Definition accommodation_options : list string :=
  ["Any"; "Hotel"; "Hostel"; "Apartment"; "Resort"].
Definition transportation_options : list string := ["Train"; "Bus"; "Flight"; "Rental Car"].
Definition dietary_options : list string :=
  ["None"; "Vegetarian"; "Vegan"; "Gluten-Free"; "Halal"; "Kosher"].

(** app.py:183-206: the widgets in the order the script draws them.
    The click of the button is read later, by [trigger]. *)
Definition form (inp : inputs) : M inputs :=
  st_emit (UColumns 2);;
  source <- st_widget "text_input" "Source" [] (in_source inp);;
  destination <- st_widget "text_input" "Destination" [] (in_destination inp);;
  travel_dates <- st_widget "date_input" "Travel Dates" [] (in_travel_dates inp);;
  budget <- st_widget "number_input" "Budget (in USD)" [] (in_budget inp);;
  travel_preferences <- st_widget "multiselect" "Travel Preferences" preference_options
                          (in_travel_preferences inp);;
  st_emit (USubheader "Additional Preferences");;
  st_emit (UColumns 2);;
  accommodation_type <- st_widget "selectbox" "Preferred Accommodation" accommodation_options
                          (in_accommodation_type inp);;
  transportation_mode <- st_widget "multiselect" "Preferred Transportation" transportation_options
                           (in_transportation_mode inp);;
  dietary_restrictions <- st_widget "multiselect" "Dietary Restrictions" dietary_options
                            (in_dietary_restrictions inp);;
  ret (mk_inputs source destination travel_dates budget travel_preferences accommodation_type
         transportation_mode dietary_restrictions (in_clicked inp)).

(** Everything the script draws before the planning block. *)
Definition page_top (inp : inputs) : M inputs := page_header;; form inp.

(** The elements [page_top] draws. *)
Definition top_page : list ui :=
  [UPageConfig page_title page_icon "wide"; UTitle (page_icon ++ " " ++ page_title);
   UMarkdown intro; UColumns 2;
   UWidget "text_input" "Source" []; UWidget "text_input" "Destination" [];
   UWidget "date_input" "Travel Dates" []; UWidget "number_input" "Budget (in USD)" [];
   UWidget "multiselect" "Travel Preferences" preference_options;
   USubheader "Additional Preferences"; UColumns 2;
   UWidget "selectbox" "Preferred Accommodation" accommodation_options;
   UWidget "multiselect" "Preferred Transportation" transportation_options;
   UWidget "multiselect" "Dietary Restrictions" dietary_options].

(** ** Lemmas *)

Lemma page_top_keeps_session inp : preserves s_session (page_top inp).
Proof. unfold page_top, page_header, form. fx_auto. Qed.

Lemma page_top_no_calls inp : preserves s_log (page_top inp).
Proof. unfold page_top, page_header, form. fx_auto. Qed.

Lemma page_top_no_escape inp : no_escape (page_top inp).
Proof. unfold page_top, page_header, form. fx_auto. Qed.

(** When the run is not stopped before the planning block, the widgets
    return the values of [inp] and the page holds [top_page]. *)
Lemma page_top_run inp r s n :
  s_stop s = None \/ s_stop s = Some (length top_page + n)%nat ->
  page_top inp r s
  = (Done inp, mk_state (s_session s) (s_log s) (s_page s ++ top_page)
                 (option_map (fun _ => n) (s_stop s))).
Proof.
  destruct s as [ss l pg st]; simpl. intros [-> | ->]; destruct inp;
    cbn; now rewrite <- !app_assoc.
Qed.

(** A stop requested earlier halts the run before the block. *)
Lemma page_top_halts inp r s n :
  s_stop s = Some n -> (n < length top_page)%nat -> fst (page_top inp r s) = Halted.
Proof.
  destruct s as [ss l pg st]; simpl. intros -> Hn.
  do 14 (destruct n as [|n]; [reflexivity|]). simpl in Hn. lia.
Qed.

End Page.
