(* ===== verification/Presenter.v ===== *)
(** * Presenter: the render block of app.py (lines 254-272) and
    [show_route_on_map] (lines 114-126)

    Every run renders whatever [trip_data] holds: the narrative, three
    booking links built from the stored slug, the weather line, the
    calendar link and, when a distance is stored ([render_route]), the
    distance rounded to two decimals and a folium map.  Each [data[k]] is a subscript that raises [KeyError]
    when the key is missing; nothing catches it, so the run stops
    there. *)

From Stdlib Require Import String Ascii ZArith QArith List Lia.
From stdpp Require Import base list gmap strings.
From S2P Require Import Prelude PyValue PyEffects Routing.
Import ListNotations.

Open Scope string_scope.
Open Scope Z_scope.
Open Scope py_scope.

Module Presenter.

Definition route_map_title : string := "**🗺️ Route Map:**".
Definition success_text : string := "✅ Your travel plan is ready!".
Definition links_title : string := "**🔗 Helpful Booking Links:**".
Definition airbnb_label : string := "[🏨 Airbnb stays in ".
Definition makemytrip_label : string := "[🛏️ MakeMyTrip deals in ".
Definition rentalcars_label : string := "[🚗 RentalCars in ".

(** [data[k]] on the [trip_data] dictionary. *)
Definition td_getitem (data : gmap string json) (k : string) : res json :=
  match data !! k with Some v => Ok v | None => raise_ KeyError (quote k) end.

(** [data.get(k)]. *)
Definition td_get (data : gmap string json) (k : string) : json :=
  match data !! k with Some v => v | None => JNone end.

Definition is_none (v : json) : bool := match v with JNone => true | _ => false end.

(** [show_route_on_map(start_coords, end_coords, route_coords)]
    (app.py:114-126).  Coordinates arrive as [[lon, lat]]; the map's
    centre and markers are built as [[lat, lon]]. *)
Definition show_route_on_map (start_coords end_coords route_coords : json) : M unit :=
  try_except
    (s1 <- lift (getitem start_coords (KI 1));;
     e1 <- lift (getitem end_coords (KI 1));;
     lat_sum <- lift (py_add s1 e1);;
     lat <- lift (py_truediv lat_sum (JInt 2));;
     s0 <- lift (getitem start_coords (KI 0));;
     e0 <- lift (getitem end_coords (KI 0));;
     lon_sum <- lift (py_add s0 e0);;
     lon <- lift (py_truediv lon_sum (JInt 2));;
     ms1 <- lift (getitem start_coords (KI 1));;
     ms0 <- lift (getitem start_coords (KI 0));;
     me1 <- lift (getitem end_coords (KI 1));;
     me0 <- lift (getitem end_coords (KI 0));;
     let m := mk_fmap (JList [lat; lon]) 6
                [mk_marker (JList [ms1; ms0]) "Start" "green";
                 mk_marker (JList [me1; me0]) "End" "red"]
                [mk_polyline route_coords "blue" 5] in
     st_emit (UMarkdown route_map_title);;
     st_emit (UFolium m 725))
    (fun e => st_emit (UError ("Map error: " ++ exn_str e))).

(** app.py:267-269: the distance and the map, when a route was found. *)
Definition render_route (data : gmap string json) : M unit :=
  if is_none (td_get data "distance_km") then ret tt
  else
    dist <- lift (td_getitem data "distance_km");;
    rounded <- lift (py_round dist 2);;
    st_emit (UMarkdown ("**Distance:** " ++ py_str rounded ++ " km"));;
    cs <- lift (td_getitem data "coord_start");;
    ce <- lift (td_getitem data "coord_end");;
    rc <- lift (td_getitem data "route_coords");;
    show_route_on_map cs ce rc.

(** The render block (app.py:254-272); [destination] is the current
    value of the text input, not the one the plan was made for. *)
Definition render (destination : string) : M unit :=
  ss <- get_session;;
  match ss_trip_data ss with
  | None => ret tt
  | Some data =>
      if negb (bool_decide (is_Some (data !! "response"))) then ret tt
      else
        st_emit (USuccess success_text);;
        response <- lift (td_getitem data "response");;
        st_emit (UMarkdown (py_str response));;
        st_emit (UMarkdown links_title);;
        slug1 <- lift (td_getitem data "destination_slug");;
        st_emit (UMarkdown (airbnb_label ++ destination ++ "](https://www.airbnb.com/s/"
                            ++ py_str slug1 ++ ")"));;
        slug2 <- lift (td_getitem data "destination_slug");;
        st_emit (UMarkdown (makemytrip_label ++ destination ++ "](https://www.makemytrip.com/hotels/"
                            ++ py_str slug2 ++ "-hotels.html)"));;
        slug3 <- lift (td_getitem data "destination_slug");;
        st_emit (UMarkdown (rentalcars_label ++ destination
                            ++ "](https://www.rentalcars.com/SearchResults.do?dropCity="
                            ++ py_str slug3 ++ ")"));;
        forecast <- lift (td_getitem data "forecast");;
        st_emit (UMarkdown ("**Weather in " ++ destination ++ ":** " ++ py_str forecast));;
        link <- lift (td_getitem data "calendar_link");;
        st_emit (UMarkdown ("**Calendar Event:** [View Event](" ++ py_str link ++ ")"));;
        render_route data
  end.

(** ** What a render shows *)

(** The elements shown for a stored plan, before the route: the success
    banner, the narrative, the three booking links (labelled with the
    current [destination], pointing at the stored [slug]), the weather
    line and the calendar link. *)
Definition plan_items (destination slug : string) (response forecast link : json) : list ui :=
  [USuccess success_text; UMarkdown (py_str response); UMarkdown links_title;
   UMarkdown (airbnb_label ++ destination ++ "](https://www.airbnb.com/s/" ++ slug ++ ")");
   UMarkdown (makemytrip_label ++ destination ++ "](https://www.makemytrip.com/hotels/"
              ++ slug ++ "-hotels.html)");
   UMarkdown (rentalcars_label ++ destination
              ++ "](https://www.rentalcars.com/SearchResults.do?dropCity=" ++ slug ++ ")");
   UMarkdown ("**Weather in " ++ destination ++ ":** " ++ py_str forecast);
   UMarkdown ("**Calendar Event:** [View Event](" ++ py_str link ++ ")")].

Definition page_more (s : state) (us : list ui) : state :=
  mk_state (s_session s) (s_log s) (s_page s ++ us) (s_stop s).

(** ** Theorems *)

(** A stored plan: the render shows the plan's elements, then the route
    block. *)
Lemma render_plan_prefix destination data response slug forecast link r s :
  s_stop s = None -> ss_trip_data (s_session s) = Some data ->
  data !! "response" = Some response -> data !! "destination_slug" = Some (JStr slug) ->
  data !! "forecast" = Some forecast -> data !! "calendar_link" = Some link ->
  render destination r s
  = render_route data r (page_more s (plan_items destination slug response forecast link)).
Proof.
  intros Hstop Hd Hr Hs Hf Hl. destruct s as [ss lg pg stp]; simpl in *; subst stp.
  unfold render, get_session, bind at 1. simpl. rewrite Hd, Hr. simpl.
  unfold td_getitem, bind. rewrite Hr, Hs, Hf, Hl. simpl.
  unfold page_more. simpl. now rewrite <- !app_assoc.
Qed.

(** C12: a render of a stored plan without a route shows exactly the
    plan's elements.  The link labels and the weather line use the
    destination currently typed in the form, while the links use the
    slug stored when the plan was made: after the user edits the
    destination, the page names one city and links to another. *)
Theorem render_plan_without_route destination data response slug forecast link r s :
  s_stop s = None -> ss_trip_data (s_session s) = Some data ->
  data !! "response" = Some response -> data !! "destination_slug" = Some (JStr slug) ->
  data !! "forecast" = Some forecast -> data !! "calendar_link" = Some link ->
  is_none (td_get data "distance_km") = true ->
  render destination r s = (Done tt, page_more s (plan_items destination slug response forecast link)).
Proof.
  intros Hstop Hd Hr Hs Hf Hl Hn. rewrite (render_plan_prefix _ data response slug forecast link) by assumption.
  unfold render_route. now rewrite Hn.
Qed.

(** With a stored distance, the render continues after the plan's
    elements with the rounded distance and the map. *)
Lemma render_plan_with_route destination data response slug forecast link q cs ce rc r s :
  s_stop s = None -> ss_trip_data (s_session s) = Some data ->
  data !! "response" = Some response -> data !! "destination_slug" = Some (JStr slug) ->
  data !! "forecast" = Some forecast -> data !! "calendar_link" = Some link ->
  data !! "distance_km" = Some (JFloat q) -> data !! "coord_start" = Some cs ->
  data !! "coord_end" = Some ce -> data !! "route_coords" = Some rc ->
  render destination r s
  = show_route_on_map cs ce rc r
      (page_more s (plan_items destination slug response forecast link
                    ++ [UMarkdown ("**Distance:** " ++ py_str (JFloat (Qred
                          (inject_Z (round_half_even (q * inject_Z 100)) / inject_Z 100)))
                          ++ " km")])).
Proof.
  intros Hstop Hd Hr Hs Hf Hl Hq Hcs Hce Hrc.
  rewrite (render_plan_prefix _ data response slug forecast link) by assumption.
  destruct s as [ss lg pg stp]; simpl in *; subst stp.
  unfold render_route, td_getitem, td_get, bind. rewrite Hq, Hcs, Hce, Hrc. simpl.
  unfold page_more. simpl. now rewrite <- !app_assoc.
Qed.

(** C13: the map puts both markers at (lat, lon): from geocoded points
    [[lon, lat]] the start marker is at [[lat1, lon1]], the end marker at
    [[lat2, lon2]], the centre at the midpoint, and the polyline is the
    stored one (already in (lat, lon) order). *)
Theorem show_route_on_map_markers lon1 lat1 lon2 lat2 route r s :
  s_stop s = None ->
  show_route_on_map (JList [JFloat lon1; JFloat lat1]) (JList [JFloat lon2; JFloat lat2]) route r s
  = (Done tt, page_more s
       [UMarkdown route_map_title;
        UFolium (mk_fmap (JList [JFloat (Qred (Qred (lat1 + lat2) / inject_Z 2));
                                 JFloat (Qred (Qred (lon1 + lon2) / inject_Z 2))]) 6
                   [mk_marker (JList [JFloat lat1; JFloat lon1]) "Start" "green";
                    mk_marker (JList [JFloat lat2; JFloat lon2]) "End" "red"]
                   [mk_polyline route "blue" 5]) 725]).
Proof.
  intros Hstop. destruct s as [ss lg pg stp]; simpl in *; subst stp.
  unfold show_route_on_map, try_except, bind. simpl.
  unfold page_more. simpl. now rewrite <- !app_assoc.
Qed.

(** The map block never raises: it draws the map or its error. *)
Lemma show_route_on_map_done cs ce rc r s :
  s_stop s = None -> exists us, show_route_on_map cs ce rc r s = (Done tt, page_more s us).
Proof.
  intros Hstop. destruct s as [ss lg pg stp]; simpl in *; subst stp.
  unfold show_route_on_map, try_except, bind, lift, raise, ret.
  repeat (match goal with |- context [match ?x with Ok _ => _ | Exc _ => _ end] => destruct x end;
          simpl);
    eexists; unfold page_more; simpl; now rewrite <- ?app_assoc.
Qed.

(** C21: the distance line and the map (app.py:267-269).  With a
    stored float distance [q] and the two stored points of
    [get_distance_km], the render shows, after the plan's elements,
    ["**Distance:** d km"] where [d = z/100] for the integer [z] nearest
    to [100 q] (a tie going to the even one: Python's [round(q, 2)] on
    the exact value), then the route map's title and the map centred on
    the midpoint with its two markers in (lat, lon) order and the stored
    polyline; it returns normally. *)
Theorem render_distance_rounded destination data response slug forecast link q
    lon1 lat1 lon2 lat2 rc r s :
  s_stop s = None -> ss_trip_data (s_session s) = Some data ->
  data !! "response" = Some response -> data !! "destination_slug" = Some (JStr slug) ->
  data !! "forecast" = Some forecast -> data !! "calendar_link" = Some link ->
  data !! "distance_km" = Some (JFloat q) ->
  data !! "coord_start" = Some (JList [JFloat lon1; JFloat lat1]) ->
  data !! "coord_end" = Some (JList [JFloat lon2; JFloat lat2]) ->
  data !! "route_coords" = Some rc ->
  exists z : Z,
    (q * inject_Z 100 - (1 # 2) <= inject_Z z <= q * inject_Z 100 + (1 # 2))%Q /\
    ((q * inject_Z 100 - inject_Z z == 1 # 2 \/ inject_Z z - q * inject_Z 100 == 1 # 2)%Q ->
     Z.even z = true) /\
    render destination r s
    = (Done tt, page_more s (plan_items destination slug response forecast link ++
         [UMarkdown ("**Distance:** " ++ py_str (JFloat (Qred (inject_Z z / inject_Z 100))) ++ " km");
          UMarkdown route_map_title;
          UFolium (mk_fmap (JList [JFloat (Qred (Qred (lat1 + lat2) / inject_Z 2));
                                   JFloat (Qred (Qred (lon1 + lon2) / inject_Z 2))]) 6
                     [mk_marker (JList [JFloat lat1; JFloat lon1]) "Start" "green";
                      mk_marker (JList [JFloat lat2; JFloat lon2]) "End" "red"]
                     [mk_polyline rc "blue" 5]) 725])).
Proof.
  intros Hstop Hd Hr Hs Hf Hl Hq Hcs Hce Hrc.
  exists (round_half_even (q * inject_Z 100)).
  split; [apply round_half_even_bound | split; [apply round_half_even_tie |]].
  rewrite (render_plan_with_route destination data response slug forecast link q
             (JList [JFloat lon1; JFloat lat1]) (JList [JFloat lon2; JFloat lat2]) rc r s)
    by assumption.
  destruct s as [ss lg pg stp]; simpl in *; subst stp.
  unfold show_route_on_map, try_except, bind. simpl.
  unfold page_more. simpl. now rewrite <- !app_assoc.
Qed.

(** A [trip_data] holding the narrative and the slug but no forecast (a
    planning pass cut short) makes the render raise
    [KeyError('forecast')], after the banner, the narrative and the three
    links. *)
Lemma render_missing_forecast destination data response slug r s :
  s_stop s = None -> ss_trip_data (s_session s) = Some data ->
  data !! "response" = Some response -> data !! "destination_slug" = Some slug ->
  data !! "forecast" = None ->
  fst (render destination r s) = Raised (mk_exn KeyError (quote "forecast")).
Proof.
  intros Hstop Hd Hr Hs Hf. destruct s as [ss lg pg stp]; simpl in *; subst stp.
  unfold render, get_session, bind. simpl. rewrite Hd, Hr. simpl.
  unfold td_getitem. rewrite Hr, Hs, Hf. reflexivity.
Qed.

(** A render makes no outbound call and leaves the session alone. *)
Lemma render_no_calls destination : no_calls (render destination).
Proof. unfold render, render_route, show_route_on_map. fx_auto. Qed.

Lemma render_keeps_session destination : keeps_session (render destination).
Proof. unfold render, render_route, show_route_on_map. fx_auto. Qed.

(** ** Witnesses *)

(** A plan made for Paris, rendered after the user typed "Lyon". *)
Definition paris_data : gmap string json :=
  <["calendar_link" := JStr "https://www.google.com/calendar/event?eid=demo"]>
  (<["forecast" := JStr "Sunny, 25.3°C"]>
  (<["distance_km" := JNone]>
  (<["destination_slug" := JStr "paris"]>
  (<["response" := JStr "Day 1: the Louvre."]> ∅)))).

Definition demo_state (data : gmap string json) : state :=
  mk_state (mk_session (Some true) (Some data)) [] [] None.

Definition no_services : runtime :=
  mk_runtime [] (mk_services (fun _ _ _ => Ok JNone) (fun _ => Ok (mk_resp 404 "" None))
                   (fun _ _ _ => Ok JNone) no_tmp no_pdf).

Lemma render_plan_without_route_witness :
  render "Lyon" no_services (demo_state paris_data)
  = (Done tt, page_more (demo_state paris_data)
       (plan_items "Lyon" "paris" (JStr "Day 1: the Louvre.") (JStr "Sunny, 25.3°C")
          (JStr "https://www.google.com/calendar/event?eid=demo"))).
Proof. apply (render_plan_without_route _ paris_data); reflexivity. Defined.

Lemma show_route_on_map_markers_witness :
  show_route_on_map (JList [JFloat (772090 # 10000); JFloat (286139 # 10000)])
    (JList [JFloat (23522 # 10000); JFloat (488566 # 10000)])
    (JList [JList [JFloat (286139 # 10000); JFloat (772090 # 10000)]])
    no_services (demo_state ∅)
  = (Done tt, page_more (demo_state ∅)
       [UMarkdown route_map_title;
        UFolium (mk_fmap (JList [JFloat (Qred (Qred ((286139 # 10000) + (488566 # 10000)) / inject_Z 2));
                                 JFloat (Qred (Qred ((772090 # 10000) + (23522 # 10000)) / inject_Z 2))]) 6
                   [mk_marker (JList [JFloat (286139 # 10000); JFloat (772090 # 10000)]) "Start" "green";
                    mk_marker (JList [JFloat (488566 # 10000); JFloat (23522 # 10000)]) "End" "red"]
                   [mk_polyline (JList [JList [JFloat (286139 # 10000); JFloat (772090 # 10000)]]) "blue" 5])
          725]).
Proof. apply show_route_on_map_markers. reflexivity. Defined.

(** The plan for Paris with its route: 1234.5 km from Delhi. *)
Definition paris_route_data : gmap string json :=
  <["route_coords" := JList []]> (<["coord_end" := Routing.paris]>
  (<["coord_start" := Routing.delhi]> (<["distance_km" := JFloat (123456565 # 100000)]> paris_data))).

(** 1234.565 km: [100 q] lies half-way between two integers and the
    line shows the even one, 1234.56. *)
Lemma render_distance_rounded_witness :
  exists z : Z,
    ((123456565 # 100000) * inject_Z 100 - (1 # 2) <= inject_Z z
       <= (123456565 # 100000) * inject_Z 100 + (1 # 2))%Q /\
    (((123456565 # 100000) * inject_Z 100 - inject_Z z == 1 # 2
      \/ inject_Z z - (123456565 # 100000) * inject_Z 100 == 1 # 2)%Q -> Z.even z = true) /\
    render "Paris" no_services (demo_state paris_route_data)
    = (Done tt, page_more (demo_state paris_route_data)
         (plan_items "Paris" "paris" (JStr "Day 1: the Louvre.") (JStr "Sunny, 25.3°C")
            (JStr "https://www.google.com/calendar/event?eid=demo") ++
          [UMarkdown ("**Distance:** " ++ py_str (JFloat (Qred (inject_Z z / inject_Z 100))) ++ " km");
           UMarkdown route_map_title;
           UFolium (mk_fmap (JList [JFloat (Qred (Qred ((286139 # 10000) + (488566 # 10000)) / inject_Z 2));
                                    JFloat (Qred (Qred ((772090 # 10000) + (23522 # 10000)) / inject_Z 2))]) 6
                      [mk_marker (JList [JFloat (286139 # 10000); JFloat (772090 # 10000)]) "Start" "green";
                       mk_marker (JList [JFloat (488566 # 10000); JFloat (23522 # 10000)]) "End" "red"]
                      [mk_polyline (JList []) "blue" 5]) 725])).
Proof.
  apply (render_distance_rounded "Paris" paris_route_data _ "paris" _ _ (123456565 # 100000)
           (772090 # 10000) (286139 # 10000) (23522 # 10000) (488566 # 10000) (JList []));
    reflexivity.
Defined.

End Presenter.
