(* ===== verification/Pdf.v ===== *)
(** * Pdf: the PDF export [generate_itinerary_pdf] (app.py:173-180)

    The function creates a named temporary file with [delete=False] and
    suffix [.pdf], has pdfkit write the HTML into it, and returns the
    file's name; any [Exception] draws an error and gives [None].  The
    [with] block only closes the file on exit (closing is not an effect
    of the model), so a file created before a failure stays on disk.
    The script never calls the function: [Session.session_call_order]
    shows that every call a session makes goes to one of the four
    services, so no run creates a file. *)

From Stdlib Require Import String Ascii ZArith QArith List Lia.
From stdpp Require Import base list gmap strings.
From S2P Require Import Prelude PyValue PyEffects Routing.
Import ListNotations.

Open Scope string_scope.
Open Scope py_scope.

Module Pdf.

Definition pdf_failed : string := "PDF generation failed: ".

(** app.py:173-180. *)
Definition generate_itinerary_pdf (html_content : string) : M (option string) :=
  try_except
    (tmp_name <- named_temporary_file ".pdf";;
     pdfkit_from_string html_content tmp_name;;
     ret (Some tmp_name))
    (fun e => st_emit (UError (Routing.cross_mark ++ pdf_failed ++ exn_str e));; ret (@None string)).

(** ** Lemmas *)

Lemma generate_itinerary_pdf_keeps_session html : keeps_session (generate_itinerary_pdf html).
Proof. unfold generate_itinerary_pdf, named_temporary_file, pdfkit_from_string. fx_auto. Qed.

Lemma generate_itinerary_pdf_no_escape html : no_escape (generate_itinerary_pdf html).
Proof. unfold generate_itinerary_pdf. apply no_escape_try. intros. fx_auto. Qed.

Lemma pdf_handler_run e r s :
  s_stop s = None ->
  (st_emit (UError (Routing.cross_mark ++ pdf_failed ++ exn_str e));; ret (@None string)) r s
  = (Done (@None string), page_add s (UError (Routing.cross_mark ++ pdf_failed ++ exn_str e))).
Proof. intros H. rewrite bind_cases, st_emit_run by (rewrite H; discriminate). reflexivity. Qed.

(** Evaluate the [try] body from the two file-system answers. *)
Local Ltac pdf_body E1 E2 :=
  unfold named_temporary_file, pdfkit_from_string, bind, log_call; simpl;
  rewrite ?E1; simpl; rewrite ?E2; reflexivity.

(** ** Theorems *)

(** C27: the PDF export on every branch.  On an uninterrupted run
    [generate_itinerary_pdf(html)] first creates a [.pdf] temporary
    file; when pdfkit then writes it, the function returns its name;
    when either step raises, it draws [❌ PDF generation failed: <e>]
    and returns [None] -- and if the file was created, it has been
    created for good: the log keeps the creation and nothing removes
    it. *)
Theorem generate_itinerary_pdf_spec html r s :
  s_stop s = None ->
  generate_itinerary_pdf html r s =
  match svc_tmp (rt_svc r) ".pdf" with
  | Ok name =>
      match svc_pdf (rt_svc r) html name with
      | Ok _ => (Done (Some name), Routing.log_more s [CTempFile ".pdf"; CPdf html name])
      | Exc e =>
          (Done None, page_add (Routing.log_more s [CTempFile ".pdf"; CPdf html name])
                        (UError (Routing.cross_mark ++ pdf_failed ++ exn_str e)))
      end
  | Exc e =>
      (Done None, page_add (Routing.log_more s [CTempFile ".pdf"])
                    (UError (Routing.cross_mark ++ pdf_failed ++ exn_str e)))
  end.
Proof.
  intros H. unfold generate_itinerary_pdf.
  destruct (svc_tmp (rt_svc r) ".pdf") as [name|e] eqn:E1;
    [destruct (svc_pdf (rt_svc r) html name) as [[]|e] eqn:E2|];
    [erewrite try_Done by pdf_body E1 E2
    | erewrite try_Raised by pdf_body E1 E2; rewrite pdf_handler_run by exact H ..];
    unfold Routing.log_more; simpl; now rewrite <- ?app_assoc.
Qed.

(** ** Witnesses *)

Definition pdf_runtime (tmp : string -> res string) (pdf : string -> string -> res unit)
  : runtime :=
  mk_runtime [] (mk_services (fun _ _ _ => Ok JNone) (fun _ => Ok (mk_resp 404 "" None))
                   (fun _ _ _ => Ok JNone) tmp pdf).

Definition pdf_state : state := mk_state empty_session [] [] None.

Lemma generate_itinerary_pdf_spec_witness :
  generate_itinerary_pdf "<h1>Paris</h1>"
    (pdf_runtime (fun _ => Ok "/tmp/tmpk2x9.pdf") no_pdf) pdf_state
  = (Done None,
     mk_state empty_session [CTempFile ".pdf"; CPdf "<h1>Paris</h1>" "/tmp/tmpk2x9.pdf"]
       [UError (Routing.cross_mark ++ pdf_failed ++ "No wkhtmltopdf executable found")] None).
Proof. rewrite generate_itinerary_pdf_spec by reflexivity. reflexivity. Defined.

End Pdf.
