(* ===== verification/Session.v ===== *)
(** * Session: whole runs of the script and sequences of runs

    A run builds the AI client (app.py:20-27), draws the page header and
    the form (app.py:29-39, 182-206), then executes the planning block,
    the render block and the footer (app.py:209-280) on the session left
    by the previous run.  Between
    runs only [st.session_state] survives; the log of outbound calls is
    kept across runs so that the number of calls per session can be
    counted.  [step] relates the world before and after one run, for any
    runtime, inputs and interruption point; [reachable] is what a
    session can go through from the empty session state.

    The theorems: a session calls the AI service and the calendar at
    most once however many runs it sees; a planned world is a fixed
    point of every run; a click with a one-date tuple leaves the session
    planned and empty for good; a run cut short inside the planning
    block leaves a partial [trip_data] on which every later run raises
    [KeyError]; a valid uninterrupted run implements the spec's
    [getOrCreate] on the abstract cache of [TripPlan]s; every reachable
    session is empty or planned with its data; a session's calls go to
    the AI service, then OpenRouteService, then AccuWeather, then the
    calendar, in that order; the first valid click is served in the
    same run; and without an AI key or endpoint every run
    fails before drawing anything. *)

From Stdlib Require Import String Ascii ZArith QArith List Lia Relations.
From stdpp Require Import base list gmap strings.
From S2P Require Import Prelude PyValue PyEffects Adapters Routing Services Orchestrator Page Presenter.
Import ListNotations.

Open Scope string_scope.
Open Scope py_scope.

(** ** One run *)

Definition footer_html : string :=
  newline ++ "<div style='text-align: center'>" ++ newline
  ++ "    <p>Powered by AI Travel Planning Agents</p>" ++ newline
  ++ "    <p>Your personal travel assistant for creating memorable experiences</p>" ++ newline
  ++ "</div>" ++ newline.

(** app.py:274-280. *)
Definition footer : M unit :=
  st_emit (UMarkdown "---");;
  st_emit (UMarkdown footer_html).

(** A run of app.py from line 29 on: the widgets' values feed the
    block and the render (app.py:29-280). *)
Definition run_body (ad : adapters) (inp : inputs) : M unit :=
  v <- Page.page_top inp;;
  trigger ad v;;
  Presenter.render (in_destination v);;
  footer.

(** A whole run of app.py: the module-level client first
    (app.py:20-27). *)
Definition run_script (ad : adapters) (inp : inputs) : M unit :=
  Client.setup;;
  run_body ad inp.

(** What survives a run: the session, and the calls made so far. *)
Record world : Type := mk_world { w_session : session; w_log : list call }.

Definition initial_world : world := mk_world empty_session [].

(** A run starts on a blank page. *)
Definition start (w : world) (stop : option nat) : state :=
  mk_state (w_session w) (w_log w) [] stop.

Definition run (ad : adapters) (r : runtime) (inp : inputs) (stop : option nat) (w : world)
  : outcome unit * state :=
  run_script ad inp r (start w stop).

Definition world_after (x : outcome unit * state) : world :=
  mk_world (s_session (snd x)) (s_log (snd x)).

Inductive step (ad : adapters) : world -> world -> Prop :=
| step_run r inp stop w : step ad w (world_after (run ad r inp stop w)).

Definition reachable (ad : adapters) (w : world) : Prop :=
  clos_refl_trans_1n world (step ad) initial_world w.

(** ** Lemmas *)

Lemma footer_keeps_session : keeps_session footer.
Proof. unfold footer. fx_auto. Qed.

Lemma footer_no_calls : no_calls footer.
Proof. unfold footer. fx_auto. Qed.

Lemma footer_run r s :
  s_stop s = None ->
  footer r s = (Done tt, page_add (page_add s (UMarkdown "---")) (UMarkdown footer_html)).
Proof.
  intros H. unfold footer. rewrite (bind_Done _ _ _ _ _ _ (st_emit_run _ r s ltac:(now rewrite H))).
  apply st_emit_run. simpl. now rewrite H.
Qed.

(** A run with a configured client is its body; otherwise it raises at
    once, drawing nothing. *)
Lemma run_setup ad r inp stop w :
  run ad r inp stop w
  = if Client.configured (rt_env r) then run_body ad inp r (start w stop)
    else (fst (Client.setup r (start w stop)), start w stop).
Proof.
  unfold run, run_script. rewrite bind_cases, setup_result.
  now destruct (Client.configured (rt_env r)).
Qed.

(** What a run leaves is what its planning block left: the client, the
    page top, the render and the footer neither call out nor touch the
    session. *)
Lemma run_world ad r inp stop w :
  world_after (run ad r inp stop w)
  = if Client.configured (rt_env r) then
      match Page.page_top inp r (start w stop) with
      | (Done v, s1) => mk_world (s_session (snd (trigger ad v r s1))) (s_log (snd (trigger ad v r s1)))
      | _ => w
      end
    else w.
Proof.
  rewrite run_setup. destruct (Client.configured (rt_env r)); [|now destruct w].
  unfold world_after, run_body. rewrite bind_cases.
  pose proof (Page.page_top_keeps_session inp r (start w stop)) as Ht.
  pose proof (Page.page_top_no_calls inp r (start w stop)) as Hl.
  destruct (Page.page_top inp r (start w stop)) as [[v|e|] s0];
    [| destruct w; simpl in *; congruence ..].
  unfold bind. destruct (trigger ad v r s0) as [o s1]. simpl.
  destruct o as [[]| e |]; simpl; [|reflexivity|reflexivity].
  pose proof (Presenter.render_keeps_session (in_destination v) r s1) as Hs.
  pose proof (Presenter.render_no_calls (in_destination v) r s1) as Hl'.
  destruct (Presenter.render (in_destination v) r s1) as [o2 s2]. simpl in *.
  destruct o2 as [[]| e |]; simpl; [|congruence|congruence].
  rewrite (footer_keeps_session r s2), (footer_no_calls r s2). congruence.
Qed.

(** A planned world is left exactly as it is by any run, for a block
    that leaves a planned session alone ([trigger_planned_frame]). *)
Section Fixed.
Context (ad : adapters).
Hypothesis trigger_frame : forall inp r s,
  ss_trip_planned (s_session s) <> None ->
  s_session (snd (trigger ad inp r s)) = s_session s /\ s_log (snd (trigger ad inp r s)) = s_log s.

Lemma run_planned_fixed r inp stop w :
  ss_trip_planned (w_session w) <> None -> world_after (run ad r inp stop w) = w.
Proof.
  intros Hp. rewrite run_world. destruct (Client.configured (rt_env r)); [|reflexivity].
  pose proof (Page.page_top_keeps_session inp r (start w stop)) as Ht.
  pose proof (Page.page_top_no_calls inp r (start w stop)) as Hl.
  destruct (Page.page_top inp r (start w stop)) as [[v|e|] s0]; [|reflexivity ..].
  simpl in Ht, Hl. destruct (trigger_frame v r s0) as [Hs Hl']; [congruence|].
  rewrite Hs, Hl', Ht, Hl. now destruct w.
Qed.

Lemma star_planned_fixed w w' :
  ss_trip_planned (w_session w) <> None ->
  clos_refl_trans_1n world (step ad) w w' -> w' = w.
Proof.
  intros Hp H. revert Hp. induction H as [|w1 w2 w3 Hstep _ IH]; intros Hp; [reflexivity|].
  inversion Hstep as [r inp stop w0 E1 E2]; subst.
  rewrite run_planned_fixed in IH by exact Hp. now apply IH.
Qed.
End Fixed.

(** ** Theorems *)

(** C3: idempotence of the session cache.  Once a session is planned,
    any further sequence of runs, whatever their inputs, clicks, service
    answers or interruptions, makes no outbound call and leaves the
    session exactly as it was. *)
Theorem planned_session_is_fixed ad w w' :
  ss_trip_planned (w_session w) <> None ->
  clos_refl_trans_1n world (step ad) w w' -> w' = w.
Proof. apply (star_planned_fixed ad (trigger_planned_frame ad)). Qed.

(** ** Calls per session *)

(** A property [Q] of the calls one pass of the planning block makes
    holds of a session's whole log: before planning nothing has been
    called, and exactly one pass runs in a session's life. *)
Section SessionLog.
Context (ad : adapters) (Q : list call -> Prop).
Hypothesis trigger_frame : forall inp r s,
  ss_trip_planned (s_session s) <> None ->
  s_session (snd (trigger ad inp r s)) = s_session s /\ s_log (snd (trigger ad inp r s)) = s_log s.
Hypothesis trigger_Q : forall inp r s,
  ss_trip_planned (s_session s) = None ->
  (s_session (snd (trigger ad inp r s)) = s_session s /\ s_log (snd (trigger ad inp r s)) = s_log s)
  \/ (ss_trip_planned (s_session (snd (trigger ad inp r s))) = Some true /\
      exists l, s_log (snd (trigger ad inp r s)) = (s_log s ++ l)%list /\ Q l).

Definition log_inv (w : world) : Prop :=
  (w_session w = empty_session /\ w_log w = [])
  \/ (ss_trip_planned (w_session w) <> None /\ Q (w_log w)).

Lemma log_step w w' : step ad w w' -> log_inv w -> log_inv w'.
Proof.
  intros Hstep Hinv. inversion Hstep as [r inp stop w0 E1 E2]; subst.
  destruct Hinv as [[Hs Hl] | [Hp Hn]]; [|rewrite run_planned_fixed by assumption; now right].
  rewrite run_world. destruct (Client.configured (rt_env r)); [|left; now split].
  pose proof (Page.page_top_keeps_session inp r (start w stop)) as Ht.
  pose proof (Page.page_top_no_calls inp r (start w stop)) as Hl0.
  destruct (Page.page_top inp r (start w stop)) as [[v|e|] s0]; [|left; now split ..].
  simpl in Ht, Hl0.
  assert (Hp : ss_trip_planned (s_session s0) = None) by (rewrite Ht, Hs; reflexivity).
  destruct (trigger_Q v r s0 Hp) as [[E1 E2] | [E1 (l & E2 & L)]].
  - left. rewrite E1, E2, Ht, Hl0. now split.
  - right. simpl. rewrite E1, E2. split; [discriminate|]. rewrite Hl0, Hl. exact L.
Qed.

Lemma reachable_log_inv w : reachable ad w -> log_inv w.
Proof. intros Hr. apply (star_invariant (step ad) log_inv log_step initial_world w Hr). now left. Qed.
End SessionLog.

(** C2: at most once per session.  However many runs a session goes
    through (clicks, re-renders, edits, interrupted runs, any service
    answers), the app calls the AI service at most once and creates at
    most one calendar event. *)
Theorem session_calls_at_most_once w :
  reachable app_adapters w ->
  (length (List.filter is_ai_call (w_log w)) <= 1 /\
   length (List.filter is_cal_call (w_log w)) <= 1)%nat.
Proof.
  intros Hr.
  destruct app_adapters_no_ai_calls as (Ar & Aw & Ac).
  destruct app_adapters_no_cal_calls as (Ca & Cr & Cw).
  split.
  - destruct (reachable_log_inv app_adapters (fun l => length (List.filter is_ai_call l) <= 1)%nat
                (trigger_planned_frame app_adapters)
                (fun inp r s => trigger_unplanned_log app_adapters _ inp r s
                   (plan_block_budget app_adapters is_ai_call 1 0 0 0 get_ai_response_ai_calls Ar Aw Ac inp))
                w Hr) as [[_ ->] | [_ H]]; simpl; lia.
  - destruct (reachable_log_inv app_adapters (fun l => length (List.filter is_cal_call l) <= 1)%nat
                (trigger_planned_frame app_adapters)
                (fun inp r s => trigger_unplanned_log app_adapters _ inp r s
                   (plan_block_budget app_adapters is_cal_call 0 0 0 1 Ca Cr Cw add_event_cal_calls inp))
                w Hr) as [[_ ->] | [_ H]]; simpl; lia.
Qed.

(** ** The order of a session's calls *)

(** The four services in the order app.py:222-246 calls them. *)
Definition call_order : list (call -> bool) :=
  [is_ai_call; is_ors_call; is_weather_call; is_cal_call].

(** C26: the order of a session's calls.  In every session a sequence
    of runs can reach, the log of outbound calls is the AI call(s), then
    OpenRouteService calls, then AccuWeather calls, then the calendar
    insertion: no service is called after a later one in the script,
    and no call goes anywhere else. *)
Theorem session_call_order w :
  reachable app_adapters w -> segmented call_order (w_log w).
Proof.
  intros Hr.
  destruct (reachable_log_inv app_adapters (segmented call_order)
              (trigger_planned_frame app_adapters)
              (fun inp r s => trigger_unplanned_log app_adapters _ inp r s
                 (plan_block_order app_adapters _ _ _ _ get_ai_response_only get_distance_km_only
                    get_weather_only add_event_only inp)) w Hr) as [[_ ->] | [_ H]];
    [apply segmented_nil | exact H].
Qed.

(** ** The spec's session cache *)

(** The spec's [TripPlan] (section 3): narrative, route (the 4-tuple of
    [get_distance_km]), weather, calendar outcome and destination slug. *)
Record trip_plan : Type := mk_plan {
  tp_narrative : json; tp_slug : string; tp_route : json * json * json * json;
  tp_weather : json; tp_calendar : json }.

(** How the script stores a plan in [st.session_state]. *)
Definition stored (p : trip_plan) : session :=
  mk_session (Some true)
    (Some (plan_data ∅ (tp_narrative p) (tp_slug p) (tp_route p) (tp_weather p) (tp_calendar p))).

(** The abstraction: the empty session is the empty cache; a stored plan
    is the cache holding it.  Other sessions (a planned session with a
    partial or empty [trip_data]) have no abstract counterpart. *)
Inductive abs_cache : session -> option trip_plan -> Prop :=
| abs_empty : abs_cache empty_session None
| abs_stored p : abs_cache (stored p) (Some p).

(** The spec's [getOrCreate] (section 4.4): the first call stores the
    plan the orchestrator made, every later call returns the stored one. *)
Definition get_or_create (fresh : trip_plan) (c : option trip_plan) : trip_plan * option trip_plan :=
  match c with
  | Some p => (p, Some p)
  | None => (fresh, Some fresh)
  end.

(** C4: refinement of the session cache.  A run with a click, both
    cities and both dates, not interrupted, is a [getOrCreate] step of
    the abstract cache: from the empty cache it stores a complete plan
    made of the adapters' answers (with the slug of the destination);
    from a cache holding a plan it keeps that plan, whatever the new
    request says. *)
Theorem run_refines_get_or_create ad `{!AdapterContract ad} r inp w c d0 d1 rest :
  Client.configured (rt_env r) = true ->
  abs_cache (w_session w) c ->
  in_clicked inp = true -> in_source inp <> "" -> in_destination inp <> "" ->
  in_travel_dates inp = d0 :: d1 :: rest ->
  exists fresh,
    tp_slug fresh = destination_slug (in_destination inp) /\
    abs_cache (w_session (world_after (run ad r inp None w))) (snd (get_or_create fresh c)).
Proof.
  intros Hcfg Habs Hc Hs Hd Hdates. inversion Habs as [Hw Hc0 | p Hw Hc0]; subst c.
  - rewrite run_world, Hcfg, (Page.page_top_run inp r (start w None) 0 (or_introl eq_refl)).
    match goal with |- context [trigger ad inp r ?st] =>
      destruct (trigger_fresh_run ad inp r st d0 d1 rest) as (resp & route & fc & link & s' & E & _ & Hss & _);
        [reflexivity | simpl; now rewrite <- Hw | assumption .. |]
    end.
    rewrite E. simpl. rewrite Hss.
    exists (mk_plan resp (destination_slug (in_destination inp)) route fc link).
    split; [reflexivity|]. apply (abs_stored (mk_plan resp _ route fc link)).
  - exists (mk_plan JNone (destination_slug (in_destination inp)) Routing.no_route JNone JNone).
    split; [reflexivity|].
    rewrite (run_planned_fixed ad (trigger_planned_frame ad)) by (rewrite <- Hw; discriminate). simpl. rewrite <- Hw. constructor.
Qed.

(** ** Runs without an AI configuration *)

(** C25: the app needs its AI configuration before it can do anything.
    When the environment gives neither an AI key (app.py's
    [AZURE_OPENAI_KEY], or the library's [AZURE_OPENAI_API_KEY] or
    [AZURE_OPENAI_AD_TOKEN]) nor, failing that, an endpoint, every run
    raises at app.py:23 while the client is built: nothing is drawn, no
    service is called and the session does not change, whatever the
    user does.  A missing AI key does not degrade the AI part alone. *)
Theorem unconfigured_client_fails_every_run ad r inp stop w :
  Client.configured (rt_env r) = false ->
  exists e, run ad r inp stop w = (Raised e, start w stop) /\
    (exn_cls e = OtherError "openai.OpenAIError" \/ exn_cls e = ValueError).
Proof.
  intros Hcfg. rewrite run_setup, Hcfg, setup_result, Hcfg. simpl.
  destruct (env_lookup "AZURE_OPENAI_KEY" (rt_env r)), (env_lookup "AZURE_OPENAI_API_KEY" (rt_env r)),
    (env_lookup "AZURE_OPENAI_AD_TOKEN" (rt_env r)); eexists; split; try reflexivity; simpl; auto.
Qed.

(** ** A planned session that no run can change *)

(** On a planned session the block returns, keeps the session and the
    run uninterrupted. *)
Lemma trigger_planned_done ad inp r s :
  ss_trip_planned (s_session s) <> None -> s_stop s = None ->
  exists s1, trigger ad inp r s = (Done tt, s1) /\ s_session s1 = s_session s /\ s_stop s1 = None.
Proof.
  intros Hp Hs. rewrite trigger_unfold by (rewrite Hs; discriminate).
  destruct (in_clicked inp || planned_truthy (s_session s));
    [destruct (String.eqb (in_source inp) "" || String.eqb (in_destination inp) "")|].
  - rewrite st_emit_run by (simpl; rewrite Hs; discriminate).
    eexists. split; [reflexivity|]. simpl. now rewrite Hs.
  - unfold plan_trip, bind, get_session. simpl.
    destruct (ss_trip_planned (s_session s)); [|congruence].
    eexists. split; [reflexivity|]. simpl. now rewrite Hs.
  - eexists. split; [reflexivity|]. simpl. now rewrite Hs.
Qed.

(** The render of a session whose [trip_data] has no narrative shows
    nothing. *)
Lemma render_without_response d data r s :
  ss_trip_data (s_session s) = Some data -> data !! "response" = None ->
  Presenter.render d r s = (Done tt, s).
Proof.
  intros Hd Hr. unfold Presenter.render, bind, get_session. simpl. rewrite Hd, Hr. reflexivity.
Qed.

(** C10: a click while the date range holds a single date ruins the
    session.  From a fresh session, the run sets ["trip_planned"] and an
    empty [trip_data] and calls nothing; from then on every run, whatever
    the user enters, leaves the session as it is, so no plan is ever made
    or shown in this session. *)
Theorem short_dates_stick ad r inp :
  Client.configured (rt_env r) = true ->
  in_clicked inp = true -> in_source inp <> "" -> in_destination inp <> "" ->
  (length (in_travel_dates inp) < 2)%nat ->
  world_after (run ad r inp None initial_world) = mk_world (mk_session (Some true) (Some ∅)) [] /\
  (forall w', clos_refl_trans_1n world (step ad) (mk_world (mk_session (Some true) (Some ∅)) []) w' ->
     w' = mk_world (mk_session (Some true) (Some ∅)) []) /\
  (forall d r' s', s_session s' = mk_session (Some true) (Some ∅) ->
     Presenter.render d r' s' = (Done tt, s')).
Proof.
  intros Hcfg Hc Hs Hd Hlen. split; [|split].
  - rewrite run_world, Hcfg, (Page.page_top_run inp r (start initial_world None) 0 (or_introl eq_refl)).
    rewrite trigger_short_dates by (first [reflexivity | assumption]). reflexivity.
  - intros w' H. apply (star_planned_fixed ad (trigger_planned_frame ad) _ w'); [simpl; discriminate | exact H].
  - intros d r' s' E. apply (render_without_response d ∅); [now rewrite E | reflexivity].
Qed.

(** ** A planning pass cut short *)

Definition partial_data (response : json) (destination : string) : gmap string json :=
  <["destination_slug" := JStr (destination_slug destination)]> (<["response" := response]> ∅).

(** A run on a planned session whose [trip_data] holds the narrative and
    the slug but no forecast raises [KeyError('forecast')]. *)
Lemma run_partial_raises ad r inp w response destination :
  Client.configured (rt_env r) = true ->
  w_session w = mk_session (Some true) (Some (partial_data response destination)) ->
  fst (run ad r inp None w) = Raised (mk_exn KeyError (quote "forecast")).
Proof.
  intros Hcfg Hw. rewrite run_setup, Hcfg. unfold run_body.
  rewrite (bind_Done _ _ _ _ _ _ (Page.page_top_run inp r (start w None) 0 (or_introl eq_refl))).
  set (s0 := mk_state _ _ _ _).
  destruct (trigger_planned_done ad inp r s0) as (s1 & E & Hs1 & Hst1);
    [simpl; rewrite Hw; discriminate | reflexivity |].
  rewrite (bind_Done _ _ _ _ _ _ E). unfold bind at 1.
  assert (Hd : ss_trip_data (s_session s1) = Some (partial_data response destination))
    by (rewrite Hs1; simpl; now rewrite Hw).
  assert (Hr : fst (Presenter.render (in_destination inp) r s1)
               = Raised (mk_exn KeyError (quote "forecast"))).
  { apply (Presenter.render_missing_forecast _ (partial_data response destination) response
             (JStr (destination_slug destination))); first [exact Hst1 | exact Hd | reflexivity]. }
  destruct (Presenter.render (in_destination inp) r s1) as [o s2]. simpl in Hr. now subst o.
Qed.

(** A stop request that lands on the third element the planning block
    draws: after the page top, the button and the spinner's placeholder,
    the next element is the routing adapter's error message. *)
Definition stop_in_block : option nat := Some (length Page.top_page + 2)%nat.

(** C11: a run cut short inside the planning block breaks the session.
    When Streamlit stops the first planning run at the routing adapter's
    error message (a rerun requested while the plan is computed), the
    session keeps ["trip_planned"] with a [trip_data] holding only the
    narrative and the slug; every later run then crashes with
    [KeyError('forecast')], and no later run plans again. *)
Theorem interrupted_plan_breaks_session r inp d0 d1 rest response :
  Client.configured (rt_env r) = true ->
  Routing.str_falsy (env_lookup "ORS_API_KEY" (rt_env r)) = true ->
  (forall msg, svc_ai (rt_svc r) (env_lookup "AZURE_DEPLOYMENT_ID" (rt_env r)) Ai.system_prompt msg
               = Ok response) ->
  in_clicked inp = true -> in_source inp <> "" -> in_destination inp <> "" ->
  in_travel_dates inp = d0 :: d1 :: rest ->
  fst (run app_adapters r inp stop_in_block initial_world) = Halted /\
  w_session (world_after (run app_adapters r inp stop_in_block initial_world))
    = mk_session (Some true) (Some (partial_data response (in_destination inp))) /\
  (forall r' inp', Client.configured (rt_env r') = true ->
     fst (run app_adapters r' inp' None (world_after (run app_adapters r inp stop_in_block initial_world)))
     = Raised (mk_exn KeyError (quote "forecast"))).
Proof.
  intros Hcfg Hkey Hai Hc Hs Hd Hdates.
  assert (Hrun : exists s', run app_adapters r inp stop_in_block initial_world = (Halted, s') /\
                  s_session s' = mk_session (Some true) (Some (partial_data response (in_destination inp)))).
  { rewrite run_setup, Hcfg. unfold run_body.
    rewrite (bind_Done _ _ _ _ _ _
               (Page.page_top_run inp r (start initial_world stop_in_block) 2 (or_intror eq_refl))).
    rewrite bind_cases, trigger_fresh by (first [assumption | reflexivity | discriminate]).
    unfold st_spinner. rewrite bind_cases, st_emit_run by (simpl; discriminate).
    unfold finally, try_except, plan_body.
    destruct (build_message inp) as [msg|e] eqn:Hm;
      [| unfold build_message, date_at in Hm; rewrite Hdates in Hm; discriminate].
    cbn [lift]. rewrite (bind_Done _ _ r _ _ _ eq_refl). simpl ad_ai.
    rewrite (bind_Done _ _ _ _ _ _ (get_ai_response_ok msg response r _ (Hai msg))).
    erewrite bind_Done by (apply set_trip_data_run; reflexivity).
    erewrite bind_Done by (apply set_trip_data_run; reflexivity).
    simpl ad_route.
    erewrite bind_Halted by (apply get_distance_km_no_key_halts; [exact Hkey | reflexivity]).
    eexists. split; reflexivity. }
  destruct Hrun as (s' & E & Hs'). rewrite E. simpl. split; [reflexivity|]. split; [exact Hs'|].
  intros r' inp' Hcfg'. apply (run_partial_raises _ _ _ _ response (in_destination inp)); assumption.
Qed.

(** ** The shape of a session *)

(** A session is empty, or planned with a [trip_data] dictionary. *)
Definition session_shape (ss : session) : Prop :=
  ss = empty_session \/ exists d, ss = mk_session (Some true) (Some d).

Lemma shape_step ad `{!AdapterContract ad} w w' :
  step ad w w' -> session_shape (w_session w) -> session_shape (w_session w').
Proof.
  intros Hstep Hsh. inversion Hstep as [r inp stop w0 E1 E2]; subst.
  destruct Hsh as [He | (d & Hd)];
    [| rewrite (run_planned_fixed ad (trigger_planned_frame ad)) by (rewrite Hd; discriminate);
       right; eauto].
  rewrite run_world. destruct (Client.configured (rt_env r)); [|left; exact He].
  pose proof (Page.page_top_keeps_session inp r (start w stop)) as Ht.
  destruct (Page.page_top inp r (start w stop)) as [[v|e|] s0]; [|left; exact He ..].
  simpl in Ht. destruct (trigger_from_empty ad v r s0) as [E | (d & E)]; [congruence | |];
    simpl; rewrite E; [left | right]; eauto.
Qed.

(** C22: the session invariant.  In every session a sequence of runs can
    reach, whatever the inputs, service answers and interruptions,
    [st.session_state] is either empty or holds ["trip_planned"] set to
    [True] together with a [trip_data] dictionary: the two keys are
    written together (no [st.*] call lies between lines 214 and 215),
    and the flag is never [False]. *)
Theorem reachable_session_shape ad `{!AdapterContract ad} w :
  reachable ad w -> session_shape (w_session w).
Proof.
  intros Hr. apply (star_invariant (step ad) (fun w => session_shape (w_session w))
                      (shape_step ad) initial_world w Hr).
  now left.
Qed.

(** A stored plan whose distance is absent or a float is shown in full:
    the plan's elements, then the distance and the map if any. *)
Lemma render_stored_plan destination response slug dist cs ce rc forecast link r s :
  s_stop s = None ->
  ss_trip_data (s_session s) = Some (plan_data ∅ response slug (dist, cs, ce, rc) forecast link) ->
  (dist = JNone \/ exists q, dist = JFloat q) ->
  exists us, Presenter.render destination r s
             = (Done tt, Presenter.page_more s (Presenter.plan_items destination slug response
                                                  forecast link ++ us)%list).
Proof.
  intros Hs Hd [-> | [q ->]].
  - exists []. rewrite app_nil_r.
    rewrite (Presenter.render_plan_prefix _ _ response slug forecast link) by (first [exact Hs | exact Hd | reflexivity]).
    reflexivity.
  - rewrite (Presenter.render_plan_with_route _ _ response slug forecast link q cs ce rc)
      by (first [exact Hs | exact Hd | reflexivity]).
    match goal with |- context [Presenter.show_route_on_map cs ce rc r ?st] =>
      destruct (Presenter.show_route_on_map_done cs ce rc r st) as (us & E); [exact Hs|] end.
    rewrite E. eexists. unfold Presenter.page_more. simpl. now rewrite <- !app_assoc.
Qed.

(** C23: progress.  In a fresh session, the first click with both
    cities and two dates is served in the same run, whatever the four
    services answer or raise: the run returns, the session is planned
    and the page shows the plan: the narrative, the links to the
    destination's slug, the weather and the calendar answers, in this
    order. *)
Theorem first_click_shows_plan r inp d0 d1 rest :
  Client.configured (rt_env r) = true ->
  in_clicked inp = true -> in_source inp <> "" -> in_destination inp <> "" ->
  in_travel_dates inp = d0 :: d1 :: rest ->
  exists response forecast link s' pre post,
    run app_adapters r inp None initial_world = (Done tt, s') /\
    ss_trip_planned (s_session s') = Some true /\
    s_page s' = (pre ++ Presenter.plan_items (in_destination inp) (destination_slug (in_destination inp))
                          response forecast link ++ post)%list.
Proof.
  intros Hcfg Hc Hs Hd Hdates. rewrite run_setup, Hcfg. unfold run_body.
  rewrite (bind_Done _ _ _ _ _ _
             (Page.page_top_run inp r (start initial_world None) 0 (or_introl eq_refl))).
  cbv beta. rewrite bind_cases.
  match goal with |- context [trigger app_adapters inp r ?st] =>
    destruct (trigger_fresh_run app_adapters inp r st d0 d1 rest)
      as (resp & [[[dist cs] ce] rc] & fc & link & s1 & E & Hst & Hss & (sa & sb & Hroute));
      [reflexivity | reflexivity | assumption ..|]
  end.
  rewrite E.
  pose proof (Routing.get_distance_km_distance (in_source inp) (in_destination inp) r sa) as Hdist.
  simpl in Hroute. rewrite Hroute in Hdist. simpl in Hdist.
  destruct (render_stored_plan (in_destination inp) resp (destination_slug (in_destination inp))
              dist cs ce rc fc link r s1) as (us & Er); [exact Hst | rewrite Hss; reflexivity | exact Hdist |].
  rewrite (bind_Done _ _ _ _ _ _ Er), footer_run by exact Hst.
  exists resp, fc, link. eexists. exists (s_page s1), (us ++ [UMarkdown "---"; UMarkdown footer_html])%list.
  split; [reflexivity|]. split; [simpl; now rewrite Hss|].
  unfold page_add, Presenter.page_more. simpl. now rewrite <- !app_assoc.
Qed.

(** ** Witnesses *)

Definition demo_world : world := world_after (run app_adapters demo_runtime demo_inputs None initial_world).

Lemma demo_world_reachable : reachable app_adapters demo_world.
Proof.
  apply (Relation_Operators.rt1n_trans world (step app_adapters) initial_world demo_world demo_world).
  - apply step_run.
  - apply rt1n_refl.
Qed.

Lemma session_calls_at_most_once_witness :
  reachable app_adapters demo_world /\
  (length (List.filter is_ai_call (w_log demo_world)) <= 1 /\
   length (List.filter is_cal_call (w_log demo_world)) <= 1)%nat.
Proof. split; [exact demo_world_reachable | apply session_calls_at_most_once; exact demo_world_reachable]. Defined.

Definition planned_world : world := mk_world (mk_session (Some true) (Some ∅)) [].

Lemma planned_session_is_fixed_witness :
  world_after (run app_adapters demo_runtime demo_inputs None planned_world) = planned_world.
Proof.
  apply (planned_session_is_fixed app_adapters planned_world); [discriminate|].
  apply (Relation_Operators.rt1n_trans world (step app_adapters) planned_world
           (world_after (run app_adapters demo_runtime demo_inputs None planned_world))).
  - apply step_run.
  - apply rt1n_refl.
Defined.

Definition one_date_inputs : inputs :=
  mk_inputs "Delhi" "Paris" [mk_date 2025 6 1] 2000 ["Sightseeing"] "Any" [] [] true.

Lemma short_dates_stick_witness :
  world_after (run app_adapters demo_runtime one_date_inputs None initial_world)
  = mk_world (mk_session (Some true) (Some ∅)) [] /\
  (forall w', clos_refl_trans_1n world (step app_adapters) (mk_world (mk_session (Some true) (Some ∅)) []) w' ->
     w' = mk_world (mk_session (Some true) (Some ∅)) []) /\
  (forall d r' s', s_session s' = mk_session (Some true) (Some ∅) ->
     Presenter.render d r' s' = (Done tt, s')).
Proof.
  apply (short_dates_stick app_adapters demo_runtime one_date_inputs);
    first [reflexivity | discriminate | simpl; lia].
Defined.

Definition no_ors_runtime : runtime :=
  mk_runtime [("AZURE_OPENAI_KEY", "demo-azure"); ("AZURE_OPENAI_ENDPOINT", "https://demo.openai.azure.com");
              ("AZURE_DEPLOYMENT_ID", "travel-gpt")] (rt_svc demo_runtime).

Lemma interrupted_plan_breaks_session_witness :
  fst (run app_adapters no_ors_runtime demo_inputs stop_in_block initial_world) = Halted /\
  w_session (world_after (run app_adapters no_ors_runtime demo_inputs stop_in_block initial_world))
    = mk_session (Some true) (Some (partial_data (JStr demo_narrative) "Paris")) /\
  fst (run app_adapters demo_runtime demo_inputs None
         (world_after (run app_adapters no_ors_runtime demo_inputs stop_in_block initial_world)))
  = Raised (mk_exn KeyError (quote "forecast")).
Proof.
  destruct (interrupted_plan_breaks_session no_ors_runtime demo_inputs (mk_date 2025 6 1)
              (mk_date 2025 6 10) [] (JStr demo_narrative) eq_refl eq_refl (fun _ => eq_refl) eq_refl
              ltac:(discriminate) ltac:(discriminate) eq_refl)
    as (H1 & H2 & H3).
  split; [exact H1 | split; [exact H2 | exact (H3 demo_runtime demo_inputs eq_refl)]].
Defined.

Lemma run_refines_get_or_create_witness :
  exists fresh,
    tp_slug fresh = destination_slug "Paris" /\
    abs_cache (w_session (world_after (run app_adapters demo_runtime demo_inputs None initial_world)))
      (snd (get_or_create fresh None)).
Proof.
  apply (run_refines_get_or_create app_adapters demo_runtime demo_inputs initial_world None
           (mk_date 2025 6 1) (mk_date 2025 6 10) []);
    first [apply abs_empty | reflexivity | discriminate].
Defined.

Lemma reachable_session_shape_witness :
  reachable app_adapters demo_world /\ session_shape (w_session demo_world).
Proof.
  split; [exact demo_world_reachable|].
  apply (reachable_session_shape app_adapters). exact demo_world_reachable.
Defined.

Lemma session_call_order_witness :
  reachable app_adapters demo_world /\ segmented call_order (w_log demo_world).
Proof.
  split; [exact demo_world_reachable|].
  apply session_call_order. exact demo_world_reachable.
Defined.

Lemma first_click_shows_plan_witness :
  exists response forecast link s' pre post,
    run app_adapters demo_runtime demo_inputs None initial_world = (Done tt, s') /\
    ss_trip_planned (s_session s') = Some true /\
    s_page s' = (pre ++ Presenter.plan_items "Paris" (destination_slug "Paris")
                          response forecast link ++ post)%list.
Proof.
  exact (first_click_shows_plan demo_runtime demo_inputs (mk_date 2025 6 1) (mk_date 2025 6 10) []
           eq_refl eq_refl ltac:(discriminate) ltac:(discriminate) eq_refl).
Defined.

Definition unconfigured_runtime : runtime := mk_runtime [] (rt_svc demo_runtime).

Lemma unconfigured_client_fails_every_run_witness :
  exists e, run app_adapters unconfigured_runtime demo_inputs None initial_world
            = (Raised e, start initial_world None) /\
    (exn_cls e = OtherError "openai.OpenAIError" \/ exn_cls e = ValueError).
Proof. apply unconfigured_client_fails_every_run. reflexivity. Defined.
